(** * CashFlow: the risk agent (src/agents/risk_agent.py)

    A shallow embedding of [RiskAgent] and of the parts of [Config] and of the
    persistence service it talks to, followed by the properties of the
    anomaly-scoring engine.

    Conventions of the embedding.
    - A Python [dict] with string keys is a [gmap string _]; [d[k]] raises
      [KeyError] on a missing key, [d.get(k, v)] falls back to [v].
    - A Python [float] is the real number it stands for, and so is an [int]
      or a [bool] in arithmetic position.  A floating-point operation does
      not return the exact result but the double nearest to it: that
      rounding, [np.mean], [np.std] and [str.lower] belong to the runtime,
      of which the model assumes nothing (class [Runtime]).  Infinities and
      NaN are outside the model, and integers are taken to become floats
      without loss, as they do below 2^53.
    - A Python exception is a value of [exn]; code that may raise lives in the
      monad [exc]; [try ... except Exception] is [try_except].
    - Library code that is not part of the repository (the isolation forest of
      scikit-learn, [datetime.fromisoformat], [str] and [format] on floats) is
      a variable of the section that holds the agent. *)

From Stdlib Require Import Reals Lra Lia ZArith List.
From stdpp Require Import gmap strings list fin_maps pretty.

Open Scope string_scope.

(** ** Python values *)

(** [datetime.datetime], naive (no time zone), as [datetime.utcnow()] makes. *)
Record datetime := mk_datetime {
  year : Z; month : Z; day : Z;
  hour : Z; minute : Z; second : Z; microsecond : Z
}.

(** The values a field of a stored transaction or of the extracted entities
    can hold: the scalars of a BSON document or of a JSON object.  An
    [ObjectId] is known by the 24 hexadecimal digits that [str] prints. *)
Inductive pyval :=
| PNone
| PBool (b : bool)
| PInt (z : Z)
| PFloat (x : R)
| PStr (s : string)
| PDatetime (d : datetime)
| PObjectId (hex : string).

(** What a detector result can hold: a scalar, or the list of hours of the
    timing detector. *)
Inductive pyobj :=
| Scalar (v : pyval)
| IntList (l : list Z).

Coercion Scalar : pyval >-> pyobj.

Abbreviation dict := (gmap string pyval).
Abbreviation result := (gmap string pyobj).

(** ** Exceptions *)

Inductive exn :=
| KeyError (key : string)
| TypeError (msg : string)
| AttributeError (msg : string)
| ValueError (msg : string)
| LibraryError (msg : string).

(** [str(e)]: a [KeyError] prints the repr of its key. *)
Definition str_exn (e : exn) : string :=
  match e with
  | KeyError k => "'" ++ k ++ "'"
  | TypeError m | AttributeError m | ValueError m | LibraryError m => m
  end.

Inductive exc (A : Type) :=
| ok (a : A)
| raise (e : exn).

Arguments ok {A} a.
Arguments raise {A} e.

(** Sequencing: the first exception ends the computation.  With these two
    instances [x ← c; k] and [mret] are available for [exc]. *)
#[global] Instance exc_ret : MRet exc := fun _ a => ok a.

#[global] Instance exc_bind : MBind exc := fun _ _ k c =>
  match c with
  | ok a => k a
  | raise e => raise e
  end.

(** [try: body  except Exception as e: handler(e)] where both return. *)
Definition try_except {A} (body : exc A) (handler : exn → A) : A :=
  match body with
  | ok a => a
  | raise e => handler e
  end.

Definition raises {A} (c : exc A) : Prop := ∃ e, c = raise e.

(** ** Real-number tests as booleans *)

Definition Rltb (x y : R) : bool := if Rlt_dec x y then true else false.
Definition Rleb (x y : R) : bool := if Rle_dec x y then true else false.
Definition Reqb (x y : R) : bool := if Req_dec_T x y then true else false.

(** ** Primitive operations of Python on [pyval] *)

Definition type_name (v : pyval) : string :=
  match v with
  | PNone => "NoneType"
  | PBool _ => "bool"
  | PInt _ => "int"
  | PFloat _ => "float"
  | PStr _ => "str"
  | PDatetime _ => "datetime.datetime"
  | PObjectId _ => "ObjectId"
  end.

(** The number a value stands for in arithmetic; [bool] is a subclass of
    [int]. *)
Definition as_num (v : pyval) : option R :=
  match v with
  | PBool b => Some (if b then 1%R else 0%R)
  | PInt z => Some (IZR z)
  | PFloat x => Some x
  | _ => None
  end.

Definition is_num (v : pyval) : Prop := is_Some (as_num v).

(** [bool(v)] *)
Definition truthy (v : pyval) : bool :=
  match v with
  | PNone => false
  | PBool b => b
  | PInt z => negb (Z.eqb z 0)
  | PFloat x => negb (Reqb x 0)
  | PStr s => negb (String.eqb s "")
  | PDatetime _ => true
  | PObjectId _ => true
  end.

Definition truthy_obj (o : pyobj) : bool :=
  match o with
  | Scalar v => truthy v
  | IntList l => negb (Nat.eqb (length l) 0)
  end.

(** [d[k]] *)
Definition getitem {V} (d : gmap string V) (k : string) : exc V :=
  match d !! k with
  | Some v => ok v
  | None => raise (KeyError k)
  end.

(** [d.get(k, dflt)] *)
Definition get {V} (d : gmap string V) (k : string) (dflt : V) : V :=
  default dflt (d !! k).

(** [v == 0] never raises. *)
Definition eq0 (v : pyval) : bool :=
  match as_num v with
  | Some x => Reqb x 0
  | None => false
  end.

(** A number out of [v] for a binary arithmetic operator [op]. *)
Definition operand (op : string) (v : pyval) : exc R :=
  match as_num v with
  | Some x => ok x
  | None =>
      raise (TypeError ("unsupported operand type(s) for " ++ op ++ ": '"
                          ++ type_name v ++ "'"))
  end.

(** ** The runtime

    What the interpreter, the machine and numpy compute, none of it code of
    the repository. *)
Class Runtime := {
  (** the double nearest to a real number: what a floating-point operation
      returns for its exact result *)
  nearest : R → R;
  (** [np.mean] and [np.std] (with its default [ddof = 0]) of the values
      of an array *)
  np_mean : list R → R;
  np_std : list R → R;
  (** [str.lower()] *)
  lower : string → string
}.

(** [v.lower()] *)
Definition py_lower `{Runtime} (v : pyval) : exc string :=
  match v with
  | PStr s => ok (lower s)
  | _ =>
      raise (AttributeError ("'" ++ type_name v
                               ++ "' object has no attribute 'lower'"))
  end.

(** ** numpy *)

(** [np.array(values)] for a list of numbers. *)
Definition np_array (l : list pyval) : exc (list R) :=
  mapM (operand "array") l.

(** ** Comprehensions *)

(** [[elt(x) for x in l if cond(x)]], evaluated left to right. *)
Fixpoint list_comp {A B} (cond : A → exc bool) (elt : A → exc B)
    (l : list A) : exc (list B) :=
  match l with
  | [] => mret []
  | x :: l' =>
      c ← cond x;
      if (c : bool) then y ← elt x; ys ← list_comp cond elt l'; mret (y :: ys)
      else list_comp cond elt l'
  end.

(** [v > c] for a numeric literal [c]: an order comparison with a number
    raises on anything that is not a number. *)
Definition gt (v : pyval) (c : R) : exc bool :=
  match as_num v with
  | Some x => ok (Rltb c x)
  | None =>
      raise (TypeError ("'>' not supported between instances of '"
                          ++ type_name v ++ "' and 'int'"))
  end.

(** [a / b] where [b] is known not to be zero. *)
Definition truediv `{Runtime} (a b : pyval) : exc R :=
  x ← operand "/" a; y ← operand "/" b; mret (nearest (x / y))%R.

(** [v * 100] *)
Definition times100 `{Runtime} (v : pyval) : pyval :=
  match v with
  | PInt z => PInt (z * 100)
  | PFloat x => PFloat (nearest (x * 100))
  | _ => v
  end.

(** ** src/config.py *)

Module Config.
Definition LIQUIDITY_ALERT_THRESHOLD_DAYS : Z := 7.
Definition LOW_STOCK_THRESHOLD : Z := 10.
(** Isolation Forest contamination rate *)
Definition ANOMALY_THRESHOLD : R := (15 / 100)%R.
End Config.

(** ** The persistence service, as far as the agent uses it
    (src/services/mongodb_service.py) *)

Record alert := mk_alert {
  alert_user_id : string;
  alert_type : string;
  alert_message : string;
  alert_severity : string
}.

(** [stored user_id] is the answer of the range query of the last 60 days
    for that user (the clock is not part of the model); [alerts] is the
    alert collection, oldest first. *)
Record db_service := mk_db {
  stored : string → list dict;
  alerts : list alert
}.

Definition get_transactions_range (db : db_service) (user_id : string)
    : list dict :=
  stored db user_id.

Definition create_alert (db : db_service)
    (user_id type message severity : string) : db_service :=
  {| stored := stored db;
     alerts := alerts db ++ [mk_alert user_id type message severity] |}.

(** ** The verdict of [analyze_transaction]

    The dict [response]; the keys ['message'] and ['details'] are set on some
    paths only. *)
Record response := mk_response {
  anomaly_detected : bool;
  risk_score : R;
  response_alerts : list alert;
  message : option string;
  details : option (list result)
}.

(** ** The agent *)

Record RiskAgent := mk_agent {
  anomaly_threshold : R
}.

(** [RiskAgent.__init__] *)
Definition RiskAgent_init : RiskAgent :=
  {| anomaly_threshold := Config.ANOMALY_THRESHOLD |}.

(** [{'check': name, 'is_anomaly': False}] *)
Definition no_evidence (name : string) : result :=
  <["check" := Scalar (PStr name)]>
    (<["is_anomaly" := Scalar (PBool false)]> ∅).

(** [{'check': name, 'is_anomaly': False, 'error': str(e)}] *)
Definition error_result (name : string) (e : exn) : result :=
  <["check" := Scalar (PStr name)]>
    (<["is_anomaly" := Scalar (PBool false)]>
       (<["error" := Scalar (PStr (str_exn e))]> ∅)).

Section Agent.

Context `{Runtime}.

(** *** Library code outside the repository *)

(** scikit-learn: [IsolationForest(contamination, random_state).fit(X)]
    and [clf.predict([[x]])[0]]; both may raise. *)
Variable forest : Type.
Variable IsolationForest_fit : R → Z → list R → exc forest.
Variable predict : forest → pyval → exc Z.

(** [datetime.fromisoformat] on a string. *)
Variable parse_iso : string → exc datetime.

(** [str(x)] and [format(x, '.<d>f')] for a float [x], [str(d)] for a
    datetime. *)
Variable float_str : R → string.
Variable float_fixed : nat → R → string.
Variable datetime_str : datetime → string.

(** [datetime.fromisoformat(v)] *)
Definition fromisoformat (v : pyval) : exc datetime :=
  match v with
  | PStr s => parse_iso s
  | _ => raise (TypeError "fromisoformat: argument must be str")
  end.

(** [str(o)], which is what [f"{o}"] prints. *)
Definition py_str (o : pyobj) : string :=
  match o with
  | Scalar PNone => "None"
  | Scalar (PBool b) => if b then "True" else "False"
  | Scalar (PInt z) => pretty z
  | Scalar (PFloat x) => float_str x
  | Scalar (PStr s) => s
  | Scalar (PDatetime d) => datetime_str d
  | Scalar (PObjectId hex) => hex
  | IntList l => "[" ++ String.concat ", " (pretty <$> l) ++ "]"
  end.

(** [format(o, '.<d>f')], which is what [f"{o:.<d>f}"] prints.  A datetime
    hands the format to [strftime], which copies it. *)
Definition py_format_f (d : nat) (o : pyobj) : exc string :=
  match o with
  | Scalar (PStr _) =>
      raise (ValueError "Unknown format code 'f' for object of type 'str'")
  | Scalar PNone =>
      raise (TypeError
               "unsupported format string passed to NoneType.__format__")
  | Scalar (PDatetime _) => ok ("." ++ pretty d ++ "f")
  | Scalar (PObjectId _) =>
      raise (TypeError
               "unsupported format string passed to ObjectId.__format__")
  | IntList _ =>
      raise (TypeError "unsupported format string passed to list.__format__")
  | Scalar v =>
      match as_num v with
      | Some x => ok (float_fixed d x)
      | None => raise (TypeError "unsupported format string")
      end
  end.

Variable self : RiskAgent.

(** *** check_amount_anomaly *)

(** The [try] block. *)
Definition amount_body (transaction : dict) (historical : list dict)
    : exc result :=
  amounts ← list_comp (λ txn, a ← getitem txn "amount"; gt a 0)
                      (λ txn, getitem txn "amount") historical;
  if (length amounts <? 10)%nat then mret (no_evidence "amount")
  else
    X ← np_array amounts;
    clf ← IsolationForest_fit (anomaly_threshold self) 42 X;
    current_amount ← getitem transaction "amount";
    prediction ← predict clf current_amount;
    let is_anomaly := Z.eqb prediction (-1) in
    mret (<["check" := Scalar (PStr "amount")]>
           (<["is_anomaly" := Scalar (PBool is_anomaly)]>
             (<["value" := Scalar current_amount]>
               (<["mean" := Scalar (PFloat (np_mean X))]>
                 (<["std" := Scalar (PFloat (np_std X))]> ∅))))).

(** The [except] branch also prints the exception; the model has no
    standard output. *)
Definition check_amount_anomaly (transaction : dict)
    (historical : list dict) : result :=
  try_except (amount_body transaction historical) (error_result "amount").

(** *** check_quantity_anomaly *)

(** The [try] block. *)
Definition quantity_body (transaction : dict) (historical : list dict)
    : exc result :=
  quantities ← list_comp (λ txn, gt (get txn "quantity" (PInt 0)) 0)
                         (λ txn, getitem txn "quantity") historical;
  if (length quantities <? 10)%nat then mret (no_evidence "quantity")
  else
    Q ← np_array quantities;
    let mean_qty := np_mean Q in
    let std_qty := np_std Q in
    let current_qty := get transaction "quantity" (PInt 0) in
    z_score ← (if Rltb 0 std_qty
               then c ← operand "-" current_qty;
                    mret (PFloat (Rabs (nearest (nearest (c - mean_qty)
                                                 / std_qty))))
               else mret (PInt 0));
    is_anomaly ← gt z_score 3;
    mret (<["check" := Scalar (PStr "quantity")]>
           (<["is_anomaly" := Scalar (PBool is_anomaly)]>
             (<["value" := Scalar current_qty]>
               (<["z_score" := Scalar z_score]> ∅)))).

Definition check_quantity_anomaly (transaction : dict)
    (historical : list dict) : result :=
  try_except (quantity_body transaction historical)
             (error_result "quantity").

(** *** check_unusual_timing *)

Definition hour_of (txn : dict) : exc Z :=
  c ← getitem txn "created_at"; t ← fromisoformat c; mret (hour t).

(** [list(set(hours))]; the order in which CPython lists a set is not
    specified, here it is the order of first occurrence. *)
Definition list_set (hours : list Z) : list Z := remove_dups hours.

(** The [try] block. *)
Definition timing_body (transaction : dict) (historical : list dict)
    : exc result :=
  txn_hour ← hour_of transaction;
  historical_hours ← mapM hour_of historical;
  let is_unusual := (23 <=? txn_hour)%Z || (txn_hour <=? 5)%Z in
  let never_used := negb (bool_decide (txn_hour ∈ historical_hours)) in
  mret (<["check" := Scalar (PStr "timing")]>
         (<["is_anomaly" := Scalar (PBool (is_unusual && never_used))]>
           (<["hour" := Scalar (PInt txn_hour)]>
             (<["typical_hours" := IntList (list_set historical_hours)]>
                ∅)))).

Definition check_unusual_timing (transaction : dict)
    (historical : list dict) : result :=
  try_except (timing_body transaction historical) (error_result "timing").

(** *** check_price_deviation *)

(** The loop that collects the historical prices per unit of [item]. *)
Fixpoint historical_prices_of (item : pyval) (historical : list dict)
    : exc (list R) :=
  match historical with
  | [] => mret []
  | txn :: rest =>
      name ← py_lower (get txn "item" (PStr ""));
      wanted ← py_lower item;
      if String.eqb name wanted then
        let qty := get txn "quantity" (PInt 0) in
        let amt := get txn "amount" (PInt 0) in
        positive ← gt qty 0;
        if (positive : bool) then
          price ← truediv amt qty;
          prices ← historical_prices_of item rest;
          mret (price :: prices)
        else historical_prices_of item rest
      else historical_prices_of item rest
  end.

(** The [try] block. *)
Definition price_body (transaction : dict) (historical : list dict)
    (entities : dict) : exc result :=
  let item := get entities "item" PNone in
  if negb (truthy item) then mret (no_evidence "price")
  else
    historical_prices ← historical_prices_of item historical;
    if (length historical_prices <? 3)%nat then mret (no_evidence "price")
    else
      let current_qty := get entities "quantity" (PInt 0) in
      let current_amt := get transaction "amount" (PInt 0) in
      if eq0 current_qty then mret (no_evidence "price")
      else
        current_price ← truediv current_amt current_qty;
        let mean_price := np_mean historical_prices in
        let std_price := np_std historical_prices in
        let deviation :=
          if Rltb 0 mean_price
          then PFloat (Rabs (nearest (nearest (current_price - mean_price)
                                        / mean_price)))
          else PInt 0 in
        is_anomaly ← gt deviation (5 / 10);
        mret (<["check" := Scalar (PStr "price")]>
               (<["is_anomaly" := Scalar (PBool is_anomaly)]>
                 (<["current_price" := Scalar (PFloat current_price)]>
                   (<["mean_price" := Scalar (PFloat mean_price)]>
                     (<["deviation_pct" := Scalar (times100 deviation)]>
                        ∅))))).

Definition check_price_deviation (transaction : dict)
    (historical : list dict) (entities : dict) : result :=
  try_except (price_body transaction historical entities)
             (error_result "price").

(** *** generate_risk_message *)

(** [o == s] for a string literal [s]. *)
Definition is_str (o : pyobj) (s : string) : bool :=
  match o with
  | Scalar (PStr s') => String.eqb s' s
  | _ => false
  end.

(** One turn of the loop over the flagged checks: the clauses it appends. *)
Definition clause (check : result) : exc (list string) :=
  name ← getitem check "check";
  if is_str name "amount" then
    v ← getitem check "value"; s ← py_format_f 2 v;
    mret ["Unusual amount: â‚¹" ++ s]
  else if is_str name "quantity" then
    v ← getitem check "value";
    mret ["Unusual quantity: " ++ py_str v]
  else if is_str name "timing" then
    v ← getitem check "hour";
    mret ["Unusual timing: " ++ py_str v ++ ":00"]
  else if is_str name "price" then
    v ← getitem check "deviation_pct"; s ← py_format_f 1 v;
    mret ["Price deviation: " ++ s ++ "%"]
  else mret [].

Definition flagged (check : result) : bool :=
  truthy_obj (get check "is_anomaly" (Scalar PNone)).

Definition generate_risk_message (checks : list result) : exc string :=
  let anomalies := List.filter flagged checks in
  match anomalies with
  | [] => mret "Transaction appears normal"
  | _ =>
      messages ← mapM clause anomalies;
      mret ("Suspicious transaction detected: "
              ++ String.concat ", " (concat messages))
  end.

(** *** analyze_transaction *)

Definition run_checks (transaction : dict) (historical : list dict)
    (entities : dict) : list result :=
  [ check_amount_anomaly transaction historical;
    check_quantity_anomaly transaction historical;
    check_unusual_timing transaction historical;
    check_price_deviation transaction historical entities ].

(** [sum(1 for check in checks if check['is_anomaly'])] *)
Definition count_anomalies (checks : list result) : exc nat :=
  ones ← list_comp (λ check, a ← getitem check "is_anomaly";
                             mret (truthy_obj a))
                   (λ _, mret 1%nat) checks;
  mret (list_sum ones).

Definition analyze_transaction (db : db_service) (user_id : string)
    (transaction entities : dict) : exc (response * db_service) :=
  let response :=
    {| anomaly_detected := false; risk_score := 0;
       response_alerts := []; message := None; details := None |} in
  let historical := get_transactions_range db user_id in
  if (length historical <? 10)%nat then mret (response, db)
  else
    let checks := run_checks transaction historical entities in
    anomaly_count ← count_anomalies checks;
    let score := (INR anomaly_count / INR (length checks))%R in
    if Rltb (5 / 10) score then
      text ← generate_risk_message checks;
      let db' := create_alert db user_id "fraud_risk" text "high" in
      mret ({| anomaly_detected := true; risk_score := score;
               response_alerts := []; message := Some text;
               details := Some checks |}, db')
    else
      mret ({| anomaly_detected := false; risk_score := score;
               response_alerts := []; message := None;
               details := Some checks |}, db).

End Agent.

(** * The persistence service (src/services/mongodb_service.py)

    A collection is the list of its documents in insertion order.  A
    document is kept with the [ObjectId] the driver gave it, represented by
    its hexadecimal text (what [str] makes of it).  A datetime is stored
    with the precision of BSON, a millisecond.  Failures of the driver
    (connection, size limits) are outside the model; the clock and the
    generation of identifiers are arguments of the operations. *)

From stdpp Require sorting.

(** ** More of Python's arithmetic *)

(** The integer a value stands for where Python keeps integers apart from
    floats; [bool] is a subclass of [int]. *)
Definition as_int (v : pyval) : option Z :=
  match v with
  | PBool b => Some (if b then 1 else 0)%Z
  | PInt z => Some z
  | _ => None
  end.

(** [a op b] for [+] and [-] where [a] is a number: integers give an
    integer, a float on either side gives a float, anything else raises. *)
Definition num_op (op : string) (fz : Z → Z → Z) (fr : R → R → R)
    (a b : pyval) : exc pyval :=
  match as_int a, as_int b with
  | Some x, Some y => ok (PInt (fz x y))
  | _, _ =>
      match as_num a, as_num b with
      | Some x, Some y => ok (PFloat (fr x y))
      | _, _ =>
          raise (TypeError ("unsupported operand type(s) for " ++ op ++ ": '"
                              ++ type_name a ++ "' and '" ++ type_name b
                              ++ "'"))
      end
  end.

Definition num_add : pyval → pyval → exc pyval := num_op "+" Z.add Rplus.
Definition num_sub : pyval → pyval → exc pyval := num_op "-" Z.sub Rminus.

(** [-v] *)
Definition py_neg (v : pyval) : exc pyval :=
  match v with
  | PBool b => ok (PInt (if b then -1 else 0))
  | PInt z => ok (PInt (- z))
  | PFloat x => ok (PFloat (- x))
  | _ =>
      raise (TypeError ("bad operand type for unary -: '" ++ type_name v
                          ++ "'"))
  end.

(** [int(x)] for a float [x]: the fraction is cut off, towards zero. *)
Definition py_int (x : R) : Z :=
  if Rle_dec 0 x then Int_part x else (- Int_part (- x))%Z.

Module MongoDBService.

Record document := mk_document {
  oid : string;
  body : dict
}.

Record collections := mk_collections {
  transactions : list document;
  inventory : list document;
  alerts : list document
}.

(** *** What the driver does *)

(** A datetime on its way to the store loses its microseconds below the
    millisecond. *)
Definition to_millis (t : datetime) : datetime :=
  {| year := year t; month := month t; day := day t;
     hour := hour t; minute := minute t; second := second t;
     microsecond := (microsecond t / 1000 * 1000)%Z |}.

Definition to_bson (v : pyval) : pyval :=
  match v with
  | PDatetime t => PDatetime (to_millis t)
  | _ => v
  end.

(** [collection.insert_one(data)] with [new_id] as generated identifier. *)
Definition insert_one (coll : list document) (data : dict) (new_id : string)
    : list document :=
  coll ++ [mk_document new_id (to_bson <$> data)].

(** A document as [find] hands it out: with its [ObjectId]. *)
Definition as_dict (d : document) : dict :=
  <["_id" := PObjectId (oid d)]> (body d).

(** The order of datetimes. *)
Definition datetime_key (t : datetime) : list Z :=
  [year t; month t; day t; hour t; minute t; second t; microsecond t].

Fixpoint lex_leb (a b : list Z) : bool :=
  match a, b with
  | x :: a', y :: b' => (x <? y)%Z || ((x =? y)%Z && lex_leb a' b')
  | [], _ => true
  | _ :: _, [] => false
  end.

Definition datetime_leb (s t : datetime) : bool :=
  lex_leb (datetime_key s) (datetime_key t).

(** The filter [{'user_id': user_id}]. *)
Definition owned_by (user_id : string) (d : document) : bool :=
  match body d !! "user_id" with
  | Some (PStr u) => String.eqb u user_id
  | _ => false
  end.

(** The filter [{'created_at': {'$gte': start_date, '$lte': end_date}}]:
    only a date compares with a date. *)
Definition created_between (start_date end_date : datetime) (d : document)
    : bool :=
  match body d !! "created_at" with
  | Some (PDatetime t) =>
      datetime_leb (to_millis start_date) t
      && datetime_leb t (to_millis end_date)
  | _ => false
  end.

(** The date a document is sorted by; every document that passes
    [created_between] has one. *)
Definition created_at (d : document) : datetime :=
  match body d !! "created_at" with
  | Some (PDatetime t) => t
  | _ => mk_datetime 0 0 0 0 0 0 0
  end.

(** [.sort('created_at', -1)]: newest first; documents of the same date
    stay in their order, which the store does not promise. *)
Definition newer (a b : document) : Prop :=
  datetime_leb (created_at b) (created_at a) = true.

#[global] Instance newer_dec a b : Decision (newer a b).
Proof. unfold newer. apply _. Defined.

(** *** create_transaction *)

Definition transaction_data (user_id : string) (entities : dict)
    (raw_text : string) (created updated : datetime) : dict :=
  <["user_id" := PStr user_id]>
    (<["type" := get entities "type" (PStr "unknown")]>
      (<["item" := get entities "item" PNone]>
        (<["quantity" := get entities "quantity" (PInt 0)]>
          (<["amount" := get entities "amount" (PInt 0)]>
            (<["unit" := get entities "unit" PNone]>
              (<["raw_text" := PStr raw_text]>
                (<["created_at" := PDatetime created]>
                  (<["updated_at" := PDatetime updated]> ∅)))))))).

(** [created] and [updated] are the two readings of the clock, [new_id] the
    identifier of the inserted document.  The transaction returned keeps
    the datetime objects and carries the identifier as text twice. *)
Definition create_transaction (self : collections) (user_id : string)
    (entities : dict) (raw_text : string) (created updated : datetime)
    (new_id : string) : dict * collections :=
  let data := transaction_data user_id entities raw_text created updated in
  let self' :=
    {| transactions := insert_one (transactions self) data new_id;
       inventory := inventory self;
       alerts := alerts self |} in
  (<["id" := PStr new_id]> (<["_id" := PStr new_id]> data), self').

(** *** get_transactions_range *)

Definition get_transactions_range (self : collections) (user_id : string)
    (start_date end_date : datetime) : list dict :=
  let found :=
    sorting.merge_sort newer
      (List.filter (λ d, owned_by user_id d
                         && created_between start_date end_date d)
                   (transactions self)) in
  (λ d, <["id" := PStr (oid d)]> (as_dict d)) <$> found.

(** *** update_inventory *)

(** The numbers of BSON; a boolean is not one of them. *)
Definition is_bson_number (v : pyval) : bool :=
  match v with
  | PInt _ | PFloat _ => true
  | _ => false
  end.

(** Equality as a filter [{field: value}] tests it on scalars: numbers by
    value, whatever their type, everything else within its own type. *)
Definition bson_eqb (a b : pyval) : bool :=
  match a, b with
  | PNone, PNone => true
  | PBool x, PBool y => Bool.eqb x y
  | PInt x, PInt y => (x =? y)%Z
  | PInt x, PFloat y => Reqb (IZR x) y
  | PFloat x, PInt y => Reqb x (IZR y)
  | PFloat x, PFloat y => Reqb x y
  | PStr x, PStr y => String.eqb x y
  | PObjectId x, PObjectId y => String.eqb x y
  | PDatetime x, PDatetime y =>
      datetime_leb (to_millis x) (to_millis y)
      && datetime_leb (to_millis y) (to_millis x)
  | _, _ => false
  end.

(** A missing field counts as null. *)
Definition field_matches (k : string) (v : pyval) (d : document) : bool :=
  bson_eqb (default PNone (body d !! k)) v.

(** The filter [{'user_id': user_id, 'item_name': item}]. *)
Definition stock_of (user_id : string) (item : pyval) (d : document)
    : bool :=
  field_matches "user_id" (PStr user_id) d && field_matches "item_name" item d.

(** [$inc] on one field. *)
Definition inc_field (current : option pyval) (amount : pyval) : exc pyval :=
  match current with
  | None => ok amount
  | Some v =>
      if is_bson_number v then num_add v amount
      else
        raise (LibraryError
                 "Cannot apply $inc to a value of non-numeric type")
  end.

(** [update_one]: the first document that passes the filter is changed;
    [None] when none passes ([matched_count == 0]). *)
Fixpoint update_one (filter : document → bool)
    (change : document → exc document) (coll : list document)
    : exc (option (list document)) :=
  match coll with
  | [] => mret None
  | d :: rest =>
      if filter d then d' ← change d; mret (Some (d' :: rest))
      else
        found ← update_one filter change rest;
        match found with
        | Some rest' => mret (Some (d :: rest'))
        | None => mret None
        end
  end.

(** [{'$inc': {'quantity': quantity_change}, '$set': {'last_updated': now}}] *)
Definition restock (quantity_change : pyval) (now : datetime) (d : document)
    : exc document :=
  quantity ← inc_field (body d !! "quantity") quantity_change;
  mret (mk_document (oid d)
          (<["last_updated" := PDatetime (to_millis now)]>
             (<["quantity" := quantity]> (body d)))).

Definition inventory_data (user_id : string) (item quantity : pyval)
    (now : datetime) : dict :=
  <["user_id" := PStr user_id]>
    (<["item_name" := item]>
      (<["quantity" := quantity]>
        (<["last_updated" := PDatetime now]> ∅))).

(** [max(0, v)] *)
Definition max0 (v : pyval) : exc pyval :=
  positive ← gt v 0; mret (if (positive : bool) then v else PInt 0).

(** [now] and [later] are the readings of the clock in the update and in
    the insertion, [new_id] the identifier of an inserted document, which
    [insert_one] also writes into the dict it is given as [_id]. *)
Definition update_inventory (self : collections) (user_id : string)
    (item quantity_change : pyval) (now later : datetime) (new_id : string)
    : exc (dict * collections) :=
  if negb (is_bson_number quantity_change) then
    raise (LibraryError "Cannot increment with non-numeric argument")
  else
    result ← update_one (stock_of user_id item)
               (restock quantity_change now) (inventory self);
    match result with
    | None =>
        quantity ← max0 quantity_change;
        let data := inventory_data user_id item quantity later in
        let self' :=
          {| transactions := transactions self;
             inventory := insert_one (inventory self) data new_id;
             alerts := alerts self |} in
        mret (<["id" := PStr new_id]> (<["_id" := PObjectId new_id]> data),
              self')
    | Some inventory' =>
        let self' :=
          {| transactions := transactions self;
             inventory := inventory';
             alerts := alerts self |} in
        match List.find (stock_of user_id item) inventory' with
        | Some updated =>
            mret (<["id" := PStr (oid updated)]> (as_dict updated), self')
        | None =>
            raise (TypeError
                     "'NoneType' object does not support item assignment")
        end
    end.

(** *** get_cash_flow_summary *)

(** [sum(t['amount'] for t in transactions if t['type'] == kind)], the
    running total in [acc]. *)
Fixpoint sum_amounts (kind : string) (transactions : list dict)
    (acc : pyval) : exc pyval :=
  match transactions with
  | [] => mret acc
  | t :: rest =>
      type ← getitem t "type";
      if is_str (Scalar type) kind then
        amount ← getitem t "amount";
        acc' ← num_add acc amount;
        sum_amounts kind rest acc'
      else sum_amounts kind rest acc
  end.

Record summary := mk_summary {
  period_days : Z;
  total_inflow : pyval;
  total_outflow : pyval;
  net_cash_flow : pyval;
  transaction_count : nat
}.

Section Clock.

(** [t - timedelta(days=n)], the calendar arithmetic of the standard
    library. *)
Variable days_before : Z → datetime → datetime.

(** [now] is the reading of the clock. *)
Definition get_cash_flow_summary (self : collections) (user_id : string)
    (days : Z) (now : datetime) : exc summary :=
  let end_date := now in
  let start_date := days_before days end_date in
  let transactions :=
    get_transactions_range self user_id start_date end_date in
  total_inflow ← sum_amounts "sale" transactions (PInt 0);
  total_outflow ← sum_amounts "purchase" transactions (PInt 0);
  net ← num_sub total_inflow total_outflow;
  mret {| period_days := days;
          total_inflow := total_inflow;
          total_outflow := total_outflow;
          net_cash_flow := net;
          transaction_count := length transactions |}.

End Clock.

(** *** create_alert *)

Definition alert_data (user_id alert_type message severity : string)
    (now : datetime) : dict :=
  <["user_id" := PStr user_id]>
    (<["type" := PStr alert_type]>
      (<["message" := PStr message]>
        (<["severity" := PStr severity]>
          (<["read" := PBool false]>
            (<["created_at" := PDatetime now]> ∅))))).

Definition create_alert (self : collections)
    (user_id alert_type message severity : string) (now : datetime)
    (new_id : string) : dict * collections :=
  let data := alert_data user_id alert_type message severity now in
  let self' :=
    {| transactions := transactions self;
       inventory := inventory self;
       alerts := insert_one (alerts self) data new_id |} in
  (<["id" := PStr new_id]> (<["_id" := PObjectId new_id]> data), self').

End MongoDBService.

(** * The liquidity agent (src/agents/liquidity_agent.py) *)

Module LiquidityAgent.

(** What [np.mean] makes of a list: of the empty list, not a number. *)
Inductive pyfloat :=
| Finite (x : R)
| NaN.

(** The dicts that [predict_liquidity_crunch] returns, one shape per
    [return]. *)
Inductive prediction :=
| Insufficient
| Healthy (avg_daily_flow : R)
| Crunch (days : Z) (current_cash : pyval) (avg_daily_burn : pyfloat)
| Failed (error : string).

(** [prediction['days_until_crunch']]; [None] is Python's. *)
Definition days_until_crunch (p : prediction) : option Z :=
  match p with
  | Crunch days _ _ => Some days
  | _ => None
  end.

(** [prediction['message']], on the shapes that have it. *)
Definition prediction_message (p : prediction) : option string :=
  match p with
  | Insufficient => Some "Insufficient data"
  | Healthy _ => Some "Healthy cash flow"
  | Crunch days _ _ =>
      Some ("Cash will run out in " ++ pretty days ++ " days")
  | Failed _ => None
  end.

(** [datetime.date()] *)
Definition date : Type := Z * Z * Z.

Definition date_of (t : datetime) : date := (year t, month t, day t).

(** The dict [daily_flows], in the order of insertion. *)
Definition flows := list (date * pyval).

Definition date_eqb (a b : date) : bool := bool_decide (a = b).

Definition flows_get (d : flows) (k : date) (dflt : pyval) : pyval :=
  match List.find (λ p, date_eqb p.1 k) d with
  | Some p => p.2
  | None => dflt
  end.

Fixpoint flows_set (d : flows) (k : date) (v : pyval) : flows :=
  match d with
  | [] => [(k, v)]
  | (k', v') :: rest =>
      if date_eqb k' k then (k', v) :: rest
      else (k', v') :: flows_set rest k v
  end.

(** [np.mean(values)] for values that are numbers. *)
Definition mean_of `{Runtime} (values : list pyval) : pyfloat :=
  match values with
  | [] => NaN
  | _ => Finite (np_mean ((λ v, default 0%R (as_num v)) <$> values))
  end.

Record liquidity_alert := mk_liquidity_alert {
  la_type : string;
  la_message : string;
  la_severity : string;
  days_remaining : Z
}.

Record response := mk_response {
  cash_impact : pyval;
  alert : option liquidity_alert
}.

Section Agent.

Context `{Runtime}.

Variable parse_iso : string → exc datetime.
Variable days_before : Z → datetime → datetime.

Definition alert_threshold_days : Z := Config.LIQUIDITY_ALERT_THRESHOLD_DAYS.

(** The loop over the transactions. *)
Fixpoint daily_flows_of (transactions : list dict) (daily_flows : flows)
    : exc flows :=
  match transactions with
  | [] => mret daily_flows
  | txn :: rest =>
      created ← getitem txn "created_at";
      t ← fromisoformat parse_iso created;
      let date := date_of t in
      amount ← getitem txn "amount";
      type ← getitem txn "type";
      if is_str (Scalar type) "sale" then
        v ← num_add (flows_get daily_flows date (PInt 0)) amount;
        daily_flows_of rest (flows_set daily_flows date v)
      else
        type ← getitem txn "type";
        if is_str (Scalar type) "purchase" then
          v ← num_sub (flows_get daily_flows date (PInt 0)) amount;
          daily_flows_of rest (flows_set daily_flows date v)
        else daily_flows_of rest daily_flows
  end.

(** The [try] block; [now] and [later] are the readings of the clock here
    and in [get_cash_flow_summary]. *)
Definition prediction_body (db : MongoDBService.collections)
    (user_id : string) (now later : datetime) : exc prediction :=
  let end_date := now in
  let start_date := days_before 30 end_date in
  let transactions :=
    MongoDBService.get_transactions_range db user_id start_date end_date in
  if (length transactions <? 5)%nat then mret Insufficient
  else
    daily_flows ← daily_flows_of transactions [];
    let avg_daily_flow := mean_of (snd <$> daily_flows) in
    match avg_daily_flow with
    | Finite avg =>
        if Rleb 0 avg then mret (Healthy avg)
        else
          summary ← MongoDBService.get_cash_flow_summary days_before db
                      user_id 90 later;
          let current_cash := MongoDBService.net_cash_flow summary in
          positive ← gt current_cash 0;
          if (positive : bool) then
            ratio ← truediv current_cash (PFloat (Rabs avg));
            mret (Crunch (py_int ratio) current_cash (Finite (Rabs avg)))
          else mret (Crunch 0 current_cash (Finite (Rabs avg)))
    | NaN =>
        summary ← MongoDBService.get_cash_flow_summary days_before db
                    user_id 90 later;
        let current_cash := MongoDBService.net_cash_flow summary in
        positive ← gt current_cash 0;
        if (positive : bool) then
          raise (ValueError "cannot convert float NaN to integer")
        else mret (Crunch 0 current_cash NaN)
    end.

Definition predict_liquidity_crunch (db : MongoDBService.collections)
    (user_id : string) (now later : datetime) : prediction :=
  try_except (prediction_body db user_id now later)
             (λ e, Failed (str_exn e)).

(** [days] is [prediction['days_until_crunch']]; [now] and [new_id] are
    the clock and the identifier in [create_alert]. *)
Definition create_liquidity_alert (db : MongoDBService.collections)
    (user_id : string) (prediction : prediction) (now : datetime)
    (new_id : string)
    : exc (liquidity_alert * MongoDBService.collections) :=
  match days_until_crunch prediction with
  | None =>
      raise (TypeError
               "'<=' not supported between instances of 'NoneType' and 'int'")
  | Some days =>
      let '(message, severity) :=
        if (days =? 0)%Z then
          ("🚨 CRITICAL: You're out of cash! Consider emergency funding.",
           "critical")
        else if (days <=? 3)%Z then
          ("⚠️ URGENT: Cash will run out in " ++ pretty days
             ++ " days. Take action now!", "high")
        else
          ("💡 ALERT: Cash will run out in " ++ pretty days
             ++ " days. Plan ahead.", "medium") in
      let db' :=
        (MongoDBService.create_alert db user_id "liquidity_crunch" message
           severity now new_id).2 in
      mret ({| la_type := "liquidity_crunch"; la_message := message;
               la_severity := severity; days_remaining := days |}, db')
  end.

(** [entities.get('type') == kind] *)
Definition type_is (entities : dict) (kind : string) : bool :=
  is_str (Scalar (get entities "type" PNone)) kind.

(** The first half of [process_transaction]: [response['cash_impact']]. *)
Definition cash_impact_of (entities : dict) : exc pyval :=
  if type_is entities "sale" then mret (get entities "amount" (PInt 0))
  else if type_is entities "purchase" then
    py_neg (get entities "amount" (PInt 0))
  else mret (PInt 0).

(** The second half: what is done with the prediction. *)
Definition alert_on (db : MongoDBService.collections) (user_id : string)
    (prediction : prediction) (now : datetime) (new_id : string)
    : exc (option liquidity_alert * MongoDBService.collections) :=
  match days_until_crunch prediction with
  | Some days =>
      if negb (days =? 0)%Z && (days <=? alert_threshold_days)%Z then
        '(alert, db') ← create_liquidity_alert db user_id prediction now
                          new_id;
        mret (Some alert, db')
      else mret (None, db)
  | None => mret (None, db)
  end.

(** [clock] holds the three readings of the clock, in
    [predict_liquidity_crunch], [get_cash_flow_summary] and
    [create_alert]. *)
Definition process_transaction (db : MongoDBService.collections)
    (user_id : string) (transaction entities : dict)
    (clock : datetime * datetime * datetime) (new_id : string)
    : exc (response * MongoDBService.collections) :=
  let '(now, later, last) := clock in
  impact ← cash_impact_of entities;
  let prediction := predict_liquidity_crunch db user_id now later in
  '(alert, db') ← alert_on db user_id prediction last new_id;
  mret ({| cash_impact := impact; alert := alert |}, db').

End Agent.

End LiquidityAgent.

(** * Vocabulary of the properties *)

(** A result whose anomaly flag is a Python [bool]. *)
Definition has_flag (r : result) : Prop :=
  ∃ b : bool, r !! "is_anomaly" = Some (Scalar (PBool b)).

(** The transaction's amount, when there is one, is a number. *)
Definition amount_is_number (txn : dict) : Prop :=
  ∀ v, txn !! "amount" = Some v → is_num v.

(** The verdict before any detector has run. *)
Definition initial_response : response :=
  {| anomaly_detected := false; risk_score := 0;
     response_alerts := []; message := None; details := None |}.

(** The band from 23:00 to 05:00, both ends included. *)
Definition off_hours (h : Z) : Prop := (23 ≤ h)%Z ∨ (h ≤ 5)%Z.

(** The record's timestamp is a string that [parse] reads as [t]. *)
Definition iso_timestamp (parse : string → exc datetime) (txn : dict)
    (t : datetime) : Prop :=
  ∃ s, txn !! "created_at" = Some (PStr s) ∧ parse s = ok t.

(** The record's timestamp is a string that [parse] rejects. *)
Definition bad_timestamp (parse : string → exc datetime) (txn : dict)
    : Prop :=
  ∃ s e, txn !! "created_at" = Some (PStr s) ∧ parse s = raise e.

(** The hour of a record as far as it can be told: from a string that
    parses, or from a datetime object. *)
Definition known_hour (parse : string → exc datetime) (txn : dict)
    : option Z :=
  match txn !! "created_at" with
  | Some (PStr s) =>
      match parse s with ok t => Some (hour t) | raise _ => None end
  | Some (PDatetime t) => Some (hour t)
  | _ => None
  end.

(** The hours of the transactions of a window. *)
Definition window_hours (parse : string → exc datetime) (hist : list dict)
    : list Z :=
  omap (known_hour parse) hist.

(** The number in field [k] of a record, 0 when the field is missing or
    holds no number. *)
Definition num_field (k : string) (txn : dict) : R :=
  default 0%R (txn !! k ≫= as_num).

(** Field [k] of the record, when there is one, holds a number. *)
Definition field_is_number (k : string) (txn : dict) : Prop :=
  ∀ v, txn !! k = Some v → is_num v.

(** Field [k] of the record holds something that is not a number, as
    [None] is. *)
Definition field_not_number (k : string) (txn : dict) : Prop :=
  ∃ v, txn !! k = Some v ∧ as_num v = None.

(** The record has an amount and it is a number. *)
Definition amount_recorded (txn : dict) : Prop :=
  ∃ v, txn !! "amount" = Some v ∧ is_num v.

(** The result carries none of the statistics of the amount detector. *)
Definition no_amount_evidence (r : result) : Prop :=
  r !! "value" = None ∧ r !! "mean" = None ∧ r !! "std" = None.

(** The item of the record, when there is one, is a string. *)
Definition item_is_text (txn : dict) : Prop :=
  ∀ v, txn !! "item" = Some v → ∃ s, v = PStr s.

(** A stored transaction as the data model has it: an optional item name,
    an optional numeric quantity and a numeric amount. *)
Definition well_typed (txn : dict) : Prop :=
  item_is_text txn ∧ field_is_number "quantity" txn
  ∧ field_is_number "amount" txn.

(** The item name of a record, empty when it has none. *)
Definition item_name (txn : dict) : string :=
  match txn !! "item" with
  | Some (PStr s) => s
  | _ => ""
  end.

(** The positive quantities of a window, in order. *)
Definition positive_quantities (hist : list dict) : list R :=
  List.filter (Rltb 0) (num_field "quantity" <$> hist).

(** The positive amounts of a window, in order. *)
Definition positive_amounts (hist : list dict) : list R :=
  List.filter (Rltb 0) (num_field "amount" <$> hist).

Section Arithmetic.

Context `{Runtime}.

(** [a - b] and [a / b] on floats: the double nearest to the exact
    result. *)
Definition fsub (a b : R) : R := nearest (a - b).
Definition fdiv (a b : R) : R := nearest (a / b).

(** z = |current - mean| / std in floating-point arithmetic, and 0 when
    the standard deviation is not positive. *)
Definition z_score_of (current : R) (quantities : list R) : R :=
  if Rltb 0 (np_std quantities)
  then Rabs (fdiv (fsub current (np_mean quantities)) (np_std quantities))
  else 0%R.

(** The records of a window that name [item] (whatever the case of the
    letters) and have a positive quantity. *)
Definition same_item (item : string) (txn : dict) : bool :=
  String.eqb (lower (item_name txn)) (lower item)
  && Rltb 0 (num_field "quantity" txn).

(** Their prices per unit, in order. *)
Definition unit_prices (item : string) (hist : list dict) : list R :=
  (λ txn, fdiv (num_field "amount" txn) (num_field "quantity" txn))
    <$> List.filter (same_item item) hist.

(** deviation = |price - mean| / mean in floating-point arithmetic, and 0
    when the mean is not positive. *)
Definition deviation_of (price : R) (prices : list R) : R :=
  if Rltb 0 (np_mean prices)
  then Rabs (fdiv (fsub price (np_mean prices)) (np_mean prices))
  else 0%R.

End Arithmetic.

(** * The explanation, as the specification words it *)

(** The evidence a result carries under [k]; [None] when it carries
    none. *)
Definition evidence (c : result) (k : string) : pyobj :=
  default (Scalar PNone) (c !! k).

(** The number an evidence stands for, 0 when it is none. *)
Definition number_of (o : pyobj) : R :=
  match o with
  | Scalar v => default 0%R (as_num v)
  | IntList _ => 0%R
  end.

Section Explanation.

Variable float_str : R → string.
Variable float_fixed : nat → R → string.
Variable datetime_str : datetime → string.

(** One clause per detector: the amount with two decimals, the quantity as
    it prints, the hour followed by ":00", the deviation in percent with
    one decimal. *)
Definition clause_text (c : result) : string :=
  match c !! "check" with
  | Some (Scalar (PStr name)) =>
      if String.eqb name "amount" then
        "Unusual amount: â‚¹" ++ float_fixed 2 (number_of (evidence c "value"))
      else if String.eqb name "quantity" then
        "Unusual quantity: "
          ++ py_str float_str datetime_str (evidence c "value")
      else if String.eqb name "timing" then
        "Unusual timing: "
          ++ py_str float_str datetime_str (evidence c "hour") ++ ":00"
      else if String.eqb name "price" then
        "Price deviation: "
          ++ float_fixed 1 (number_of (evidence c "deviation_pct")) ++ "%"
      else ""
  | _ => ""
  end.

(** The clauses of the flagged results, in their order, joined with ", "
    after the prefix. *)
Definition explanation (checks : list result) : string :=
  "Suspicious transaction detected: "
    ++ String.concat ", " (clause_text <$> List.filter flagged checks).

End Explanation.

(** * Exact arithmetic

    The mean and the population standard deviation as mathematics has
    them, and the lower case of the 26 letters of ASCII.  The runtime
    agrees with them where nothing is rounded and no other letter occurs,
    as in the examples below, which are run on them. *)

Definition Rsum (l : list R) : R := fold_right Rplus 0%R l.

Definition exact_mean (l : list R) : R := (Rsum l / INR (length l))%R.

Definition exact_var (l : list R) : R :=
  exact_mean (map (fun x => ((x - exact_mean l) * (x - exact_mean l))%R) l).

Definition exact_std (l : list R) : R := sqrt (exact_var l).

Definition lower_ascii (c : Ascii.ascii) : Ascii.ascii :=
  let n := Ascii.nat_of_ascii c in
  if (65 <=? n)%nat && (n <=? 90)%nat then Ascii.ascii_of_nat (n + 32) else c.

Fixpoint ascii_lower (s : string) : string :=
  match s with
  | EmptyString => EmptyString
  | String c s' => String (lower_ascii c) (ascii_lower s')
  end.

(** * Stand-ins for the libraries, to run the agent on concrete inputs *)

Module StandIn.

(** An outlier model that keeps its training set and calls an integer amount
    above 1000 an outlier. *)
Definition forest : Type := list R.

Definition fit (contamination : R) (random_state : Z) (X : list R)
    : exc forest :=
  ok X.

Definition predict (clf : forest) (v : pyval) : exc Z :=
  match v with
  | PInt z => ok (if (1000 <? z)%Z then (-1)%Z else 1%Z)
  | PBool _ | PFloat _ => ok 1%Z
  | _ => raise (ValueError "could not convert to float")
  end.

Definition digit (c : Ascii.ascii) : option Z :=
  let n := Z.of_nat (Ascii.nat_of_ascii c) in
  if (48 <=? n)%Z && (n <=? 57)%Z then Some (n - 48)%Z else None.

Fixpoint number (acc : Z) (s : string) : option Z :=
  match s with
  | EmptyString => Some acc
  | String c s' => d ← digit c; number (10 * acc + d)%Z s'
  end.

(** A reader of [YYYY-MM-DDTHH:MM:SS], the form [isoformat()] writes when
    there are no microseconds. *)
Definition parse_iso (s : string) : exc datetime :=
  let field i n := number 0 (String.substring i n s) in
  let sep i c := String.eqb (String.substring i 1 s) c in
  let fields :=
    Y ← field 0 4; M ← field 5 2; D ← field 8 2;
    h ← field 11 2; m ← field 14 2; sec ← field 17 2;
    Some (mk_datetime Y M D h m sec 0) in
  match fields with
  | Some t =>
      if Nat.eqb (String.length s) 19
         && sep 4 "-" && sep 7 "-" && sep 10 "T" && sep 13 ":" && sep 16 ":"
         && (1 <=? month t)%Z && (month t <=? 12)%Z
         && (1 <=? day t)%Z && (day t <=? 31)%Z
         && (hour t <? 24)%Z && (minute t <? 60)%Z && (second t <? 60)%Z
      then ok t
      else raise (ValueError ("Invalid isoformat string: '" ++ s ++ "'"))
  | None => raise (ValueError ("Invalid isoformat string: '" ++ s ++ "'"))
  end.

Definition float_str (x : R) : string := "<float>".
(** [f"{x:.{d}f}"] on a whole number: its digits, a point and [d] zeros.
    Other numbers are cut to their whole part, which Python does not do. *)
Definition float_fixed (d : nat) (x : R) : string :=
  pretty (Int_part x) ++ "." ++ String.concat "" (replicate d "0").
Definition datetime_str (t : datetime) : string := "<datetime>".

(** Exact arithmetic for the runtime. *)
Definition runtime : Runtime :=
  {| nearest := λ x, x;
     np_mean := exact_mean;
     np_std := exact_std;
     lower := ascii_lower |}.

Definition check_amount_anomaly :=
  @check_amount_anomaly runtime forest fit predict RiskAgent_init.
Definition check_quantity_anomaly := @check_quantity_anomaly runtime.
Definition check_price_deviation := @check_price_deviation runtime.
Definition check_unusual_timing := check_unusual_timing parse_iso.
Definition analyze_transaction :=
  @analyze_transaction runtime forest fit predict parse_iso
    float_str float_fixed datetime_str RiskAgent_init.

End StandIn.

(** * Concrete inputs *)

(** A store that answers every range query with [hist] and has no alerts. *)
Definition db_with (hist : list dict) : db_service :=
  {| stored := λ _, hist; alerts := [] |}.

(** A record that holds only a timestamp. *)
Definition at_time (stamp : pyval) : dict := {[ "created_at" := stamp ]}.

Definition two_thirty_am : datetime := mk_datetime 2024 3 5 2 30 0 0.
Definition txn_at_night : dict := at_time (PStr "2024-03-05T02:30:00").

(** A window seen at 9, 10 and 14 o'clock. *)
Definition daytime_window : list dict :=
  [ at_time (PStr "2024-03-04T09:00:00");
    at_time (PStr "2024-03-04T10:15:00");
    at_time (PStr "2024-03-04T14:45:10") ].

(** The same window with one more record, whose timestamp is no date. *)
Definition window_with_bad_stamp : list dict :=
  daytime_window ++ [ at_time (PStr "yesterday") ].

(** Two transactions that differ in their own quantity only. *)
Definition sale_of_one : dict :=
  {[ "amount" := PInt 20; "quantity" := PInt 1 ]}.
Definition sale_of_many : dict :=
  {[ "amount" := PInt 20; "quantity" := PInt 500 ]}.

(** A stored sale. *)
Definition sale (item : string) (qty amt : Z) : dict :=
  {[ "item" := PStr item; "quantity" := PInt qty; "amount" := PInt amt ]}.

(** Three sales of rice at 10 a unit. *)
Definition rice_window : list dict :=
  [ sale "Rice" 2 20; sale "rice" 1 10; sale "RICE" 5 50 ].

(** Entities of "one rice", and of a return of one rice. *)
Definition rice_for_20 : dict :=
  {[ "item" := PStr "rice"; "quantity" := PInt 1 ]}.
Definition rice_returned : dict :=
  {[ "item" := PStr "rice"; "quantity" := PInt (-1) ]}.

(** A record that holds only a quantity. *)
Definition qty_record (z : Z) : dict := {[ "quantity" := PInt z ]}.

(** Ten records with quantities 9 and 11 in turn: mean 10, standard
    deviation 1. *)
Definition steady_window : list dict :=
  qty_record <$> [9; 11; 9; 11; 9; 11; 9; 11; 9; 11]%Z.

(** The same window after a transaction without quantity was stored, which
    the extraction writes as [None]. *)
Definition window_with_null : list dict :=
  {[ "quantity" := PNone ]} :: steady_window.

(** A window of ten records that hold nothing. *)
Definition blank_window : list dict := replicate 10 ∅.

(** A window too small for the quantity detector. *)
Definition short_window : list dict := [qty_record 9; qty_record 11].

(** A stored sale with its timestamp. *)
Definition stored_sale (item : string) (qty amt : Z) (stamp : string) : dict :=
  {[ "item" := PStr item; "quantity" := PInt qty; "amount" := PInt amt;
     "created_at" := PStr stamp ]}.

(** Twelve sales of rice at 10 a unit, 9 or 11 units at a time, at 9, 10 and
    14 o'clock. *)
Definition market_window : list dict :=
  [ stored_sale "rice" 9 90 "2024-03-01T09:00:00";
    stored_sale "Rice" 11 110 "2024-03-01T10:15:00";
    stored_sale "rice" 9 90 "2024-03-01T14:45:10";
    stored_sale "rice" 11 110 "2024-03-02T09:05:00";
    stored_sale "rice" 9 90 "2024-03-02T10:30:00";
    stored_sale "RICE" 11 110 "2024-03-02T14:00:00";
    stored_sale "rice" 9 90 "2024-03-03T09:10:00";
    stored_sale "rice" 11 110 "2024-03-03T10:00:00";
    stored_sale "rice" 9 90 "2024-03-03T14:20:00";
    stored_sale "rice" 11 110 "2024-03-04T09:00:00";
    stored_sale "rice" 9 90 "2024-03-04T10:40:00";
    stored_sale "rice" 11 110 "2024-03-04T14:30:00" ].

(** Ten rice for 2000, in the night and in the morning. *)
Definition night_sale : dict :=
  {[ "amount" := PInt 2000; "quantity" := PInt 10;
     "created_at" := PStr "2024-03-05T02:30:00" ]}.
Definition morning_sale : dict :=
  {[ "amount" := PInt 2000; "quantity" := PInt 10;
     "created_at" := PStr "2024-03-05T09:30:00" ]}.
Definition ten_rice : dict :=
  {[ "item" := PStr "rice"; "quantity" := PInt 10 ]}.

Definition night_message : string :=
  "Suspicious transaction detected: Unusual amount: â‚¹2000.00, "
  ++ "Unusual timing: 2:00, Price deviation: 1900.0%".

(** The four results for the night sale. *)
Definition night_checks : list result :=
  @run_checks StandIn.runtime StandIn.forest StandIn.fit StandIn.predict
    StandIn.parse_iso RiskAgent_init night_sale market_window ten_rice.

(** Ten records with quantity 10: mean 10, standard deviation 0. *)
Definition constant_window : list dict :=
  qty_record <$> [10; 10; 10; 10; 10; 10; 10; 10; 10; 10]%Z.

(** One rice for 11. *)
Definition sale_for_11 : dict := {[ "amount" := PInt 11 ]}.

(** * Vocabulary of the further properties *)

(** What the loop of the price detector needs of a record to go through:
    its item is a string or absent and, when it names [item], its quantity
    is a number or absent and, when that is positive, so is its amount. *)
Definition priced `{Runtime} (item : string) (txn : dict) : Prop :=
  item_is_text txn ∧
  (String.eqb (lower (item_name txn)) (lower item) = true →
   field_is_number "quantity" txn ∧
   ((0 < num_field "quantity" txn)%R → field_is_number "amount" txn)).

(** The rice window, newest first. *)
Definition rice_window_reversed : list dict :=
  [ sale "RICE" 5 50; sale "rice" 1 10; sale "Rice" 2 20 ].

(** An outlier model that, like numpy, converts a numeric string, and calls
    it an outlier. *)
Module Lenient.

Definition predict (clf : StandIn.forest) (v : pyval) : exc Z :=
  match v with
  | PStr _ => ok (-1)%Z
  | _ => StandIn.predict clf v
  end.

Definition analyze_transaction :=
  @analyze_transaction StandIn.runtime StandIn.forest StandIn.fit predict
    StandIn.parse_iso StandIn.float_str StandIn.float_fixed
    StandIn.datetime_str RiskAgent_init.

End Lenient.

(** A thousand units at night, the amount typed as text. *)
Definition text_amount_sale : dict :=
  {[ "amount" := PStr "5000"; "quantity" := PInt 1000;
     "created_at" := PStr "2024-03-05T02:30:00" ]}.

(** The date of a record read from the store. *)
Definition stamp (txn : dict) : datetime :=
  match txn !! "created_at" with
  | Some (PDatetime t) => t
  | _ => mk_datetime 0 0 0 0 0 0 0
  end.

(** The store as the risk agent sees it at a given moment: the range query
    over [start_date .. end_date], and the alerts raised so far. *)
Definition serving (store : MongoDBService.collections)
    (start_date end_date : datetime) (raised : list alert) : db_service :=
  {| stored := λ user_id,
       MongoDBService.get_transactions_range store user_id
         start_date end_date;
     alerts := raised |}.

(** A shop's first sale, as the web application records it. *)
Definition empty_store : MongoDBService.collections :=
  MongoDBService.mk_collections [] [] [].

Definition rice_entities : dict :=
  {[ "type" := PStr "sale"; "item" := PStr "rice";
     "quantity" := PInt 5; "amount" := PInt 500 ]}.

Definition afternoon : datetime := mk_datetime 2024 3 5 14 30 0 123456.
Definition month_start : datetime := mk_datetime 2024 3 1 0 0 0 0.
Definition month_end : datetime := mk_datetime 2024 3 31 23 59 59 999999.

Definition first_sale : dict * MongoDBService.collections :=
  MongoDBService.create_transaction empty_store "shop-1" rice_entities
    "sold 5 kg rice for 500" afternoon afternoon "65e72f0a9d1c4b0012345678".

(** The record of that sale as the store hands it out: the dates cut to the
    millisecond, and the [ObjectId] where the returned dict has its text. *)
Definition first_sale_stored : dict :=
  <["_id" := PObjectId "65e72f0a9d1c4b0012345678"]>
    (MongoDBService.to_bson <$> first_sale.1).

(** The record carries its date as a datetime object. *)
Definition datetime_stamped (txn : dict) : Prop :=
  ∃ t, txn !! "created_at" = Some (PDatetime t).

(** Money received with no item named. *)
Definition cash_entities : dict :=
  {[ "type" := PStr "sale"; "amount" := PInt 500 ]}.

(** A shop that has recorded [n] such receipts. *)
Fixpoint record_sales (n : nat) (store : MongoDBService.collections)
    : MongoDBService.collections :=
  match n with
  | O => store
  | S n' =>
      (MongoDBService.create_transaction (record_sales n' store) "shop-1"
         cash_entities "received 500" afternoon afternoon (pretty n')).2
  end.

Definition busy_store : MongoDBService.collections :=
  record_sales 12 empty_store.

(** Two documents of the inventory stand for the same item of the same
    user: what the unique index on [(user_id, item_name)] forbids. *)
Definition same_stock (a b : MongoDBService.document) : bool :=
  MongoDBService.bson_eqb
    (default PNone (MongoDBService.body a !! "user_id"))
    (default PNone (MongoDBService.body b !! "user_id"))
  && MongoDBService.bson_eqb
       (default PNone (MongoDBService.body a !! "item_name"))
       (default PNone (MongoDBService.body b !! "item_name")).

Definition items_unique (inventory : list MongoDBService.document) : Prop :=
  ∀ (i j : nat) a b,
    inventory !! i = Some a → inventory !! j = Some b →
    same_stock a b = true → i = j.

(** What [restock] makes of a document. *)
Definition restocked (d : MongoDBService.document) (quantity : pyval)
    (now : datetime) : MongoDBService.document :=
  MongoDBService.mk_document (MongoDBService.oid d)
    (<["last_updated" := PDatetime (MongoDBService.to_millis now)]>
       (<["quantity" := quantity]> (MongoDBService.body d))).

(** A shelf with five rice, and the same after three more came in. *)
Definition rice_shelf : MongoDBService.collections :=
  MongoDBService.mk_collections []
    [MongoDBService.mk_document "65e72f0a9d1c4b00123456aa"
       (MongoDBService.to_bson
          <$> MongoDBService.inventory_data "shop-1" (PStr "rice") (PInt 5)
                month_start)]
    [].

Definition rice_shelf_restocked : MongoDBService.collections :=
  MongoDBService.mk_collections []
    [MongoDBService.mk_document "65e72f0a9d1c4b00123456aa"
       (MongoDBService.to_bson
          <$> MongoDBService.inventory_data "shop-1" (PStr "rice") (PInt 8)
                afternoon)]
    [].

(** * Properties *)

(** ** Booleans over the reals *)

Lemma Rltb_true (x y : R) : Rltb x y = true ↔ (x < y)%R.
Proof. unfold Rltb. destruct (Rlt_dec x y); split; (done || lra). Qed.

Lemma Rltb_false (x y : R) : Rltb x y = false ↔ (y <= x)%R.
Proof. unfold Rltb. destruct (Rlt_dec x y); split; (done || lra). Qed.

Lemma Reqb_true (x y : R) : Reqb x y = true ↔ x = y.
Proof. unfold Reqb. destruct (Req_dec_T x y); split; (done || lra). Qed.

Lemma Reqb_false (x y : R) : Reqb x y = false ↔ x ≠ y.
Proof. unfold Reqb. destruct (Req_dec_T x y); split; (done || lra). Qed.

(** ** The exact runtime *)

(** Reads the runtime of the examples as the exact arithmetic it is. *)
Ltac exact_arith :=
  change (@np_mean StandIn.runtime) with exact_mean in *;
  change (@np_std StandIn.runtime) with exact_std in *;
  change (@lower StandIn.runtime) with ascii_lower in *;
  change (@nearest StandIn.runtime) with (λ x : R, x) in *;
  cbv beta in *.

(** ** The monad *)

Lemma try_except_ok {A} (c : exc A) (h : exn → A) (a : A) :
  c = ok a → try_except c h = a.
Proof. by intros ->. Qed.

Lemma try_except_raise {A} (c : exc A) (h : exn → A) (e : exn) :
  c = raise e → try_except c h = h e.
Proof. by intros ->. Qed.

Lemma bind_ok {A B} (c : exc A) (k : A → exc B) (b : B) :
  c ≫= k = ok b ↔ ∃ a, c = ok a ∧ k a = ok b.
Proof.
  destruct c as [a|e]; simpl; split.
  - intros H. by exists a.
  - by intros (a' & [= ->] & H).
  - done.
  - by intros (a' & [=] & _).
Qed.

(** A case split on the next computation that may raise, or on the next
    test, of a goal about a body. *)
Ltac exc_step :=
  match goal with
  | |- context [mbind _ ?c] => destruct c eqn:?; simpl
  | |- context [if ?b then _ else _] => destruct b eqn:?; simpl
  end.

(** ** Shape of the detector results *)

Lemma no_evidence_check name :
  no_evidence name !! "check" = Some (Scalar (PStr name)).
Proof. done. Qed.

Lemma no_evidence_flag name :
  no_evidence name !! "is_anomaly" = Some (Scalar (PBool false)).
Proof. done. Qed.

Lemma error_result_flag name e :
  error_result name e !! "is_anomaly" = Some (Scalar (PBool false)).
Proof. done. Qed.

Lemma error_result_note name e :
  error_result name e !! "error" = Some (Scalar (PStr (str_exn e))).
Proof. done. Qed.

Lemma no_evidence_note name : no_evidence name !! "error" = None.
Proof. done. Qed.

(** ** Dictionaries *)

Lemma getitem_Some {V} (d : gmap string V) (k : string) (v : V) :
  d !! k = Some v → getitem d k = ok v.
Proof. unfold getitem. by intros ->. Qed.

Lemma getitem_None {V} (d : gmap string V) (k : string) :
  d !! k = None → getitem d k = raise (KeyError k).
Proof. unfold getitem. by intros ->. Qed.

Lemma get_Some {V} (d : gmap string V) (k : string) (v dflt : V) :
  d !! k = Some v → get d k dflt = v.
Proof. unfold get. by intros ->. Qed.

Lemma get_None {V} (d : gmap string V) (k : string) (dflt : V) :
  d !! k = None → get d k dflt = dflt.
Proof. unfold get. by intros ->. Qed.

Lemma gt_num (v : pyval) (x c : R) :
  as_num v = Some x → gt v c = ok (Rltb c x).
Proof. unfold gt. by intros ->. Qed.

Section Facts.

Context {rt : Runtime}.
Context {forest : Type}.
Context (IsolationForest_fit : R → Z → list R → exc forest)
        (predict : forest → pyval → exc Z)
        (parse_iso : string → exc datetime)
        (float_str : R → string) (float_fixed : nat → R → string)
        (datetime_str : datetime → string)
        (self : RiskAgent).

Local Abbreviation check_amount :=
  (check_amount_anomaly forest IsolationForest_fit predict self).
Local Abbreviation check_timing := (check_unusual_timing parse_iso).
Local Abbreviation checks_of :=
  (run_checks forest IsolationForest_fit predict parse_iso self).
Local Abbreviation analyze :=
  (analyze_transaction forest IsolationForest_fit predict parse_iso
     float_str float_fixed datetime_str self).

Ltac shape :=
  unfold has_flag, try_except;
  repeat (exc_step; try by (eexists; reflexivity)).

Lemma amount_has_flag txn hist : has_flag (check_amount txn hist).
Proof. unfold check_amount_anomaly, amount_body. shape. Qed.

Lemma quantity_has_flag txn hist :
  has_flag (check_quantity_anomaly txn hist).
Proof. unfold check_quantity_anomaly, quantity_body. shape. Qed.

Lemma timing_has_flag txn hist : has_flag (check_timing txn hist).
Proof. unfold check_unusual_timing, timing_body. shape. Qed.

Lemma price_has_flag txn hist ent :
  has_flag (check_price_deviation txn hist ent).
Proof. unfold check_price_deviation, price_body. shape. Qed.

Lemma has_flag_flagged r b :
  r !! "is_anomaly" = Some (Scalar (PBool b)) → flagged r = b.
Proof. unfold flagged, get. by intros ->. Qed.

Lemma count_anomalies_flagged (checks : list result) :
  Forall has_flag checks →
  count_anomalies checks = ok (length (List.filter flagged checks)).
Proof.
  unfold count_anomalies. intros H.
  assert (list_comp (λ check : result, a ← getitem check "is_anomaly";
                                mret (truthy_obj a))
            (λ _, mret 1%nat) checks
          = ok (repeat 1%nat (length (List.filter flagged checks)))) as ->.
  { induction H as [|r rs [b Hb] _ IH]; [done|].
    cbn [list_comp List.filter].
    rewrite (has_flag_flagged r b Hb), (getitem_Some _ _ _ Hb).
    cbn [mbind exc_bind mret exc_ret truthy_obj truthy].
    rewrite IH. by destruct b. }
  simpl. f_equal. induction (length _); simpl; [done|]. by f_equal.
Qed.

Lemma run_checks_have_flag txn hist ent :
  Forall has_flag (checks_of txn hist ent).
Proof.
  repeat constructor; auto using amount_has_flag, quantity_has_flag,
    timing_has_flag, price_has_flag.
Qed.

(** ** The aggregator *)

Lemma run_checks_length txn hist ent : length (checks_of txn hist ent) = 4%nat.
Proof. done. Qed.

Lemma flagged_count_le txn hist ent :
  (length (List.filter flagged (checks_of txn hist ent)) ≤ 4)%nat.
Proof.
  unfold run_checks. cbn [List.filter].
  repeat (match goal with |- context [if ?b then _ else _] => destruct b end);
    simpl; lia.
Qed.

(** What [analyze_transaction] does once the window is large enough. *)
Lemma analyze_unfold db user_id txn ent :
  (10 ≤ length (get_transactions_range db user_id))%nat →
  let checks := checks_of txn (get_transactions_range db user_id) ent in
  let k := length (List.filter flagged checks) in
  analyze db user_id txn ent =
    if Rltb (5 / 10) (INR k / 4) then
      text ← generate_risk_message float_str float_fixed datetime_str checks;
      mret ({| anomaly_detected := true; risk_score := (INR k / 4)%R;
               response_alerts := []; message := Some text;
               details := Some checks |},
            create_alert db user_id "fraud_risk" text "high")
    else
      mret ({| anomaly_detected := false; risk_score := (INR k / 4)%R;
               response_alerts := []; message := None;
               details := Some checks |}, db).
Proof.
  intros Hlen checks k. unfold analyze_transaction.
  destruct (Nat.ltb_spec (length (get_transactions_range db user_id)) 10);
    [lia|].
  rewrite (count_anomalies_flagged _ (run_checks_have_flag _ _ _)).
  cbn [mbind exc_bind]. rewrite run_checks_length.
  replace (INR 4) with 4%R by (simpl; lra). done.
Qed.

Lemma score_above_half (k : nat) :
  (k ≤ 4)%nat → ((INR k / 4 > 1 / 2)%R ↔ (3 ≤ k)%nat).
Proof.
  intros Hk. destruct k as [|[|[|[|[|k]]]]]; simpl; [..|lia];
    split; intros; (lia || lra).
Qed.

Lemma score_values (k : nat) :
  (k ≤ 4)%nat → (INR k / 4)%R ∈ [0; 1 / 4; 1 / 2; 3 / 4; 1]%R.
Proof.
  intros Hk. destruct k as [|[|[|[|[|k]]]]]; simpl; [..|lia].
  - replace (0 / 4)%R with 0%R by lra. set_solver.
  - set_solver.
  - replace ((1 + 1) / 4)%R with (1 / 2)%R by lra. set_solver.
  - replace ((1 + 1 + 1) / 4)%R with (3 / 4)%R by lra. set_solver.
  - replace ((1 + 1 + 1 + 1) / 4)%R with 1%R by lra. set_solver.
Qed.

(** ** The explanation *)

Local Abbreviation clause_of := (clause float_str float_fixed datetime_str).
Local Abbreviation risk_message :=
  (generate_risk_message float_str float_fixed datetime_str).

Lemma py_format_f_num (d : nat) (v : pyval) :
  is_num v → ∃ s, py_format_f float_fixed d (Scalar v) = ok s.
Proof. intros [x Hx]. destruct v; simplify_eq/=; eauto. Qed.

Lemma times100_num (v : pyval) : is_num v → is_num (times100 v).
Proof. intros [x Hx]. destruct v; simplify_eq/=; eexists; done. Qed.

(** A detector result has one clause. *)
Local Abbreviation has_clause r := (∃ m, clause_of r = ok [m]).

Lemma clause_amount (r : result) (v : pyobj) (s : string) :
  r !! "check" = Some (Scalar (PStr "amount")) →
  r !! "value" = Some v →
  py_format_f float_fixed 2 v = ok s →
  clause_of r = ok ["Unusual amount: â‚¹" ++ s].
Proof.
  intros Hc Hv Hs. unfold clause.
  rewrite (getitem_Some _ _ _ Hc). cbn [mbind exc_bind is_str String.eqb].
  rewrite (getitem_Some _ _ _ Hv). cbn [mbind exc_bind]. by rewrite Hs.
Qed.

Lemma clause_quantity (r : result) (v : pyobj) :
  r !! "check" = Some (Scalar (PStr "quantity")) →
  r !! "value" = Some v →
  clause_of r = ok ["Unusual quantity: " ++ py_str float_str datetime_str v].
Proof.
  intros Hc Hv. unfold clause.
  rewrite (getitem_Some _ _ _ Hc). cbn [mbind exc_bind].
  change (is_str (PStr "quantity") "amount") with false.
  change (is_str (PStr "quantity") "quantity") with true. cbv iota.
  by rewrite (getitem_Some _ _ _ Hv).
Qed.

Lemma clause_timing (r : result) (v : pyobj) :
  r !! "check" = Some (Scalar (PStr "timing")) →
  r !! "hour" = Some v →
  clause_of r
  = ok ["Unusual timing: " ++ py_str float_str datetime_str v ++ ":00"].
Proof.
  intros Hc Hv. unfold clause.
  rewrite (getitem_Some _ _ _ Hc). cbn [mbind exc_bind].
  change (is_str (PStr "timing") "amount") with false.
  change (is_str (PStr "timing") "quantity") with false.
  change (is_str (PStr "timing") "timing") with true. cbv iota.
  by rewrite (getitem_Some _ _ _ Hv).
Qed.

Lemma clause_price (r : result) (v : pyobj) (s : string) :
  r !! "check" = Some (Scalar (PStr "price")) →
  r !! "deviation_pct" = Some v →
  py_format_f float_fixed 1 v = ok s →
  clause_of r = ok ["Price deviation: " ++ s ++ "%"].
Proof.
  intros Hc Hv Hs. unfold clause.
  rewrite (getitem_Some _ _ _ Hc). cbn [mbind exc_bind].
  change (is_str (PStr "price") "amount") with false.
  change (is_str (PStr "price") "quantity") with false.
  change (is_str (PStr "price") "timing") with false.
  change (is_str (PStr "price") "price") with true. cbv iota.
  rewrite (getitem_Some _ _ _ Hv). cbn [mbind exc_bind]. by rewrite Hs.
Qed.

Ltac clause_cases :=
  unfold try_except;
  repeat (exc_step; try discriminate).

Lemma amount_has_clause txn hist :
  amount_is_number txn →
  flagged (check_amount txn hist) = true → has_clause (check_amount txn hist).
Proof.
  intros Hnum. unfold check_amount_anomaly, amount_body.
  clause_cases. intros _.
  match goal with H : getitem txn "amount" = ok ?p |- _ =>
    unfold getitem in H; destruct (txn !! "amount") as [v|] eqn:Hv;
    simplify_eq; destruct (py_format_f_num 2 p (Hnum _ Hv)) as [s Hs]
  end.
  eexists. by eapply clause_amount.
Qed.

Lemma quantity_has_clause txn hist :
  flagged (check_quantity_anomaly txn hist) = true →
  has_clause (check_quantity_anomaly txn hist).
Proof.
  unfold check_quantity_anomaly, quantity_body.
  clause_cases; intros _; eexists; by eapply clause_quantity.
Qed.

Lemma timing_has_clause txn hist :
  flagged (check_timing txn hist) = true → has_clause (check_timing txn hist).
Proof.
  unfold check_unusual_timing, timing_body.
  clause_cases; intros _; eexists; by eapply clause_timing.
Qed.

Lemma price_has_clause txn hist ent :
  flagged (check_price_deviation txn hist ent) = true →
  has_clause (check_price_deviation txn hist ent).
Proof.
  unfold check_price_deviation, price_body.
  clause_cases; intros _.
  - edestruct (py_format_f_num 1) as [s Hs]; [|eexists; by eapply clause_price].
    eexists; done.
  - edestruct (py_format_f_num 1) as [s Hs]; [|eexists; by eapply clause_price].
    eexists; done.
Qed.

Lemma mapM_clauses (cs : list result) (ms : list string) :
  Forall2 (λ c m, clause_of c = ok [m]) cs ms →
  mapM clause_of cs = ok ((λ m, [m]) <$> ms).
Proof.
  induction 1 as [|c m cs ms Hc _ IH]; [done|].
  cbn [mapM]. rewrite Hc. cbn [mbind exc_bind].
  change (mapM clause_of cs ≫= (λ k, mret ([m] :: k))
          = ok ((λ m, [m]) <$> (m :: ms))).
  by rewrite IH.
Qed.

Lemma concat_singletons (ms : list string) :
  concat ((λ m, [m]) <$> ms) = ms.
Proof. induction ms; [done|]. simpl. by f_equal. Qed.

Lemma has_clauses (cs : list result) :
  Forall (λ c, has_clause c) cs →
  ∃ ms, Forall2 (λ c m, clause_of c = ok [m]) cs ms.
Proof.
  induction 1 as [|c cs [m Hm] _ [ms IH]]; [by exists []|].
  exists (m :: ms). by constructor.
Qed.

Lemma risk_message_normal (checks : list result) :
  List.filter flagged checks = [] →
  risk_message checks = ok "Transaction appears normal".
Proof. unfold generate_risk_message. by intros ->. Qed.

Lemma risk_message_clauses (checks : list result) (ms : list string) :
  List.filter flagged checks ≠ [] →
  Forall2 (λ c m, clause_of c = ok [m]) (List.filter flagged checks) ms →
  risk_message checks
  = ok ("Suspicious transaction detected: " ++ String.concat ", " ms).
Proof.
  unfold generate_risk_message. intros Hne Hms.
  destruct (List.filter flagged checks) as [|c cs] eqn:Hf; [done|].
  rewrite (mapM_clauses _ _ Hms). cbn [mbind exc_bind mret exc_ret].
  by rewrite concat_singletons.
Qed.

Lemma run_checks_have_clauses txn hist ent :
  amount_is_number txn →
  Forall (λ c, has_clause c) (List.filter flagged (checks_of txn hist ent)).
Proof.
  intros Hnum. unfold run_checks. cbn [List.filter].
  pose proof (amount_has_clause txn hist Hnum).
  pose proof (quantity_has_clause txn hist).
  pose proof (timing_has_clause txn hist).
  pose proof (price_has_clause txn hist ent).
  repeat (match goal with |- context [if ?b then _ else _] =>
            destruct b eqn:? end);
    repeat constructor; auto.
Qed.

(** The call returns a verdict whenever the explanation can print the
    amount. *)
Lemma analyze_returns db user_id txn ent :
  amount_is_number txn → ∃ r db', analyze db user_id txn ent = ok (r, db').
Proof.
  intros Hnum.
  destruct (Nat.ltb_spec (length (get_transactions_range db user_id)) 10)
    as [Hlt|Hge].
  - unfold analyze_transaction.
    destruct (Nat.ltb_spec (length (get_transactions_range db user_id)) 10);
      [|lia]. by eexists _, _.
  - rewrite (analyze_unfold _ _ _ _ Hge).
    destruct (Rltb _ _) eqn:Hs; [|by eexists _, _].
    destruct (has_clauses _ (run_checks_have_clauses txn
                (get_transactions_range db user_id) ent Hnum)) as [ms Hms].
    rewrite (risk_message_clauses _ ms); [by eexists _, _| |done].
    intros Hnil. rewrite Hnil in Hs. simpl in Hs.
    apply Rltb_true in Hs. lra.
Qed.

(** ** The verdict *)

(** C1. When the window holds at least 10 transactions, the verdict that
    [analyze_transaction] returns lists the four detector results and has
    risk_score = (number of flagged results) / 4, the division being by the
    fixed count 4; so risk_score is one of 0, 1/4, 1/2, 3/4, 1.
    anomaly_detected is true exactly when risk_score > 1/2, that is exactly
    when at least 3 of the 4 detectors flagged (2 of 4 do not suffice).
    The call does return a verdict whenever the transaction's amount, if
    it has one, is a number. *)
Theorem risk_score_is_flagged_over_four db user_id txn ent :
  (10 ≤ length (get_transactions_range db user_id))%nat →
  let checks := checks_of txn (get_transactions_range db user_id) ent in
  let k := length (List.filter flagged checks) in
  (∀ r db', analyze db user_id txn ent = ok (r, db') →
     details r = Some checks ∧
     risk_score r = (INR k / 4)%R ∧
     risk_score r ∈ [0; 1 / 4; 1 / 2; 3 / 4; 1]%R ∧
     (anomaly_detected r = true ↔ (risk_score r > 1 / 2)%R) ∧
     (anomaly_detected r = true ↔ (3 ≤ k)%nat)) ∧
  (amount_is_number txn → ∃ r db', analyze db user_id txn ent = ok (r, db')).
Proof.
  intros Hlen checks k. split; [|apply analyze_returns].
  intros r db'. rewrite (analyze_unfold _ _ _ _ Hlen). fold checks k.
  pose proof (flagged_count_le txn (get_transactions_range db user_id) ent)
    as Hk. fold checks k in Hk.
  pose proof (score_above_half k Hk) as Hhalf.
  pose proof (score_values k Hk) as Hval.
  destruct (Rltb (5 / 10) (INR k / 4)) eqn:Hs.
  - apply Rltb_true in Hs.
    destruct (risk_message checks) as [text|e]; [|done].
    intros [= <- <-]. cbn [details risk_score anomaly_detected].
    repeat split; auto; try (intros; lra); intros _; apply Hhalf; lra.
  - apply Rltb_false in Hs.
    intros [= <- <-]. cbn [details risk_score anomaly_detected].
    repeat split; auto; try done; intros H; exfalso.
    + lra.
    + apply Hhalf in H. lra.
Qed.

(** C2. When the window holds fewer than 10 transactions, whatever the
    transaction and the entities are, [analyze_transaction] returns the
    verdict with risk_score = 0 and anomaly_detected = false; no detector
    has run (the verdict carries no detector results and no explanation)
    and the store is left as it was. *)
Theorem small_window_short_circuit db user_id txn ent :
  (length (get_transactions_range db user_id) < 10)%nat →
  ∃ r, analyze db user_id txn ent = ok (r, db) ∧
       risk_score r = 0%R ∧ anomaly_detected r = false ∧
       details r = None ∧ message r = None.
Proof.
  intros Hlt. exists initial_response. unfold analyze_transaction.
  destruct (Nat.ltb_spec (length (get_transactions_range db user_id)) 10);
    [done|lia].
Qed.

End Facts.

(** ** The verdict on concrete windows *)

Lemma small_window_short_circuit_witness :
  ∃ r, StandIn.analyze_transaction (db_with [∅; ∅]) "u1" ∅ ∅
       = ok (r, db_with [∅; ∅]) ∧
       risk_score r = 0%R ∧ anomaly_detected r = false ∧
       details r = None ∧ message r = None.
Proof.
  apply (small_window_short_circuit StandIn.fit StandIn.predict
           StandIn.parse_iso StandIn.float_str StandIn.float_fixed
           StandIn.datetime_str RiskAgent_init (db_with [∅; ∅]) "u1" ∅ ∅).
  simpl. lia.
Defined.

(** ** The timing detector *)

Lemma mapM_exc_ok {A B} (f : A → exc B) (l : list A) (k : list B) :
  Forall2 (λ x y, f x = ok y) l k → mapM f l = ok k.
Proof.
  induction 1 as [|x y l k Hx _ IH]; [done|].
  cbn [mapM]. rewrite Hx. cbn [mbind exc_bind].
  change (mapM f l ≫= (λ k, mret (y :: k)) = ok (y :: k)). by rewrite IH.
Qed.

Lemma mapM_exc_raise {A B} (f : A → exc B) (l : list A) :
  Exists (λ x, raises (f x)) l → raises (mapM f l).
Proof.
  induction l as [|x l IH]; intros H; [by apply Exists_nil in H|].
  cbn [mapM]. destruct (f x) as [y|e] eqn:Hx; [|by exists e].
  apply Exists_cons in H as [[e He]|H]; [congruence|].
  cbn [mbind exc_bind].
  change (raises (mapM f l ≫= (λ k, mret (y :: k)))).
  destruct (IH H) as [e ->]. by exists e.
Qed.

Lemma hour_of_iso parse (txn : dict) (t : datetime) :
  iso_timestamp parse txn t → hour_of parse txn = ok (hour t).
Proof.
  intros (s & Hs & Ht). unfold hour_of.
  rewrite (getitem_Some _ _ _ Hs). cbn [mbind exc_bind fromisoformat].
  by rewrite Ht.
Qed.

Lemma hour_of_bad parse (txn : dict) :
  bad_timestamp parse txn → raises (hour_of parse txn).
Proof.
  intros (s & e & Hs & Ht). unfold hour_of.
  rewrite (getitem_Some _ _ _ Hs). cbn [mbind exc_bind fromisoformat].
  rewrite Ht. by exists e.
Qed.

Lemma off_hours_test (h : Z) :
  (23 <=? h)%Z || (h <=? 5)%Z = true ↔ off_hours h.
Proof. unfold off_hours. rewrite orb_true_iff, !Z.leb_le. done. Qed.

(** C3, as the code has it.  For a transaction whose timestamp is a string
    that parses: when every timestamp of the window is a string that parses
    too, the timing detector reports the transaction's hour and flags it if
    and only if the hour lies in the off-hours band (hour ≥ 23 or hour ≤ 5)
    and equals the hour of no transaction of the window; either condition
    alone leaves the flag false.  When some timestamp of the window is a
    string that does not parse, the flag is false and the result carries an
    error note. *)
Theorem timing_flag_iff parse (txn : dict) (hist : list dict) (t : datetime) :
  iso_timestamp parse txn t →
  (∀ hours,
     Forall2 (λ rec h, ∃ t', iso_timestamp parse rec t' ∧ hour t' = h)
             hist hours →
     check_unusual_timing parse txn hist !! "hour"
       = Some (Scalar (PInt (hour t))) ∧
     (flagged (check_unusual_timing parse txn hist) = true
      ↔ off_hours (hour t) ∧ hour t ∉ hours)) ∧
  (Exists (bad_timestamp parse) hist →
     flagged (check_unusual_timing parse txn hist) = false ∧
     ∃ e, check_unusual_timing parse txn hist = error_result "timing" e).
Proof.
  intros Ht. unfold check_unusual_timing, timing_body.
  rewrite (hour_of_iso _ _ _ Ht). cbn [mbind exc_bind]. split.
  - intros hours Hh.
    rewrite (mapM_exc_ok _ _ hours).
    2:{ eapply Forall2_impl; [exact Hh|]. intros rec h (t' & Ht' & <-).
        by apply hour_of_iso. }
    cbn [mbind exc_bind mret exc_ret try_except]. split; [done|].
    unfold flagged, get.
    rewrite lookup_insert_ne, lookup_insert_eq by done.
    cbn [default Datatypes.id truthy_obj truthy].
    rewrite andb_true_iff, off_hours_test, negb_true_iff, bool_decide_eq_false.
    done.
  - intros Hbad.
    destruct (mapM_exc_raise (hour_of parse) hist) as [e ->].
    { eapply Exists_impl; [exact Hbad|]. apply hour_of_bad. }
    cbn [mbind exc_bind try_except]. split; [done|by exists e].
Qed.

Lemma txn_at_night_stamp :
  iso_timestamp StandIn.parse_iso txn_at_night two_thirty_am.
Proof. exists "2024-03-05T02:30:00". split; [done|]. by vm_compute. Qed.

(** The scenario of the specification: window hours 9, 10 and 14, a
    transaction at 2 o'clock is flagged. *)
Lemma timing_flag_iff_witness :
  flagged (StandIn.check_unusual_timing txn_at_night daytime_window) = true.
Proof.
  destruct (timing_flag_iff StandIn.parse_iso txn_at_night daytime_window
              two_thirty_am txn_at_night_stamp) as [Hall _].
  apply (Hall [9; 10; 14]%Z).
  - repeat constructor.
    + exists (mk_datetime 2024 3 4 9 0 0 0). split; [|done].
      exists "2024-03-04T09:00:00". split; [done|]. by vm_compute.
    + exists (mk_datetime 2024 3 4 10 15 0 0). split; [|done].
      exists "2024-03-04T10:15:00". split; [done|]. by vm_compute.
    + exists (mk_datetime 2024 3 4 14 45 10 0). split; [|done].
      exists "2024-03-04T14:45:10". split; [done|]. by vm_compute.
  - split; [right; simpl; lia|]. simpl.
    rewrite !elem_of_cons, elem_of_nil. lia.
Defined.

(** C3 as stated fails: the transaction's timestamp parses, its hour 2 is
    off-hours and is the hour of no transaction of the window (whose hours
    are 9, 10 and 14), yet the flag is false, because one timestamp of the
    window does not parse. *)
Lemma timing_every_window_counterexample :
  iso_timestamp StandIn.parse_iso txn_at_night two_thirty_am ∧
  off_hours (hour two_thirty_am) ∧
  window_hours StandIn.parse_iso window_with_bad_stamp = [9; 10; 14]%Z ∧
  (hour two_thirty_am
     ∉ window_hours StandIn.parse_iso window_with_bad_stamp) ∧
  flagged (StandIn.check_unusual_timing txn_at_night window_with_bad_stamp)
  = false.
Proof.
  split; [apply txn_at_night_stamp|].
  split; [right; simpl; lia|].
  assert (window_hours StandIn.parse_iso window_with_bad_stamp
          = [9; 10; 14]%Z) as Hw by (by vm_compute).
  split; [exact Hw|].
  split; [rewrite Hw; simpl; rewrite !elem_of_cons, elem_of_nil; lia|].
  by vm_compute.
Qed.

(** ** The price detector and the transaction *)

Lemma price_body_amount {rt : Runtime} (txn1 txn2 : dict) hist ent :
  txn1 !! "amount" = txn2 !! "amount" →
  price_body txn1 hist ent = price_body txn2 hist ent.
Proof. intros Hamt. unfold price_body, get. by rewrite Hamt. Qed.

(** C10. The price detector takes the current quantity from the entities
    and nothing but the amount from the transaction: two calls whose
    transactions have the same amount (in particular two calls that differ
    only in the transaction's own quantity field) return the same result. *)
Theorem price_depends_on_amount_only {rt : Runtime} (txn1 txn2 : dict) hist ent :
  txn1 !! "amount" = txn2 !! "amount" →
  check_price_deviation txn1 hist ent = check_price_deviation txn2 hist ent.
Proof.
  intros Hamt. unfold check_price_deviation.
  by rewrite (price_body_amount txn1 txn2 hist ent Hamt).
Qed.

Section PriceInputs.

#[local] Existing Instance StandIn.runtime.

Lemma price_depends_on_amount_only_witness :
  check_price_deviation sale_of_one rice_window rice_for_20
  = check_price_deviation sale_of_many rice_window rice_for_20.
Proof.
  apply (price_depends_on_amount_only sale_of_one sale_of_many
           rice_window rice_for_20).
  reflexivity.
Defined.

End PriceInputs.

(** Writing or erasing the transaction's quantity changes nothing. *)
Lemma price_ignores_transaction_quantity {rt : Runtime} (txn : dict) (v : pyval) hist ent :
  check_price_deviation (<["quantity" := v]> txn) hist ent
  = check_price_deviation txn hist ent ∧
  check_price_deviation (delete "quantity" txn) hist ent
  = check_price_deviation txn hist ent.
Proof.
  unfold check_price_deviation.
  split; f_equal; apply price_body_amount.
  - by rewrite lookup_insert_ne.
  - by rewrite lookup_delete_ne.
Qed.

(** ** The quantity detector *)

Lemma mapM_exc_length {A B} (f : A → exc B) (l : list A) (k : list B) :
  mapM f l = ok k → length l = length k.
Proof.
  revert k. induction l as [|x l IH]; intros k; cbn [mapM].
  - by intros [= <-].
  - destruct (f x) as [y|e]; [|done]. cbn [mbind exc_bind].
    change (mapM f l ≫= (λ k, mret (y :: k)) = ok k → length (x :: l) = length k).
    destruct (mapM f l) as [k'|e]; [|done].
    intros [= <-]. simpl. f_equal. by apply IH.
Qed.

Lemma mapM_exc_cons {A B} (f : A → exc B) (x : A) (l : list A) :
  mapM f (x :: l) = y ← f x; k ← mapM f l; mret (y :: k).
Proof. done. Qed.

Lemma np_array_cons (v : pyval) (x : R) (vs : list pyval) (xs : list R) :
  as_num v = Some x → np_array vs = ok xs → np_array (v :: vs) = ok (x :: xs).
Proof.
  intros Hv Hvs. unfold np_array in *. rewrite mapM_exc_cons, Hvs.
  unfold operand. by rewrite Hv.
Qed.

(** The comprehension over a window whose quantities are numbers collects
    the positive ones. *)
Lemma quantities_of_window (hist : list dict) :
  Forall (field_is_number "quantity") hist →
  ∃ qs, list_comp (λ txn, gt (get txn "quantity" (PInt 0)) 0)
                  (λ txn, getitem txn "quantity") hist = ok qs
        ∧ np_array qs = ok (positive_quantities hist).
Proof.
  induction 1 as [|txn hist Hnum _ (qs & Hqs & Harr)]; [by exists []|].
  unfold positive_quantities in *.
  cbn [list_comp fmap list_fmap List.filter]. unfold num_field at 1 2.
  destruct (txn !! "quantity") as [v|] eqn:Hv; cbn [default mbind option_bind].
  - rewrite (get_Some _ _ _ _ Hv).
    destruct (Hnum v Hv) as [x Hx]. rewrite (gt_num _ _ _ Hx), Hx.
    cbn [mbind exc_bind default Datatypes.id]. destruct (Rltb 0 x).
    + rewrite (getitem_Some _ _ _ Hv), Hqs. cbn [mbind exc_bind mret exc_ret].
      eexists. split; [done|]. by apply np_array_cons.
    + rewrite Hqs. by exists qs.
  - rewrite (get_None _ _ _ Hv), (gt_num (PInt 0) 0 0 eq_refl).
    cbn [mbind exc_bind default].
    destruct (Rltb 0 0) eqn:H0; [apply Rltb_true in H0; lra|].
    rewrite Hqs. by exists qs.
Qed.

Lemma list_comp_raise {A B} (cond : A → exc bool) (elt : A → exc B)
    (l : list A) :
  Exists (λ x, raises (cond x)) l → raises (list_comp cond elt l).
Proof.
  induction l as [|x l IH]; intros H; [by apply Exists_nil in H|].
  cbn [list_comp]. destruct (cond x) as [c|e] eqn:Hx; [|by exists e].
  apply Exists_cons in H as [[e He]|H]; [congruence|].
  destruct (IH H) as [e He]. cbn [mbind exc_bind]. destruct c; [|by exists e].
  destruct (elt x) as [y|e']; [|by exists e'].
  cbn [mbind exc_bind]. rewrite He. by exists e.
Qed.

Lemma as_num_get (k : string) (txn : dict) :
  field_is_number k txn →
  as_num (get txn k (PInt 0)) = Some (num_field k txn).
Proof.
  intros Hnum. unfold get, num_field.
  destruct (txn !! k) as [v|] eqn:Hv; cbn [default mbind option_bind]; [|done].
  destruct (Hnum v Hv) as [x Hx]. by rewrite Hx.
Qed.

Lemma exact_std_nonneg (l : list R) : (0 <= exact_std l)%R.
Proof. apply sqrt_pos. Qed.

Lemma z_score_of_pos {rt : Runtime} (c : R) (qs : list R) :
  (0 < np_std qs)%R →
  z_score_of c qs = Rabs (fdiv (fsub c (np_mean qs)) (np_std qs)).
Proof.
  intros Hpos%Rltb_true. unfold z_score_of. by rewrite Hpos.
Qed.

Lemma z_score_of_zero {rt : Runtime} (c : R) (qs : list R) :
  ¬ (0 < np_std qs)%R → z_score_of c qs = 0%R.
Proof.
  intros Hpos. unfold z_score_of.
  destruct (Rltb _ _) eqn:Hlt; [|done]. by apply Rltb_true in Hlt.
Qed.

(** The body of the quantity detector on a window and a transaction whose
    quantities are numbers. *)
Lemma quantity_body_numbers {rt : Runtime} (txn : dict) (hist : list dict) :
  Forall (field_is_number "quantity") hist →
  field_is_number "quantity" txn →
  quantity_body txn hist =
    if (length (positive_quantities hist) <? 10)%nat
    then ok (no_evidence "quantity")
    else
      let z := z_score_of (num_field "quantity" txn)
                          (positive_quantities hist) in
      ok (<["check" := Scalar (PStr "quantity")]>
           (<["is_anomaly" := Scalar (PBool (Rltb 3 z))]>
             (<["value" := Scalar (get txn "quantity" (PInt 0))]>
               (<["z_score" :=
                    Scalar (if Rltb 0 (np_std (positive_quantities hist))
                            then PFloat z else PInt 0)]> ∅)))).
Proof.
  intros Hhist Htxn. unfold quantity_body.
  destruct (quantities_of_window hist Hhist) as (qs & -> & Harr).
  cbn [mbind exc_bind]. rewrite (mapM_exc_length _ _ _ Harr).
  destruct (_ <? 10)%nat; [done|]. rewrite Harr. cbn [mbind exc_bind].
  destruct (Rltb 0 (np_std _)) eqn:Hstd.
  - apply Rltb_true in Hstd. unfold operand. rewrite (as_num_get _ _ Htxn).
    cbn [mbind exc_bind mret exc_ret].
    rewrite (gt_num (PFloat _) _ 3 eq_refl).
    cbn [mbind exc_bind]. by rewrite z_score_of_pos.
  - apply Rltb_false in Hstd.
    cbn [mbind exc_bind mret exc_ret]. rewrite (gt_num (PInt 0) 0 3 eq_refl).
    cbn [mbind exc_bind]. rewrite z_score_of_zero by lra. done.
Qed.

Lemma positive_quantities_qty (z : Z) (hist : list dict) :
  (0 < z)%Z →
  positive_quantities (qty_record z :: hist)
  = IZR z :: positive_quantities hist.
Proof.
  intros Hz. unfold positive_quantities. cbn [fmap list_fmap List.filter].
  change (num_field "quantity" (qty_record z)) with (IZR z).
  destruct (Rltb 0 (IZR z)) eqn:H; [done|].
  apply Rltb_false in H. apply IZR_lt in Hz. lra.
Qed.

Lemma positive_quantities_null (hist : list dict) :
  positive_quantities ({[ "quantity" := PNone ]} :: hist)
  = positive_quantities hist.
Proof.
  unfold positive_quantities. cbn [fmap list_fmap List.filter].
  change (num_field "quantity" {[ "quantity" := PNone ]}) with 0%R.
  destruct (Rltb 0 0) eqn:H; [|done]. apply Rltb_true in H. lra.
Qed.

Lemma steady_quantities :
  positive_quantities steady_window = [9; 11; 9; 11; 9; 11; 9; 11; 9; 11]%R.
Proof.
  unfold steady_window. cbn [fmap list_fmap].
  rewrite !positive_quantities_qty by lia. done.
Qed.

Lemma steady_mean : exact_mean (positive_quantities steady_window) = 10%R.
Proof. rewrite steady_quantities. unfold exact_mean, Rsum. simpl. lra. Qed.

Lemma steady_std : exact_std (positive_quantities steady_window) = 1%R.
Proof.
  unfold exact_std, exact_var. rewrite steady_mean, steady_quantities.
  replace (exact_mean _) with 1%R; [apply sqrt_1|].
  unfold exact_mean, Rsum. simpl. lra.
Qed.

Lemma qty_record_is_number (z : Z) : field_is_number "quantity" (qty_record z).
Proof.
  intros v Hv. unfold qty_record in Hv.
  apply lookup_singleton_Some in Hv as [_ <-]. by eexists.
Qed.

Lemma steady_window_numbers :
  Forall (field_is_number "quantity") steady_window.
Proof. unfold steady_window. repeat constructor; apply qty_record_is_number. Qed.

Lemma flagged_insert_flag (b : bool) (r : result) (name : pyobj) :
  flagged (<["check" := name]> (<["is_anomaly" := Scalar (PBool b)]> r)) = b.
Proof.
  unfold flagged, get. by rewrite lookup_insert_ne, lookup_insert_eq.
Qed.

Section NullQuantity.

#[local] Existing Instance StandIn.runtime.

Lemma steady_z_score (z : Z) :
  z_score_of (IZR z) (positive_quantities steady_window)
  = Rabs (IZR z - 10).
Proof.
  unfold z_score_of, fdiv, fsub. exact_arith.
  rewrite steady_std, steady_mean.
  destruct (Rltb 0 1) eqn:H; [|apply Rltb_false in H; lra].
  f_equal. lra.
Qed.

Lemma steady_flags_1000 :
  flagged (check_quantity_anomaly (qty_record 1000) steady_window) = true.
Proof.
  unfold check_quantity_anomaly.
  rewrite (quantity_body_numbers _ _ steady_window_numbers
             (qty_record_is_number 1000)).
  rewrite steady_quantities. cbn [length Nat.ltb Nat.leb try_except].
  rewrite flagged_insert_flag. apply Rltb_true.
  rewrite <- steady_quantities.
  change (num_field "quantity" (qty_record 1000)) with (IZR 1000).
  rewrite steady_z_score. rewrite Rabs_pos_eq; lra.
Qed.

End NullQuantity.

(** C5 at a stored quantity of [None], which is what [create_transaction]
    writes when the extraction returns null.  The window holds ten positive
    quantities, 9 and 11 in turn, and before them one record whose quantity
    is [None].  Whatever the runtime, the detector does not reach the mean:
    the comparison [None > 0] raises in the comprehension and the result
    is the error result, flag false - for a quantity of 1000, which the
    same window without that record flags (mean 10, standard deviation 1,
    z = 990, all exact in floating point). *)
Theorem null_quantity_silences_detector :
  (10 ≤ length (positive_quantities window_with_null))%nat
  ∧ (∀ rt : Runtime,
       @check_quantity_anomaly rt (qty_record 1000) window_with_null
       = error_result "quantity"
           (TypeError
              "'>' not supported between instances of 'NoneType' and 'int'"))
  ∧ flagged (error_result "quantity"
               (TypeError
                  "'>' not supported between instances of 'NoneType' and 'int'"))
    = false
  ∧ flagged (StandIn.check_quantity_anomaly (qty_record 1000) steady_window)
    = true.
Proof.
  split; [|split; [|split]].
  - unfold window_with_null. rewrite positive_quantities_null.
    rewrite steady_quantities. simpl. lia.
  - intros rt. reflexivity.
  - reflexivity.
  - apply steady_flags_1000.
Qed.

(** ** A transaction without quantity *)

Lemma quantity_default {rt : Runtime} (txn : dict) (hist : list dict) :
  txn !! "quantity" = None →
  check_quantity_anomaly txn hist
  = check_quantity_anomaly (<["quantity" := PInt 0]> txn) hist.
Proof.
  intros Hq. unfold check_quantity_anomaly, quantity_body.
  by rewrite (get_None _ _ _ Hq), (get_Some _ _ (PInt 0) _ (lookup_insert_eq _ _ _)).
Qed.

Section MissingQuantity.

#[local] Existing Instance StandIn.runtime.

(** C9. A transaction with no quantity field at all is judged as one with
    quantity 0: whatever the runtime, the detector returns what it returns
    for the same transaction with quantity 0, and flags it, with 0 as the
    value in evidence, on every window of numbers with at least 10 positive
    quantities against which 0 has a z-score above 3.  In exact arithmetic
    that is every such window with a standard deviation above 0 and a mean
    above 3 standard deviations; and there is such a window. *)
Theorem missing_quantity_counts_as_zero (txn : dict) :
  txn !! "quantity" = None →
  (∀ (rt : Runtime) hist,
     @check_quantity_anomaly rt txn hist
     = @check_quantity_anomaly rt (<["quantity" := PInt 0]> txn) hist) ∧
  (∀ (rt : Runtime) hist,
     let qs := positive_quantities hist in
     Forall (field_is_number "quantity") hist →
     (10 ≤ length qs)%nat → (@z_score_of rt 0 qs > 3)%R →
     flagged (@check_quantity_anomaly rt txn hist) = true ∧
     @check_quantity_anomaly rt txn hist !! "value"
     = Some (Scalar (PInt 0))) ∧
  (∀ hist,
     let qs := positive_quantities hist in
     Forall (field_is_number "quantity") hist →
     (10 ≤ length qs)%nat → (0 < exact_std qs)%R →
     (3 * exact_std qs < exact_mean qs)%R →
     flagged (check_quantity_anomaly txn hist) = true ∧
     check_quantity_anomaly txn hist !! "value" = Some (Scalar (PInt 0))) ∧
  (∃ hist,
     let qs := positive_quantities hist in
     Forall (field_is_number "quantity") hist ∧
     (10 ≤ length qs)%nat ∧ (0 < exact_std qs)%R ∧
     (3 * exact_std qs < exact_mean qs)%R ∧
     flagged (check_quantity_anomaly txn hist) = true).
Proof.
  intros Hq.
  assert (field_is_number "quantity" txn) as Htxn.
  { intros v Hv. congruence. }
  assert (∀ (rt : Runtime) hist,
     let qs := positive_quantities hist in
     Forall (field_is_number "quantity") hist →
     (10 ≤ length qs)%nat → (@z_score_of rt 0 qs > 3)%R →
     flagged (@check_quantity_anomaly rt txn hist) = true ∧
     @check_quantity_anomaly rt txn hist !! "value"
     = Some (Scalar (PInt 0))) as Hany.
  { intros rt hist qs Hhist Hlen Hz. unfold check_quantity_anomaly.
    rewrite (quantity_body_numbers txn hist Hhist Htxn). fold qs.
    destruct (Nat.ltb_spec (length qs) 10); [lia|]. cbn [try_except].
    rewrite flagged_insert_flag, (get_None _ _ _ Hq). split; [|done].
    apply Rltb_true. unfold num_field. rewrite Hq.
    cbn [mbind option_bind default]. exact Hz. }
  assert (∀ hist,
     let qs := positive_quantities hist in
     Forall (field_is_number "quantity") hist →
     (10 ≤ length qs)%nat → (0 < exact_std qs)%R →
     (3 * exact_std qs < exact_mean qs)%R →
     flagged (check_quantity_anomaly txn hist) = true ∧
     check_quantity_anomaly txn hist !! "value" = Some (Scalar (PInt 0)))
    as Hflag.
  { intros hist qs Hhist Hlen Hstd Hmean.
    apply (Hany StandIn.runtime hist Hhist Hlen). fold qs.
    rewrite z_score_of_pos by (exact_arith; done).
    unfold fdiv, fsub. exact_arith.
    replace ((0 - exact_mean qs) / exact_std qs)%R
      with (- (exact_mean qs / exact_std qs))%R by (field; lra).
    assert (exact_mean qs / exact_std qs * exact_std qs = exact_mean qs)%R
      as Hm by (field; lra).
    rewrite Rabs_Ropp, Rabs_pos_eq; nra. }
  split; [intros rt hist; by apply quantity_default|].
  split; [exact Hany|]. split; [exact Hflag|].
  exists steady_window. cbn zeta.
  assert (10 ≤ length (positive_quantities steady_window))%nat as Hlen
    by (rewrite steady_quantities; simpl; lia).
  assert (0 < exact_std (positive_quantities steady_window))%R as Hstd
    by (rewrite steady_std; lra).
  assert (3 * exact_std (positive_quantities steady_window)
          < exact_mean (positive_quantities steady_window))%R as Hmean
    by (rewrite steady_std, steady_mean; lra).
  repeat split; try done; [apply steady_window_numbers|].
  by apply (Hflag steady_window steady_window_numbers).
Qed.

Lemma missing_quantity_counts_as_zero_witness :
  flagged (check_quantity_anomaly ∅ steady_window) = true.
Proof.
  destruct (missing_quantity_counts_as_zero ∅ (lookup_empty _))
    as (_ & _ & Hflag & _).
  apply (Hflag steady_window steady_window_numbers).
  - rewrite steady_quantities. simpl. lia.
  - rewrite steady_std. lra.
  - rewrite steady_std, steady_mean. lra.
Defined.

End MissingQuantity.

(** ** The price detector *)

Lemma py_lower_item {rt : Runtime} (txn : dict) :
  item_is_text txn →
  py_lower (get txn "item" (PStr "")) = ok (lower (item_name txn)).
Proof.
  intros Htext. unfold get, item_name.
  destruct (txn !! "item") as [v|] eqn:Hv; [|done].
  destruct (Htext v Hv) as [s ->]. done.
Qed.

Lemma truediv_numbers {rt : Runtime} (a b : pyval) (x y : R) :
  as_num a = Some x → as_num b = Some y → truediv a b = ok (fdiv x y).
Proof. intros Ha Hb. unfold truediv, operand. by rewrite Ha, Hb. Qed.

(** The loop over a well-typed window collects the prices per unit of the
    records that name the item and have a positive quantity. *)
Lemma prices_of_window {rt : Runtime} (name : string) (hist : list dict) :
  Forall well_typed hist →
  historical_prices_of (PStr name) hist = ok (unit_prices name hist).
Proof.
  induction 1 as [|txn hist (Htext & Hqty & Hamt) _ IH]; [done|].
  unfold unit_prices in *. cbn [historical_prices_of List.filter].
  rewrite (py_lower_item txn Htext). cbn [mbind exc_bind py_lower].
  unfold same_item at 1.
  destruct (String.eqb _ _); cbn [andb]; [|done].
  rewrite (gt_num _ _ 0 (as_num_get _ _ Hqty)). cbn [mbind exc_bind].
  destruct (Rltb 0 _); [|done].
  rewrite (truediv_numbers _ _ _ _ (as_num_get _ _ Hamt) (as_num_get _ _ Hqty)).
  cbn [mbind exc_bind]. by rewrite IH.
Qed.

Lemma eq0_num (v : pyval) (x : R) :
  as_num v = Some x → x ≠ 0%R → eq0 v = false.
Proof. unfold eq0. intros -> Hx. by apply Reqb_false. Qed.

Lemma deviation_of_pos {rt : Runtime} (price : R) (prices : list R) :
  (0 < np_mean prices)%R →
  deviation_of price prices
  = Rabs (fdiv (fsub price (np_mean prices)) (np_mean prices)).
Proof.
  intros Hpos%Rltb_true. unfold deviation_of. by rewrite Hpos.
Qed.

(** The body of the price detector once the item is named, the window is
    well typed and holds at least 3 prices, and the current quantity and
    amount are numbers, the quantity not being 0. *)
Lemma price_body_numbers {rt : Runtime} (txn ent : dict) (hist : list dict)
    (name : string) (q a : R) :
  Forall well_typed hist →
  ent !! "item" = Some (PStr name) → name ≠ "" →
  (3 ≤ length (unit_prices name hist))%nat →
  as_num (get ent "quantity" (PInt 0)) = Some q → q ≠ 0%R →
  as_num (get txn "amount" (PInt 0)) = Some a →
  let dev := deviation_of (fdiv a q) (unit_prices name hist) in
  let mean := np_mean (unit_prices name hist) in
  price_body txn hist ent =
    ok (<["check" := Scalar (PStr "price")]>
         (<["is_anomaly" := Scalar (PBool (Rltb (5 / 10) dev))]>
           (<["current_price" := Scalar (PFloat (fdiv a q))]>
             (<["mean_price" := Scalar (PFloat mean)]>
               (<["deviation_pct" :=
                    Scalar (if Rltb 0 mean then PFloat (nearest (dev * 100))
                            else PInt 0)]> ∅))))).
Proof.
  intros Hhist Hitem Hname Hlen Hq Hq0 Ha dev mean. unfold price_body.
  rewrite (get_Some _ _ _ _ Hitem). cbn [truthy].
  destruct (String.eqb_spec name ""); [done|]. cbn [negb].
  rewrite (prices_of_window name hist Hhist). cbn [mbind exc_bind].
  destruct (Nat.ltb_spec (length (unit_prices name hist)) 3); [lia|].
  rewrite (eq0_num _ _ Hq Hq0), (truediv_numbers _ _ _ _ Ha Hq).
  cbn [mbind exc_bind]. fold mean. subst dev.
  destruct (Rltb 0 mean) eqn:Hmean.
  - apply Rltb_true in Hmean.
    rewrite (gt_num (PFloat _) _ _ eq_refl). cbn [mbind exc_bind times100].
    by rewrite deviation_of_pos.
  - rewrite (gt_num (PInt 0) 0 _ eq_refl). cbn [mbind exc_bind times100].
    unfold deviation_of. fold mean. by rewrite Hmean.
Qed.

(** C4, as the code has it.  On a well-typed window the price detector
    returns flag = false with no evidence when the entities name no item,
    when fewer than 3 records of the window name the same item (the same
    after [str.lower]) with a positive quantity, or when the current
    quantity, read from the entities, equals 0.  Otherwise, the current
    quantity being a number other than 0 (a negative one included) and the
    amount a number, it reports current_price = amount / quantity and
    mean_price, numpy's mean of the prices per unit of those records, and
    flags if and only if deviation > 0.5, where deviation
    = |(current_price - mean_price) / mean_price|, and 0 when mean_price is
    not positive.  Every quotient and difference is the one floating-point
    arithmetic returns, whatever that is. *)
Theorem price_deviation_contract {rt : Runtime} (txn ent : dict) (hist : list dict) :
  Forall well_typed hist →
  (truthy (get ent "item" PNone) = false →
     check_price_deviation txn hist ent = no_evidence "price") ∧
  (∀ name, ent !! "item" = Some (PStr name) → name ≠ "" →
     let ps := unit_prices name hist in
     let qty := get ent "quantity" (PInt 0) in
     let amt := get txn "amount" (PInt 0) in
     ((length ps < 3)%nat →
        check_price_deviation txn hist ent = no_evidence "price") ∧
     (eq0 qty = true →
        check_price_deviation txn hist ent = no_evidence "price") ∧
     (∀ q a, (3 ≤ length ps)%nat →
        as_num qty = Some q → q ≠ 0%R → as_num amt = Some a →
        check_price_deviation txn hist ent !! "current_price"
          = Some (Scalar (PFloat (fdiv a q))) ∧
        check_price_deviation txn hist ent !! "mean_price"
          = Some (Scalar (PFloat (np_mean ps))) ∧
        (flagged (check_price_deviation txn hist ent) = true
         ↔ (deviation_of (fdiv a q) ps > 1 / 2)%R))).
Proof.
  intros Hhist. split.
  - intros Hitem. unfold check_price_deviation, price_body.
    by rewrite Hitem.
  - intros name Hitem Hname ps qty amt.
    assert (truthy (get ent "item" PNone) = true) as Htruthy.
    { rewrite (get_Some _ _ _ _ Hitem). cbn [truthy].
      by destruct (String.eqb_spec name ""). }
    split; [|split].
    + intros Hlt. unfold check_price_deviation, price_body.
      rewrite Htruthy, (get_Some _ _ _ _ Hitem). cbn [negb].
      rewrite (prices_of_window name hist Hhist). cbn [mbind exc_bind].
      fold ps. by destruct (Nat.ltb_spec (length ps) 3); [|lia].
    + intros Hzero. unfold check_price_deviation, price_body.
      rewrite Htruthy, (get_Some _ _ _ _ Hitem). cbn [negb].
      rewrite (prices_of_window name hist Hhist). cbn [mbind exc_bind].
      fold qty. rewrite Hzero. by destruct (_ <? 3)%nat.
    + intros q a Hlen Hq Hq0 Ha. unfold check_price_deviation.
      rewrite (price_body_numbers txn ent hist name q a); try done.
      cbn [try_except]. fold ps. split; [done|]. split; [done|].
      rewrite flagged_insert_flag, Rltb_true. split; lra.
Qed.

Lemma sale_well_typed (item : string) (qty amt : Z) :
  well_typed (sale item qty amt).
Proof.
  unfold sale. repeat split; intros v Hv.
  - rewrite lookup_insert_eq in Hv. injection Hv as <-. by eexists.
  - rewrite lookup_insert_ne, lookup_insert_eq in Hv by done.
    injection Hv as <-. by eexists.
  - rewrite !lookup_insert_ne, lookup_singleton_eq in Hv by done.
    injection Hv as <-. by eexists.
Qed.

Section PriceExamples.

#[local] Existing Instance StandIn.runtime.

Lemma unit_prices_sale (name item : string) (qty amt : Z) (hist : list dict) :
  String.eqb (ascii_lower item) (ascii_lower name) = true → (0 < qty)%Z →
  unit_prices name (sale item qty amt :: hist)
  = (IZR amt / IZR qty)%R :: unit_prices name hist.
Proof.
  intros Hname Hqty. unfold unit_prices. cbn [List.filter]. unfold same_item.
  change (item_name (sale item qty amt)) with item.
  change (num_field "quantity" (sale item qty amt)) with (IZR qty).
  exact_arith. rewrite Hname. cbn [andb].
  destruct (Rltb 0 (IZR qty)) eqn:H; [done|].
  apply Rltb_false in H. apply IZR_lt in Hqty. lra.
Qed.

Lemma rice_prices :
  unit_prices "rice" rice_window = [20 / 2; 10 / 1; 50 / 5]%R.
Proof. unfold rice_window. by rewrite !unit_prices_sale by done. Qed.

Lemma rice_mean : exact_mean (unit_prices "rice" rice_window) = 10%R.
Proof. rewrite rice_prices. unfold exact_mean, Rsum. simpl. lra. Qed.

Lemma rice_window_well_typed : Forall well_typed rice_window.
Proof. repeat constructor; apply sale_well_typed. Qed.

Lemma rice_deviation (price : R) :
  deviation_of price (unit_prices "rice" rice_window)
  = Rabs ((price - 10) / 10).
Proof.
  unfold deviation_of, fdiv, fsub. exact_arith. rewrite rice_mean.
  destruct (Rltb 0 10) eqn:H; [done|]. apply Rltb_false in H. lra.
Qed.

(** The scenario of the specification: rice at 10 a unit three times, now
    20 for one: the deviation is 1 and the flag is set. *)
Lemma price_deviation_contract_witness :
  flagged (check_price_deviation sale_of_one rice_window rice_for_20) = true.
Proof.
  destruct (price_deviation_contract sale_of_one rice_for_20 rice_window
              rice_window_well_typed) as [_ Hnamed].
  destruct (Hnamed "rice") as (_ & _ & Hrun); [done|done|].
  destruct (Hrun 1%R 20%R) as (_ & _ & Hflag); [| done | lra | done |].
  - rewrite rice_prices. simpl. lia.
  - apply Hflag. rewrite rice_deviation. unfold fdiv. exact_arith.
    replace ((20 / 1 - 10) / 10)%R with 1%R by lra.
    rewrite Rabs_pos_eq; lra.
Defined.

(** C4 as stated fails: the current quantity, -1, is not strictly positive,
    yet the detector runs and flags: the price is 20 / -1 = -20 against a
    mean of 10, a deviation of 3, all exact in floating point. *)
Lemma price_negative_quantity_counterexample :
  as_num (get rice_returned "quantity" (PInt 0)) = Some (-1)%R ∧
  ¬ (0 < -1)%R ∧
  flagged (check_price_deviation sale_of_one rice_window rice_returned) = true.
Proof.
  split; [done|]. split; [lra|]. unfold check_price_deviation.
  assert (3 ≤ length (unit_prices "rice" rice_window))%nat as Hlen
    by (rewrite rice_prices; simpl; lia).
  assert (-1 ≠ 0)%R as Hq0 by lra.
  rewrite (price_body_numbers sale_of_one rice_returned rice_window
             "rice" (-1) 20 rice_window_well_typed eq_refl
             ltac:(done) Hlen eq_refl Hq0 eq_refl).
  cbn [try_except]. rewrite flagged_insert_flag, Rltb_true, rice_deviation.
  unfold fdiv. exact_arith.
  replace ((20 / -1 - 10) / 10)%R with (-3)%R by lra.
  rewrite Rabs_left; lra.
Qed.

End PriceExamples.

(** ** The amount detector *)

(** When the comprehension over the amounts returns, it has collected the
    positive amounts of the window. *)
Lemma amounts_collected (hist : list dict) (amounts : list pyval) :
  list_comp (λ txn, a ← getitem txn "amount"; gt a 0)
            (λ txn, getitem txn "amount") hist = ok amounts →
  np_array amounts = ok (positive_amounts hist).
Proof.
  revert amounts. induction hist as [|txn hist IH]; intros amounts.
  { by intros [= <-]. }
  unfold positive_amounts in *.
  cbn [list_comp fmap list_fmap List.filter]. unfold num_field at 1 2.
  destruct (txn !! "amount") as [v|] eqn:Hv;
    [rewrite (getitem_Some _ _ _ Hv)|by rewrite (getitem_None _ _ Hv)].
  cbn [mbind exc_bind option_bind].
  destruct (as_num v) as [x|] eqn:Hx;
    [rewrite (gt_num _ _ 0 Hx)|unfold gt; by rewrite Hx].
  cbn [mbind exc_bind default Datatypes.id]. destruct (Rltb 0 x).
  - destruct (list_comp _ _ hist) as [rest|e]; [|done].
    cbn [mbind exc_bind]. intros [= <-]. apply np_array_cons; auto.
  - apply IH.
Qed.

Lemma amounts_of_window (hist : list dict) :
  Forall amount_recorded hist →
  ∃ amounts,
    list_comp (λ txn, a ← getitem txn "amount"; gt a 0)
              (λ txn, getitem txn "amount") hist = ok amounts.
Proof.
  induction 1 as [|txn hist (v & Hv & x & Hx) _ [rest IH]]; [by exists []|].
  cbn [list_comp]. rewrite (getitem_Some _ _ _ Hv). cbn [mbind exc_bind].
  rewrite (gt_num _ _ _ Hx). cbn [mbind exc_bind]. rewrite IH.
  destruct (Rltb 0 x); by eexists.
Qed.

Section AmountDetector.

Context {rt : Runtime}.
Context {forest : Type}.
Context (IsolationForest_fit : R → Z → list R → exc forest)
        (predict : forest → pyval → exc Z).

(** The body of the amount detector on a window whose records all have a
    numeric amount, at least 10 of them positive. *)
Lemma amount_body_runs (self : RiskAgent) (txn : dict) (hist : list dict) :
  Forall amount_recorded hist →
  (10 ≤ length (positive_amounts hist))%nat →
  amount_body forest IsolationForest_fit predict self txn hist =
    clf ← IsolationForest_fit (anomaly_threshold self) 42
                              (positive_amounts hist);
    current_amount ← getitem txn "amount";
    prediction ← predict clf current_amount;
    mret (<["check" := Scalar (PStr "amount")]>
           (<["is_anomaly" := Scalar (PBool (prediction =? -1)%Z)]>
             (<["value" := Scalar current_amount]>
               (<["mean" := Scalar (PFloat (np_mean (positive_amounts hist)))]>
                 (<["std" := Scalar (PFloat (np_std (positive_amounts hist)))]>
                    ∅))))).
Proof.
  intros Hhist Hlen. unfold amount_body.
  destruct (amounts_of_window hist Hhist) as [amounts Hamounts].
  pose proof (amounts_collected hist amounts Hamounts) as Harr.
  rewrite Hamounts. cbn [mbind exc_bind].
  rewrite (mapM_exc_length _ _ _ Harr).
  destruct (Nat.ltb_spec (length (positive_amounts hist)) 10); [lia|].
  by rewrite Harr.
Qed.

(** C8. Whatever the transaction, the amount detector returns flag = false
    and no evidence (no value, mean or standard deviation) whenever fewer
    than 10 records of the window have a strictly positive amount; the
    result is exactly [{'check': 'amount', 'is_anomaly': False}] when every
    record has a numeric amount.  The agent takes its contamination rate
    from the configuration, where it is 0.15; and when the detector runs
    (every record with a numeric amount, at least 10 of them positive), the
    model is fitted on the positive amounts with that rate. *)
Theorem amount_detector_contract (self : RiskAgent) (txn : dict)
    (hist : list dict) :
  ((length (positive_amounts hist) < 10)%nat →
     let r := check_amount_anomaly forest IsolationForest_fit predict self
                txn hist in
     flagged r = false ∧ no_amount_evidence r ∧
     (Forall amount_recorded hist → r = no_evidence "amount")) ∧
  anomaly_threshold RiskAgent_init = Config.ANOMALY_THRESHOLD ∧
  Config.ANOMALY_THRESHOLD = (15 / 100)%R ∧
  (Forall amount_recorded hist →
   (10 ≤ length (positive_amounts hist))%nat →
   check_amount_anomaly forest IsolationForest_fit predict RiskAgent_init
     txn hist =
   try_except
     (clf ← IsolationForest_fit (15 / 100)%R 42 (positive_amounts hist);
      current_amount ← getitem txn "amount";
      prediction ← predict clf current_amount;
      mret (<["check" := Scalar (PStr "amount")]>
             (<["is_anomaly" := Scalar (PBool (prediction =? -1)%Z)]>
               (<["value" := Scalar current_amount]>
                 (<["mean" :=
                      Scalar (PFloat (np_mean (positive_amounts hist)))]>
                   (<["std" :=
                        Scalar (PFloat (np_std (positive_amounts hist)))]>
                      ∅))))))
     (error_result "amount")).
Proof.
  split; [|split; [done|split; [done|]]].
  - intros Hlt r. subst r. unfold check_amount_anomaly, amount_body.
    destruct (list_comp _ _ hist) as [amounts|e] eqn:Hamounts.
    + pose proof (amounts_collected hist amounts Hamounts) as Harr.
      cbn [mbind exc_bind]. rewrite (mapM_exc_length _ _ _ Harr).
      destruct (Nat.ltb_spec (length (positive_amounts hist)) 10); [|lia].
      done.
    + cbn [mbind exc_bind try_except]. repeat split; try done.
      intros Hhist. destruct (amounts_of_window hist Hhist). congruence.
  - intros Hhist Hlen. unfold check_amount_anomaly.
    by rewrite (amount_body_runs RiskAgent_init txn hist Hhist Hlen).
Qed.

End AmountDetector.

(** ** Failures inside the detectors *)

Section Absorption.

Context {rt : Runtime}.
Context {forest : Type}.
Context (IsolationForest_fit : R → Z → list R → exc forest)
        (predict : forest → pyval → exc Z)
        (parse_iso : string → exc datetime)
        (float_str : R → string) (float_fixed : nat → R → string)
        (datetime_str : datetime → string)
        (self : RiskAgent).

Local Abbreviation check_amount :=
  (check_amount_anomaly forest IsolationForest_fit predict self).
Local Abbreviation check_timing := (check_unusual_timing parse_iso).
Local Abbreviation checks_of :=
  (run_checks forest IsolationForest_fit predict parse_iso self).
Local Abbreviation analyze :=
  (analyze_transaction forest IsolationForest_fit predict parse_iso
     float_str float_fixed datetime_str self).
Local Abbreviation risk_message :=
  (generate_risk_message float_str float_fixed datetime_str).

(** The call aborts only when the explanation cannot be printed. *)
Lemma analyze_raise db user_id txn ent e :
  analyze db user_id txn ent = raise e →
  risk_message (checks_of txn (get_transactions_range db user_id) ent)
  = raise e.
Proof.
  destruct (Nat.ltb_spec (length (get_transactions_range db user_id)) 10)
    as [Hlt|Hge].
  - unfold analyze_transaction.
    by destruct (Nat.ltb_spec (length (get_transactions_range db user_id)) 10);
      [|lia].
  - rewrite (analyze_unfold _ _ _ _ _ _ _ _ _ _ _ Hge).
    cbv zeta. unfold mret, exc_ret. destruct (Rltb _ _); [|done].
    destruct (risk_message _) as [text|e']; cbn [mbind exc_bind];
      intros H; [discriminate H|by injection H as ->].
Qed.

(** The results come in the order amount, quantity, timing, price. *)
Lemma run_checks_names txn hist ent :
  (λ r : result, r !! "check") <$> checks_of txn hist ent
  = (λ name, Some (Scalar (PStr name)))
      <$> ["amount"; "quantity"; "timing"; "price"].
Proof.
  unfold run_checks. cbn [fmap list_fmap]. repeat f_equal.
  - unfold check_amount_anomaly, amount_body, try_except.
    repeat (exc_step; try done).
  - unfold check_quantity_anomaly, quantity_body, try_except.
    repeat (exc_step; try done).
  - unfold check_unusual_timing, timing_body, try_except.
    repeat (exc_step; try done).
  - unfold check_price_deviation, price_body, try_except.
    repeat (exc_step; try done).
Qed.

(** *** What makes a detector fail *)

Lemma amount_too_few txn hist :
  Forall amount_recorded hist →
  (length (positive_amounts hist) < 10)%nat →
  check_amount txn hist = no_evidence "amount".
Proof.
  intros Hhist Hlt. unfold check_amount_anomaly, amount_body.
  destruct (amounts_of_window hist Hhist) as [amounts Hamounts].
  pose proof (amounts_collected hist amounts Hamounts) as Harr.
  rewrite Hamounts. cbn [mbind exc_bind].
  rewrite (mapM_exc_length _ _ _ Harr).
  by destruct (Nat.ltb_spec (length (positive_amounts hist)) 10); [|lia].
Qed.

Lemma amount_bad_record txn hist :
  Exists (λ t, ¬ amount_recorded t) hist →
  ∃ e, check_amount txn hist = error_result "amount" e.
Proof.
  intros Hbad. unfold check_amount_anomaly, amount_body.
  destruct (list_comp_raise (λ txn, a ← getitem txn "amount"; gt a 0)
              (λ txn, getitem txn "amount") hist) as [e He].
  { eapply Exists_impl; [exact Hbad|]. intros t Ht.
    destruct (t !! "amount") as [v|] eqn:Hv;
      [rewrite (getitem_Some _ _ _ Hv)
      |rewrite (getitem_None _ _ Hv); by eexists].
    cbn [mbind exc_bind]. unfold gt.
    destruct (as_num v) as [x|] eqn:Hx; [|by eexists].
    destruct Ht. exists v. split; [done|]. by exists x. }
  rewrite He. by exists e.
Qed.

Lemma amount_fit_fails txn hist e :
  Forall amount_recorded hist →
  (10 ≤ length (positive_amounts hist))%nat →
  IsolationForest_fit (anomaly_threshold self) 42 (positive_amounts hist)
  = raise e →
  check_amount txn hist = error_result "amount" e.
Proof.
  intros Hhist Hlen Hfit. unfold check_amount_anomaly.
  rewrite (amount_body_runs _ _ self txn hist Hhist Hlen), Hfit. done.
Qed.

Lemma quantity_bad_record txn hist :
  Exists (field_not_number "quantity") hist →
  ∃ e, check_quantity_anomaly txn hist = error_result "quantity" e.
Proof.
  intros Hbad. unfold check_quantity_anomaly, quantity_body.
  destruct (list_comp_raise (λ txn, gt (get txn "quantity" (PInt 0)) 0)
              (λ txn, getitem txn "quantity") hist) as [e He].
  { eapply Exists_impl; [exact Hbad|].
    intros t (v & Hv & Hnum). rewrite (get_Some _ _ _ _ Hv).
    unfold gt. rewrite Hnum. by eexists. }
  rewrite He. by exists e.
Qed.

Lemma quantity_zero_deviation txn hist :
  Forall (field_is_number "quantity") hist →
  field_is_number "quantity" txn →
  (10 ≤ length (positive_quantities hist))%nat →
  ¬ (0 < np_std (positive_quantities hist))%R →
  flagged (check_quantity_anomaly txn hist) = false
  ∧ check_quantity_anomaly txn hist !! "z_score" = Some (Scalar (PInt 0))
  ∧ check_quantity_anomaly txn hist !! "error" = None.
Proof.
  intros Hhist Htxn Hlen Hstd. unfold check_quantity_anomaly.
  rewrite (quantity_body_numbers txn hist Hhist Htxn).
  destruct (Nat.ltb_spec (length (positive_quantities hist)) 10); [lia|].
  cbn [try_except]. rewrite flagged_insert_flag, z_score_of_zero by done.
  destruct (Rltb 0 (np_std _)) eqn:Hlt; [by apply Rltb_true in Hlt|].
  repeat split; [|done..].
  destruct (Rltb 3 0) eqn:H3; [apply Rltb_true in H3; lra|done].
Qed.

Lemma timing_missing_stamp txn hist :
  txn !! "created_at" = None →
  check_timing txn hist = error_result "timing" (KeyError "created_at").
Proof.
  intros Hnone. unfold check_unusual_timing, timing_body, hour_of.
  by rewrite (getitem_None _ _ Hnone).
Qed.

Lemma timing_bad_stamp txn hist s e :
  txn !! "created_at" = Some (PStr s) → parse_iso s = raise e →
  check_timing txn hist = error_result "timing" e.
Proof.
  intros Hs He. unfold check_unusual_timing, timing_body, hour_of.
  rewrite (getitem_Some _ _ _ Hs). cbn [mbind exc_bind fromisoformat].
  by rewrite He.
Qed.

Lemma prices_raise (item : pyval) (hist : list dict) :
  Exists (λ t, ¬ item_is_text t) hist →
  raises (historical_prices_of item hist).
Proof.
  induction hist as [|t hist IH]; intros Hbad; [by apply Exists_nil in Hbad|].
  cbn [historical_prices_of].
  destruct (py_lower (get t "item" (PStr ""))) as [name|e] eqn:Hname;
    [|by exists e].
  assert (Exists (λ t, ¬ item_is_text t) hist) as Hrest.
  { apply Exists_cons in Hbad as [Ht|Hrest]; [|done]. destruct Ht.
    intros v Hv. rewrite (get_Some _ _ _ _ Hv) in Hname.
    destruct v; try done. by eexists. }
  destruct (IH Hrest) as [e He]. cbn [mbind exc_bind].
  destruct (py_lower item) as [wanted|e']; [|by exists e'].
  cbn [mbind exc_bind]. destruct (String.eqb name wanted); [|by exists e].
  destruct (gt _ 0) as [[]|e']; cbn [mbind exc_bind];
    [|by exists e|by exists e'].
  destruct (truediv _ _) as [price|e']; [|by exists e'].
  cbn [mbind exc_bind]. rewrite He. by exists e.
Qed.

Lemma price_bad_record txn hist ent :
  truthy (get ent "item" PNone) = true →
  Exists (λ t, ¬ item_is_text t) hist →
  ∃ e, check_price_deviation txn hist ent = error_result "price" e.
Proof.
  intros Hitem Hbad. unfold check_price_deviation, price_body.
  rewrite Hitem. cbn [negb].
  destruct (prices_raise (get ent "item" PNone) hist Hbad) as [e He].
  rewrite He. by exists e.
Qed.

Lemma price_too_few txn hist ent name :
  Forall well_typed hist →
  ent !! "item" = Some (PStr name) →
  (length (unit_prices name hist) < 3)%nat →
  check_price_deviation txn hist ent = no_evidence "price".
Proof.
  intros Hhist Hitem Hlt. unfold check_price_deviation, price_body.
  rewrite (get_Some _ _ _ _ Hitem).
  destruct (negb (truthy (PStr name))); [done|].
  rewrite (prices_of_window name hist Hhist). cbn [mbind exc_bind].
  by destruct (Nat.ltb_spec (length (unit_prices name hist)) 3); [|lia].
Qed.

Lemma price_zero_quantity txn hist ent name :
  Forall well_typed hist →
  ent !! "item" = Some (PStr name) →
  eq0 (get ent "quantity" (PInt 0)) = true →
  check_price_deviation txn hist ent = no_evidence "price".
Proof.
  intros Hhist Hitem Hzero. unfold check_price_deviation, price_body.
  rewrite (get_Some _ _ _ _ Hitem).
  destruct (negb (truthy (PStr name))); [done|].
  rewrite (prices_of_window name hist Hhist). cbn [mbind exc_bind].
  rewrite Hzero. by destruct (_ <? 3)%nat.
Qed.

Lemma price_mean_not_positive txn hist ent name q a :
  Forall well_typed hist →
  ent !! "item" = Some (PStr name) → name ≠ "" →
  (3 ≤ length (unit_prices name hist))%nat →
  as_num (get ent "quantity" (PInt 0)) = Some q → q ≠ 0%R →
  as_num (get txn "amount" (PInt 0)) = Some a →
  ¬ (0 < np_mean (unit_prices name hist))%R →
  flagged (check_price_deviation txn hist ent) = false
  ∧ check_price_deviation txn hist ent !! "error" = None.
Proof.
  intros Hhist Hitem Hname Hlen Hq Hq0 Ha Hmean.
  unfold check_price_deviation.
  rewrite (price_body_numbers txn ent hist name q a); try done.
  cbn [try_except]. rewrite flagged_insert_flag. split; [|done].
  unfold deviation_of.
  destruct (Rltb 0 (np_mean _)) eqn:Hlt; [by apply Rltb_true in Hlt|].
  destruct (Rltb (5 / 10) 0) eqn:H5; [apply Rltb_true in H5; lra|done].
Qed.

(** C6, as the code has it.  Every detector returns a result with its own
    name and a boolean flag, whatever happens inside it.  An exception
    raised during its evaluation is caught at the detector boundary and
    turned into the result with flag = false and the exception's text as
    error note: so it is when the fit fails, when a record of the window
    has no amount or one that is no number, when a quantity of the window
    is no number, when the transaction has no timestamp or one that does
    not parse, when an item of the window is no text.  Insufficient data
    and a zero divisor raise nothing and leave no note: fewer than 10
    positive amounts or quantities, fewer than 3 prices, and a current
    quantity of 0 give the bare result with flag = false; a standard
    deviation or a mean price that is not positive gives flag = false with
    a score of 0.  Once the window holds 10 transactions, the verdict lists
    the four results in the order amount, quantity, timing, price, failed
    or not; the call returns whenever the transaction's amount, if any, is
    a number, and when it aborts it is the explanation that raised, not a
    detector. *)
Theorem detector_failures_absorbed db user_id txn ent :
  (10 ≤ length (get_transactions_range db user_id))%nat →
  let hist := get_transactions_range db user_id in
  let checks := checks_of txn hist ent in
  (* every result is well formed *)
  (Forall has_flag checks ∧
   (λ r : result, r !! "check") <$> checks
     = (λ name, Some (Scalar (PStr name)))
         <$> ["amount"; "quantity"; "timing"; "price"]) ∧
  (* an exception becomes the error result *)
  ((∀ e, amount_body forest IsolationForest_fit predict self txn hist
         = raise e → check_amount txn hist = error_result "amount" e) ∧
   (∀ e, quantity_body txn hist = raise e
         → check_quantity_anomaly txn hist = error_result "quantity" e) ∧
   (∀ e, timing_body parse_iso txn hist = raise e
         → check_timing txn hist = error_result "timing" e) ∧
   (∀ e, price_body txn hist ent = raise e
         → check_price_deviation txn hist ent = error_result "price" e) ∧
   (∀ name e, flagged (error_result name e) = false ∧
              error_result name e !! "error"
              = Some (Scalar (PStr (str_exn e))))) ∧
  (* what raises *)
  ((∀ e, Forall amount_recorded hist →
         (10 ≤ length (positive_amounts hist))%nat →
         IsolationForest_fit (anomaly_threshold self) 42
           (positive_amounts hist) = raise e →
         check_amount txn hist = error_result "amount" e) ∧
   (Exists (λ t, ¬ amount_recorded t) hist →
      ∃ e, check_amount txn hist = error_result "amount" e) ∧
   (Exists (field_not_number "quantity") hist →
      ∃ e, check_quantity_anomaly txn hist = error_result "quantity" e) ∧
   (txn !! "created_at" = None →
      check_timing txn hist = error_result "timing" (KeyError "created_at")) ∧
   (∀ s e, txn !! "created_at" = Some (PStr s) → parse_iso s = raise e →
      check_timing txn hist = error_result "timing" e) ∧
   (truthy (get ent "item" PNone) = true →
    Exists (λ t, ¬ item_is_text t) hist →
      ∃ e, check_price_deviation txn hist ent = error_result "price" e)) ∧
  (* what does not *)
  ((∀ name, flagged (no_evidence name) = false ∧
            no_evidence name !! "error" = None) ∧
   (Forall amount_recorded hist →
    (length (positive_amounts hist) < 10)%nat →
      check_amount txn hist = no_evidence "amount") ∧
   (Forall (field_is_number "quantity") hist →
    field_is_number "quantity" txn →
      ((length (positive_quantities hist) < 10)%nat →
         check_quantity_anomaly txn hist = no_evidence "quantity") ∧
      ((10 ≤ length (positive_quantities hist))%nat →
       ¬ (0 < np_std (positive_quantities hist))%R →
         flagged (check_quantity_anomaly txn hist) = false
         ∧ check_quantity_anomaly txn hist !! "z_score"
           = Some (Scalar (PInt 0))
         ∧ check_quantity_anomaly txn hist !! "error" = None)) ∧
   (truthy (get ent "item" PNone) = false →
      check_price_deviation txn hist ent = no_evidence "price") ∧
   (∀ name, Forall well_typed hist → ent !! "item" = Some (PStr name) →
      ((length (unit_prices name hist) < 3)%nat →
         check_price_deviation txn hist ent = no_evidence "price") ∧
      (eq0 (get ent "quantity" (PInt 0)) = true →
         check_price_deviation txn hist ent = no_evidence "price") ∧
      (∀ q a, name ≠ "" → (3 ≤ length (unit_prices name hist))%nat →
         as_num (get ent "quantity" (PInt 0)) = Some q → q ≠ 0%R →
         as_num (get txn "amount" (PInt 0)) = Some a →
         ¬ (0 < np_mean (unit_prices name hist))%R →
         flagged (check_price_deviation txn hist ent) = false
         ∧ check_price_deviation txn hist ent !! "error" = None))) ∧
  (* the aggregator *)
  ((∀ r db', analyze db user_id txn ent = ok (r, db') →
             details r = Some checks) ∧
   (amount_is_number txn →
      ∃ r db', analyze db user_id txn ent = ok (r, db')) ∧
   (∀ e, analyze db user_id txn ent = raise e →
         risk_message checks = raise e)).
Proof.
  intros Hlen hist checks. split; [|split; [|split; [|split]]].
  - split; [apply run_checks_have_flag|apply run_checks_names].
  - repeat split; try (intros e He; by apply try_except_raise).
  - split; [intros e; apply amount_fit_fails|].
    split; [apply amount_bad_record|].
    split; [apply quantity_bad_record|].
    split; [apply timing_missing_stamp|].
    split; [intros s e; apply timing_bad_stamp|].
    apply price_bad_record.
  - split; [done|]. split; [apply amount_too_few|].
    split.
    { intros Hhist Htxn. split.
      - intros Hlt. unfold check_quantity_anomaly.
        rewrite (quantity_body_numbers txn hist Hhist Htxn).
        by destruct (Nat.ltb_spec (length (positive_quantities hist)) 10);
          [|lia].
      - by apply quantity_zero_deviation. }
    split.
    { intros Hitem. unfold check_price_deviation, price_body.
      by rewrite Hitem. }
    intros name Hhist Hitem.
    split; [by apply (price_too_few txn hist ent name)|].
    split; [by apply (price_zero_quantity txn hist ent name)|].
    intros q a Hname Hprices Hq Hq0 Ha Hmean.
    by apply (price_mean_not_positive txn hist ent name q a).
  - split.
    { intros r db'. rewrite (analyze_unfold _ _ _ _ _ _ _ _ _ _ _ Hlen).
      fold hist checks. destruct (Rltb _ _).
      - destruct (risk_message checks); [|done]. by intros [= <- <-].
      - by intros [= <- <-]. }
    split; [apply analyze_returns|apply analyze_raise].
Qed.

End Absorption.

Section AbsorptionExamples.

#[local] Existing Instance StandIn.runtime.

(** On a window of blank records the amount and the timing detectors fail
    on the missing fields; the verdict still lists the four results. *)
Lemma detector_failures_absorbed_witness :
  ∃ r db',
    StandIn.analyze_transaction (db_with blank_window) "u1" ∅ ∅
    = ok (r, db') ∧
    details r
    = Some (run_checks StandIn.forest StandIn.fit StandIn.predict
              StandIn.parse_iso RiskAgent_init ∅ blank_window ∅) ∧
    StandIn.check_amount_anomaly ∅ blank_window
    = error_result "amount" (KeyError "amount") ∧
    StandIn.check_unusual_timing ∅ blank_window
    = error_result "timing" (KeyError "created_at").
Proof.
  assert (10 ≤ length (get_transactions_range (db_with blank_window) "u1"))%nat
    as Hlen by (simpl; lia).
  destruct (detector_failures_absorbed StandIn.fit StandIn.predict
              StandIn.parse_iso StandIn.float_str StandIn.float_fixed
              StandIn.datetime_str RiskAgent_init
              (db_with blank_window) "u1" ∅ ∅ Hlen)
    as (_ & (Hamount & _) & (_ & _ & _ & Htiming & _) & _
          & (Hdetails & Hret & _)).
  destruct Hret as (r & db' & Hr); [intros v Hv; by simplify_map_eq|].
  exists r, db'. split; [exact Hr|]. split; [exact (Hdetails r db' Hr)|].
  split; [by apply Hamount|by apply Htiming].
Defined.

Lemma short_quantities : positive_quantities short_window = [9; 11]%R.
Proof. unfold short_window. by rewrite !positive_quantities_qty by lia. Qed.

(** C6 as stated fails: with only two positive quantities in the window the
    quantity detector cannot evaluate; it returns flag = false, but the
    result carries no error note. *)
Lemma insufficient_data_counterexample :
  (length (positive_quantities short_window) < 10)%nat ∧
  flagged (check_quantity_anomaly (qty_record 1000) short_window) = false ∧
  check_quantity_anomaly (qty_record 1000) short_window !! "error" = None.
Proof.
  assert (Forall (field_is_number "quantity") short_window) as Hnum
    by (repeat constructor; apply qty_record_is_number).
  unfold check_quantity_anomaly.
  rewrite (quantity_body_numbers _ _ Hnum (qty_record_is_number 1000)).
  rewrite short_quantities. split; [simpl; lia|]. by split.
Qed.

End AbsorptionExamples.

(** ** The alert *)

Section Alert.

Context {rt : Runtime}.
Context {forest : Type}.
Context (IsolationForest_fit : R → Z → list R → exc forest)
        (predict : forest → pyval → exc Z)
        (parse_iso : string → exc datetime)
        (float_str : R → string) (float_fixed : nat → R → string)
        (datetime_str : datetime → string)
        (self : RiskAgent).

Local Abbreviation checks_of :=
  (run_checks forest IsolationForest_fit predict parse_iso self).
Local Abbreviation analyze :=
  (analyze_transaction forest IsolationForest_fit predict parse_iso
     float_str float_fixed datetime_str self).
Local Abbreviation clause_of := (clause float_str float_fixed datetime_str).
Local Abbreviation risk_message :=
  (generate_risk_message float_str float_fixed datetime_str).

Local Abbreviation check_amount :=
  (check_amount_anomaly forest IsolationForest_fit predict self).
Local Abbreviation check_timing := (check_unusual_timing parse_iso).
Local Abbreviation text_of := (clause_text float_str float_fixed datetime_str).
Local Abbreviation explain := (explanation float_str float_fixed datetime_str).

(** *** The clause of each detector *)

Lemma format_number (d : nat) (v : pyval) (x : R) :
  as_num v = Some x → py_format_f float_fixed d (Scalar v) = ok (float_fixed d x).
Proof. intros Hx. by destruct v; simplify_eq/=. Qed.

Lemma clause_text_amount (r : result) (v : pyval) (x : R) :
  r !! "check" = Some (Scalar (PStr "amount")) →
  r !! "value" = Some (Scalar v) → as_num v = Some x →
  clause_of r = ok [text_of r].
Proof.
  intros Hc Hv Hx.
  rewrite (clause_amount _ _ _ r (Scalar v) (float_fixed 2 x) Hc Hv
             (format_number 2 v x Hx)).
  unfold clause_text, evidence. rewrite Hc, Hv. simpl. by rewrite Hx.
Qed.

Lemma clause_text_quantity (r : result) (v : pyobj) :
  r !! "check" = Some (Scalar (PStr "quantity")) →
  r !! "value" = Some v →
  clause_of r = ok [text_of r].
Proof.
  intros Hc Hv. rewrite (clause_quantity _ _ _ r v Hc Hv).
  unfold clause_text, evidence. by rewrite Hc, Hv.
Qed.

Lemma clause_text_timing (r : result) (v : pyobj) :
  r !! "check" = Some (Scalar (PStr "timing")) →
  r !! "hour" = Some v →
  clause_of r = ok [text_of r].
Proof.
  intros Hc Hv. rewrite (clause_timing _ _ _ r v Hc Hv).
  unfold clause_text, evidence. by rewrite Hc, Hv.
Qed.

Lemma clause_text_price (r : result) (v : pyval) (x : R) :
  r !! "check" = Some (Scalar (PStr "price")) →
  r !! "deviation_pct" = Some (Scalar v) → as_num v = Some x →
  clause_of r = ok [text_of r].
Proof.
  intros Hc Hv Hx.
  rewrite (clause_price _ _ _ r (Scalar v) (float_fixed 1 x) Hc Hv
             (format_number 1 v x Hx)).
  unfold clause_text, evidence. rewrite Hc, Hv. simpl. by rewrite Hx.
Qed.

(** *** What a flagged result carries *)

Lemma amount_evidence txn hist :
  flagged (check_amount txn hist) = true →
  ∃ v, txn !! "amount" = Some v
       ∧ check_amount txn hist !! "check" = Some (Scalar (PStr "amount"))
       ∧ check_amount txn hist !! "value" = Some (Scalar v).
Proof.
  unfold check_amount_anomaly, amount_body, try_except.
  repeat (exc_step; try discriminate). intros _.
  match goal with H : getitem txn "amount" = ok ?p |- _ =>
    unfold getitem in H; destruct (txn !! "amount") as [v|] eqn:Hv;
    simplify_eq
  end.
  by eexists.
Qed.

Lemma quantity_evidence txn hist :
  flagged (check_quantity_anomaly txn hist) = true →
  check_quantity_anomaly txn hist !! "check"
  = Some (Scalar (PStr "quantity"))
  ∧ check_quantity_anomaly txn hist !! "value"
    = Some (Scalar (get txn "quantity" (PInt 0))).
Proof.
  unfold check_quantity_anomaly, quantity_body, try_except.
  repeat (exc_step; try discriminate); by intros _.
Qed.

Lemma timing_evidence txn hist :
  flagged (check_timing txn hist) = true →
  ∃ h, hour_of parse_iso txn = ok h
       ∧ check_timing txn hist !! "check" = Some (Scalar (PStr "timing"))
       ∧ check_timing txn hist !! "hour" = Some (Scalar (PInt h)).
Proof.
  unfold check_unusual_timing, timing_body, try_except.
  repeat (exc_step; try discriminate). intros _.
  eexists. split; [reflexivity|]. by split.
Qed.

Lemma price_evidence txn hist ent :
  flagged (check_price_deviation txn hist ent) = true →
  ∃ v x, as_num v = Some x
       ∧ check_price_deviation txn hist ent !! "check"
         = Some (Scalar (PStr "price"))
       ∧ check_price_deviation txn hist ent !! "deviation_pct"
         = Some (Scalar v).
Proof.
  unfold check_price_deviation, price_body, try_except.
  repeat (exc_step; try discriminate); intros _;
    eexists _, _; (split; [|by split]); reflexivity.
Qed.

Lemma flagged_have_texts txn hist ent :
  amount_is_number txn →
  Forall2 (λ c m, clause_of c = ok [m])
    (List.filter flagged (checks_of txn hist ent))
    (text_of <$> List.filter flagged (checks_of txn hist ent)).
Proof.
  intros Hnum.
  assert (Forall (λ c, clause_of c = ok [text_of c])
            (List.filter flagged (checks_of txn hist ent))) as Hall.
  { unfold run_checks. cbn [List.filter].
    assert (flagged (check_amount txn hist) = true →
            clause_of (check_amount txn hist)
            = ok [text_of (check_amount txn hist)]) as Ha.
    { intros (v & Hv & Hc & Hval)%amount_evidence.
      destruct (Hnum v Hv) as [x Hx]. by eapply clause_text_amount. }
    assert (flagged (check_quantity_anomaly txn hist) = true →
            clause_of (check_quantity_anomaly txn hist)
            = ok [text_of (check_quantity_anomaly txn hist)]) as Hq.
    { intros [Hc Hval]%quantity_evidence. by eapply clause_text_quantity. }
    assert (flagged (check_timing txn hist) = true →
            clause_of (check_timing txn hist)
            = ok [text_of (check_timing txn hist)]) as Ht.
    { intros (h & _ & Hc & Hval)%timing_evidence.
      by eapply clause_text_timing. }
    assert (flagged (check_price_deviation txn hist ent) = true →
            clause_of (check_price_deviation txn hist ent)
            = ok [text_of (check_price_deviation txn hist ent)]) as Hp.
    { intros (v & x & Hx & Hc & Hval)%price_evidence.
      by eapply clause_text_price. }
    repeat (match goal with |- context [if ?b then _ else _] =>
              destruct b eqn:? end);
      repeat constructor; auto. }
  induction Hall as [|c cs Hc _ IH]; [constructor|].
  cbn [fmap list_fmap]. by constructor.
Qed.

(** C7. The call (which returns whenever the transaction's amount, if any,
    is a number) never touches the stored transactions, and emits an alert
    if and only if anomaly_detected is true: then exactly one, of type
    "fraud_risk" and severity "high", whose message is the explanation of
    the verdict.  The explanation is "Suspicious transaction detected: "
    followed by one clause per flagged detector result, in the order of the
    results (amount, quantity, timing, price), joined with ", ": the amount
    of the transaction with two decimals, its quantity as it prints (0 when
    it has none), its hour followed by ":00", the deviation in percent with
    one decimal.  When no result is flagged [generate_risk_message] answers
    "Transaction appears normal". *)
Theorem alert_iff_anomaly db user_id txn ent :
  amount_is_number txn →
  let hist := get_transactions_range db user_id in
  let checks := checks_of txn hist ent in
  ∃ r db',
    analyze db user_id txn ent = ok (r, db') ∧
    stored db' = stored db ∧
    checks = [ check_amount txn hist; check_quantity_anomaly txn hist;
               check_timing txn hist; check_price_deviation txn hist ent ] ∧
    (λ c : result, c !! "check") <$> checks
      = (λ name, Some (Scalar (PStr name)))
          <$> ["amount"; "quantity"; "timing"; "price"] ∧
    (anomaly_detected r = false →
       alerts db' = alerts db ∧ message r = None) ∧
    (anomaly_detected r = true →
       message r = Some (explain checks) ∧
       alerts db'
       = (alerts db
          ++ [mk_alert user_id "fraud_risk" (explain checks) "high"])%list) ∧
    (flagged (check_amount txn hist) = true →
       ∃ v x, txn !! "amount" = Some v ∧ as_num v = Some x ∧
         text_of (check_amount txn hist)
         = "Unusual amount: â‚¹" ++ float_fixed 2 x) ∧
    (flagged (check_quantity_anomaly txn hist) = true →
       text_of (check_quantity_anomaly txn hist)
       = "Unusual quantity: "
           ++ py_str float_str datetime_str
                (Scalar (get txn "quantity" (PInt 0)))) ∧
    (flagged (check_timing txn hist) = true →
       ∃ h, hour_of parse_iso txn = ok h ∧
         text_of (check_timing txn hist)
         = "Unusual timing: " ++ pretty h ++ ":00") ∧
    (flagged (check_price_deviation txn hist ent) = true →
       ∃ v x, check_price_deviation txn hist ent !! "deviation_pct"
              = Some (Scalar v) ∧ as_num v = Some x ∧
         text_of (check_price_deviation txn hist ent)
         = "Price deviation: " ++ float_fixed 1 x ++ "%") ∧
    (∀ cs, List.filter flagged cs = [] →
           risk_message cs = ok "Transaction appears normal").
Proof.
  intros Hnum hist checks.
  assert (∀ r db',
    analyze db user_id txn ent = ok (r, db') →
    stored db' = stored db →
    (anomaly_detected r = false →
       alerts db' = alerts db ∧ message r = None) →
    (anomaly_detected r = true →
       message r = Some (explain checks) ∧
       alerts db'
       = (alerts db
          ++ [mk_alert user_id "fraud_risk" (explain checks) "high"])%list) →
    ∃ r db',
    analyze db user_id txn ent = ok (r, db') ∧
    stored db' = stored db ∧
    checks = [ check_amount txn hist; check_quantity_anomaly txn hist;
               check_timing txn hist; check_price_deviation txn hist ent ] ∧
    (λ c : result, c !! "check") <$> checks
      = (λ name, Some (Scalar (PStr name)))
          <$> ["amount"; "quantity"; "timing"; "price"] ∧
    (anomaly_detected r = false →
       alerts db' = alerts db ∧ message r = None) ∧
    (anomaly_detected r = true →
       message r = Some (explain checks) ∧
       alerts db'
       = (alerts db
          ++ [mk_alert user_id "fraud_risk" (explain checks) "high"])%list) ∧
    (flagged (check_amount txn hist) = true →
       ∃ v x, txn !! "amount" = Some v ∧ as_num v = Some x ∧
         text_of (check_amount txn hist)
         = "Unusual amount: â‚¹" ++ float_fixed 2 x) ∧
    (flagged (check_quantity_anomaly txn hist) = true →
       text_of (check_quantity_anomaly txn hist)
       = "Unusual quantity: "
           ++ py_str float_str datetime_str
                (Scalar (get txn "quantity" (PInt 0)))) ∧
    (flagged (check_timing txn hist) = true →
       ∃ h, hour_of parse_iso txn = ok h ∧
         text_of (check_timing txn hist)
         = "Unusual timing: " ++ pretty h ++ ":00") ∧
    (flagged (check_price_deviation txn hist ent) = true →
       ∃ v x, check_price_deviation txn hist ent !! "deviation_pct"
              = Some (Scalar v) ∧ as_num v = Some x ∧
         text_of (check_price_deviation txn hist ent)
         = "Price deviation: " ++ float_fixed 1 x ++ "%") ∧
    (∀ cs, List.filter flagged cs = [] →
           risk_message cs = ok "Transaction appears normal")) as Hpack.
  { intros r db' Hr Hstored Hquiet Hloud. exists r, db'.
    split; [done|]. split; [done|]. split; [done|].
    split; [apply run_checks_names|]. split; [done|]. split; [done|].
    split.
    { intros (v & Hv & Hc & Hval)%amount_evidence.
      destruct (Hnum v Hv) as [x Hx]. exists v, x.
      split; [done|]. split; [done|].
      unfold clause_text, evidence. rewrite Hc, Hval. simpl.
      by rewrite Hx. }
    split.
    { intros [Hc Hval]%quantity_evidence.
      unfold clause_text, evidence. by rewrite Hc, Hval. }
    split.
    { intros (h & Hh & Hc & Hval)%timing_evidence. exists h.
      split; [done|]. unfold clause_text, evidence. by rewrite Hc, Hval. }
    split.
    { intros (v & x & Hx & Hc & Hval)%price_evidence. exists v, x.
      split; [done|]. split; [done|].
      unfold clause_text, evidence. rewrite Hc, Hval. simpl.
      by rewrite Hx. }
    apply risk_message_normal. }
  destruct (Nat.ltb_spec (length hist) 10) as [Hlt|Hge].
  - apply (Hpack initial_response db); try done.
    unfold analyze_transaction. fold hist.
    by destruct (Nat.ltb_spec (length hist) 10); [|lia].
  - pose proof (analyze_unfold IsolationForest_fit predict parse_iso
                  float_str float_fixed datetime_str self
                  db user_id txn ent Hge) as Hrun.
    fold hist checks in Hrun. cbv zeta in Hrun.
    destruct (Rltb _ _) eqn:Hs.
    + rewrite (risk_message_clauses _ _ _ checks
                 (text_of <$> List.filter flagged checks)) in Hrun.
      * eapply Hpack; [exact Hrun|done|done|]. by intros _.
      * intros Hnil. rewrite Hnil in Hs. simpl in Hs.
        apply Rltb_true in Hs. lra.
      * by apply flagged_have_texts.
    + eapply Hpack; [exact Hrun|done|by intros _|done].
Qed.

End Alert.



Section Market.

#[local] Existing Instance StandIn.runtime.

(** ** Two transactions against a window of twelve *)

Lemma stored_sale_well_typed item qty amt stamp :
  well_typed (stored_sale item qty amt stamp).
Proof.
  unfold stored_sale. repeat split; intros v Hv.
  - rewrite lookup_insert_eq in Hv. injection Hv as <-. by eexists.
  - rewrite lookup_insert_ne, lookup_insert_eq in Hv by done.
    injection Hv as <-. by eexists.
  - rewrite !lookup_insert_ne, lookup_insert_eq in Hv by done.
    injection Hv as <-. by eexists.
Qed.

Lemma stored_sale_amount item qty amt stamp :
  amount_recorded (stored_sale item qty amt stamp).
Proof. exists (PInt amt). split; [done|by eexists]. Qed.

Lemma positive_quantities_sale item qty amt stamp (hist : list dict) :
  (0 < qty)%Z →
  positive_quantities (stored_sale item qty amt stamp :: hist)
  = IZR qty :: positive_quantities hist.
Proof.
  intros Hz. unfold positive_quantities. cbn [fmap list_fmap List.filter].
  change (num_field "quantity" (stored_sale item qty amt stamp))
    with (IZR qty).
  destruct (Rltb 0 (IZR qty)) eqn:H; [done|].
  apply Rltb_false in H. apply IZR_lt in Hz. lra.
Qed.

Lemma positive_amounts_sale item qty amt stamp (hist : list dict) :
  (0 < amt)%Z →
  positive_amounts (stored_sale item qty amt stamp :: hist)
  = IZR amt :: positive_amounts hist.
Proof.
  intros Hz. unfold positive_amounts. cbn [fmap list_fmap List.filter].
  change (num_field "amount" (stored_sale item qty amt stamp)) with (IZR amt).
  destruct (Rltb 0 (IZR amt)) eqn:H; [done|].
  apply Rltb_false in H. apply IZR_lt in Hz. lra.
Qed.

Lemma unit_prices_stored name item qty amt stamp (hist : list dict) :
  String.eqb (ascii_lower item) (ascii_lower name) = true → (0 < qty)%Z →
  unit_prices name (stored_sale item qty amt stamp :: hist)
  = (IZR amt / IZR qty)%R :: unit_prices name hist.
Proof.
  intros Hname Hqty. unfold unit_prices. cbn [List.filter]. unfold same_item.
  change (item_name (stored_sale item qty amt stamp)) with item.
  change (num_field "quantity" (stored_sale item qty amt stamp))
    with (IZR qty).
  exact_arith. rewrite Hname. cbn [andb].
  destruct (Rltb 0 (IZR qty)) eqn:H; [done|].
  apply Rltb_false in H. apply IZR_lt in Hqty. lra.
Qed.

Lemma market_well_typed : Forall well_typed market_window.
Proof. repeat constructor; apply stored_sale_well_typed. Qed.

Lemma market_amounts_recorded : Forall amount_recorded market_window.
Proof. repeat constructor; apply stored_sale_amount. Qed.

Lemma market_quantities :
  positive_quantities market_window
  = [9; 11; 9; 11; 9; 11; 9; 11; 9; 11; 9; 11]%R.
Proof.
  unfold market_window. by rewrite !positive_quantities_sale by lia.
Qed.

Lemma market_amounts :
  positive_amounts market_window
  = [90; 110; 90; 110; 90; 110; 90; 110; 90; 110; 90; 110]%R.
Proof. unfold market_window. by rewrite !positive_amounts_sale by lia. Qed.

Lemma market_prices :
  unit_prices "rice" market_window
  = [90 / 9; 110 / 11; 90 / 9; 110 / 11; 90 / 9; 110 / 11;
     90 / 9; 110 / 11; 90 / 9; 110 / 11; 90 / 9; 110 / 11]%R.
Proof. unfold market_window. by rewrite !unit_prices_stored by done. Qed.

Lemma market_mean_quantity : exact_mean (positive_quantities market_window) = 10%R.
Proof. rewrite market_quantities. unfold exact_mean, Rsum. simpl. lra. Qed.

Lemma market_std_quantity : exact_std (positive_quantities market_window) = 1%R.
Proof.
  unfold exact_std, exact_var. rewrite market_mean_quantity, market_quantities.
  replace (exact_mean _) with 1%R; [apply sqrt_1|].
  unfold exact_mean, Rsum. simpl. lra.
Qed.

Lemma market_mean_price : exact_mean (unit_prices "rice" market_window) = 10%R.
Proof. rewrite market_prices. unfold exact_mean, Rsum. simpl. lra. Qed.

Lemma market_amount_flagged (txn : dict) :
  txn !! "amount" = Some (PInt 2000) →
  flagged (StandIn.check_amount_anomaly txn market_window) = true ∧
  clause StandIn.float_str StandIn.float_fixed StandIn.datetime_str
    (StandIn.check_amount_anomaly txn market_window)
  = ok ["Unusual amount: â‚¹2000.00"].
Proof.
  intros Hamt.
  assert (10 ≤ length (positive_amounts market_window))%nat as Hlen
    by (rewrite market_amounts; simpl; lia).
  unfold StandIn.check_amount_anomaly, check_amount_anomaly.
  rewrite (amount_body_runs StandIn.fit StandIn.predict RiskAgent_init txn
             market_window market_amounts_recorded Hlen).
  unfold StandIn.fit. cbn [mbind exc_bind].
  rewrite (getitem_Some _ _ _ Hamt). cbn [mbind exc_bind StandIn.predict].
  change (1000 <? 2000)%Z with true. cbn [mret exc_ret try_except].
  split; [apply flagged_insert_flag|].
  apply (clause_amount _ _ _ _ (Scalar (PInt 2000)) "2000.00"); [done..|].
  cbn [py_format_f as_num]. unfold StandIn.float_fixed.
  by rewrite <- (Int_part_spec 2000 2000) by lra.
Qed.

Lemma market_quantity_quiet (txn : dict) :
  txn !! "quantity" = Some (PInt 10) →
  flagged (check_quantity_anomaly txn market_window) = false.
Proof.
  intros Hqty.
  assert (field_is_number "quantity" txn) as Htxn.
  { intros v Hv. rewrite Hqty in Hv. injection Hv as <-. by eexists. }
  assert (Forall (field_is_number "quantity") market_window) as Hwin.
  { eapply Forall_impl; [apply market_well_typed|]. by intros rec (_ & H & _). }
  unfold check_quantity_anomaly.
  rewrite (quantity_body_numbers txn market_window Hwin Htxn).
  destruct (Nat.ltb_spec (length (positive_quantities market_window)) 10)
    as [Hlt|_]; [rewrite market_quantities in Hlt; simpl in Hlt; lia|].
  cbn [try_except]. rewrite flagged_insert_flag. apply Rltb_false.
  unfold z_score_of, fdiv, fsub, num_field. rewrite Hqty.
  cbn [mbind option_bind as_num default Datatypes.id]. exact_arith.
  rewrite market_std_quantity, market_mean_quantity.
  destruct (Rltb 0 1) eqn:H; [|apply Rltb_false in H; lra].
  rewrite Rabs_pos_eq; lra.
Qed.

Lemma market_timing_night :
  flagged (StandIn.check_unusual_timing night_sale market_window) = true ∧
  clause StandIn.float_str StandIn.float_fixed StandIn.datetime_str
    (StandIn.check_unusual_timing night_sale market_window)
  = ok ["Unusual timing: 2:00"].
Proof. split; by vm_compute. Qed.

Lemma market_timing_morning :
  flagged (StandIn.check_unusual_timing morning_sale market_window) = false.
Proof. by vm_compute. Qed.

Lemma market_price_flagged (txn : dict) :
  txn !! "amount" = Some (PInt 2000) →
  flagged (check_price_deviation txn market_window ten_rice) = true ∧
  clause StandIn.float_str StandIn.float_fixed StandIn.datetime_str
    (check_price_deviation txn market_window ten_rice)
  = ok ["Price deviation: 1900.0%"].
Proof.
  intros Hamt.
  assert (3 ≤ length (unit_prices "rice" market_window))%nat as Hlen
    by (rewrite market_prices; simpl; lia).
  assert (10 ≠ 0)%R as Hq0 by lra.
  assert (as_num (get txn "amount" (PInt 0)) = Some 2000%R) as Ha
    by (by rewrite (get_Some _ _ _ _ Hamt)).
  unfold check_price_deviation.
  rewrite (price_body_numbers txn ten_rice market_window "rice" 10 2000
             market_well_typed eq_refl ltac:(done) Hlen eq_refl Hq0 Ha).
  cbn [try_except]. exact_arith. rewrite market_mean_price.
  destruct (Rltb 0 10) eqn:H10; [|apply Rltb_false in H10; lra].
  split.
  - rewrite flagged_insert_flag. apply Rltb_true.
    unfold deviation_of, fdiv, fsub. exact_arith.
    rewrite market_mean_price, H10.
    rewrite Rabs_pos_eq; lra.
  - eapply (clause_price _ _ _ _ _ "1900.0"); [done|reflexivity|].
    cbn [py_format_f times100 as_num]. unfold StandIn.float_fixed.
    rewrite <- (Int_part_spec _ 1900); [done|].
    unfold deviation_of, fdiv, fsub. exact_arith.
    rewrite market_mean_price, H10.
    rewrite Rabs_pos_eq; lra.
Qed.

Lemma market_window_length :
  (10 ≤ length (get_transactions_range (db_with market_window) "u1"))%nat.
Proof. simpl. lia. Qed.

(** In the night the amount, the timing and the price are flagged: three of
    four, risk 0.75, one alert of severity "high" with the three clauses in
    the order of the detectors. *)
Lemma night_sale_raises_alert :
  ∃ r,
    StandIn.analyze_transaction (db_with market_window) "u1"
      night_sale ten_rice
    = ok (r, {| stored := λ _, market_window;
                alerts := [mk_alert "u1" "fraud_risk" night_message "high"] |})
    ∧ risk_score r = (3 / 4)%R ∧ anomaly_detected r = true
    ∧ message r = Some night_message.
Proof.
  destruct (market_amount_flagged night_sale eq_refl) as [Ha Hca].
  pose proof (market_quantity_quiet night_sale eq_refl) as Hq.
  destruct market_timing_night as [Ht Hct].
  destruct (market_price_flagged night_sale eq_refl) as [Hp Hcp].
  unfold StandIn.check_amount_anomaly, StandIn.check_unusual_timing in *.
  unfold StandIn.analyze_transaction.
  rewrite (analyze_unfold _ _ _ _ _ _ _ _ _ _ _ market_window_length).
  change (get_transactions_range (db_with market_window) "u1")
    with market_window.
  unfold run_checks. cbn [List.filter]. rewrite Ha, Hq, Ht, Hp.
  cbn [length INR].
  destruct (Rltb (5 / 10) _) eqn:Hs; [|apply Rltb_false in Hs; lra].
  erewrite (risk_message_clauses _ _ _ _
              ["Unusual amount: â‚¹2000.00"; "Unusual timing: 2:00";
               "Price deviation: 1900.0%"]).
  - cbn [mbind exc_bind mret exc_ret]. eexists. split; [reflexivity|].
    cbn [risk_score anomaly_detected message]. split; [lra|]. by split.
  - cbn [List.filter]. by rewrite Ha, Hq, Ht, Hp.
  - cbn [List.filter]. rewrite Ha, Hq, Ht, Hp. by repeat constructor.
Qed.

(** In the morning only the amount and the price are flagged: two of four,
    risk 0.5, no anomaly and no alert. *)
Lemma morning_sale_raises_no_alert :
  ∃ r,
    StandIn.analyze_transaction (db_with market_window) "u1"
      morning_sale ten_rice
    = ok (r, db_with market_window)
    ∧ risk_score r = (1 / 2)%R ∧ anomaly_detected r = false
    ∧ message r = None.
Proof.
  destruct (market_amount_flagged morning_sale eq_refl) as [Ha _].
  pose proof (market_quantity_quiet morning_sale eq_refl) as Hq.
  pose proof market_timing_morning as Ht.
  destruct (market_price_flagged morning_sale eq_refl) as [Hp _].
  unfold StandIn.check_amount_anomaly, StandIn.check_unusual_timing in *.
  unfold StandIn.analyze_transaction.
  rewrite (analyze_unfold _ _ _ _ _ _ _ _ _ _ _ market_window_length).
  change (get_transactions_range (db_with market_window) "u1")
    with market_window.
  unfold run_checks. cbn [List.filter]. rewrite Ha, Hq, Ht, Hp.
  cbn [length INR].
  destruct (Rltb (5 / 10) _) eqn:Hs; [apply Rltb_true in Hs; lra|].
  eexists. split; [reflexivity|].
  cbn [risk_score anomaly_detected message]. split; [lra|]. by split.
Qed.

(** The night sale, through the statement about alerts. *)
Lemma alert_iff_anomaly_witness :
  ∃ r db',
    StandIn.analyze_transaction (db_with market_window) "u1"
      night_sale ten_rice
    = ok (r, db') ∧
    anomaly_detected r = true ∧
    message r
    = Some (explanation StandIn.float_str StandIn.float_fixed
              StandIn.datetime_str night_checks) ∧
    alerts db'
    = [mk_alert "u1" "fraud_risk"
         (explanation StandIn.float_str StandIn.float_fixed
            StandIn.datetime_str night_checks)
         "high"] ∧
    explanation StandIn.float_str StandIn.float_fixed StandIn.datetime_str
      night_checks
    = night_message.
Proof.
  destruct (alert_iff_anomaly StandIn.fit StandIn.predict
              StandIn.parse_iso StandIn.float_str StandIn.float_fixed
              StandIn.datetime_str RiskAgent_init
              (db_with market_window) "u1" night_sale ten_rice)
    as (r & db' & Hr & _ & _ & _ & _ & Halert & _).
  { intros v Hv. change (night_sale !! "amount") with (Some (PInt 2000)) in Hv.
    injection Hv as <-. by eexists. }
  destruct night_sale_raises_alert as (r0 & Hr0 & _ & Hdetected & Hnight).
  unfold StandIn.analyze_transaction in Hr0. rewrite Hr0 in Hr.
  injection Hr as <- <-.
  destruct (Halert Hdetected) as [Hmessage Halerts].
  exists r0, {| stored := λ _, market_window;
               alerts := [mk_alert "u1" "fraud_risk" night_message "high"] |}.
  split; [exact Hr0|]. split; [exact Hdetected|].
  split; [exact Hmessage|]. split; [exact Halerts|].
  rewrite Hnight in Hmessage. apply (inj Some). symmetry. exact Hmessage.
Defined.

(** The night sale, through the statement about the risk score. *)
Lemma risk_score_is_flagged_over_four_witness :
  ∃ r db',
    StandIn.analyze_transaction (db_with market_window) "u1"
      night_sale ten_rice
    = ok (r, db') ∧
    risk_score r = (3 / 4)%R ∧
    risk_score r ∈ [0; 1 / 4; 1 / 2; 3 / 4; 1]%R ∧
    (anomaly_detected r = true ↔ (risk_score r > 1 / 2)%R).
Proof.
  destruct (risk_score_is_flagged_over_four StandIn.fit StandIn.predict
              StandIn.parse_iso StandIn.float_str StandIn.float_fixed
              StandIn.datetime_str RiskAgent_init
              (db_with market_window) "u1" night_sale ten_rice
              market_window_length) as [Hverdict _].
  destruct night_sale_raises_alert as (r & Hr & Hscore & _).
  destruct (Hverdict r _ Hr) as (_ & _ & Hin & Hiff & _).
  eexists r, _. split; [exact Hr|]. split; [exact Hscore|]. by split.
Defined.

(** ** More scenarios of the specification *)

Lemma constant_quantities :
  positive_quantities constant_window
  = [10; 10; 10; 10; 10; 10; 10; 10; 10; 10]%R.
Proof.
  unfold constant_window. cbn [fmap list_fmap].
  by rewrite !positive_quantities_qty by lia.
Qed.

Lemma constant_std : exact_std (positive_quantities constant_window) = 0%R.
Proof.
  unfold exact_std, exact_var. rewrite constant_quantities.
  replace (exact_mean (map _ _)) with 0%R; [apply sqrt_0|].
  assert (exact_mean [10; 10; 10; 10; 10; 10; 10; 10; 10; 10]%R = 10%R) as ->
    by (unfold exact_mean, Rsum; simpl; lra).
  unfold exact_mean, Rsum. simpl. lra.
Qed.

(** Quantities all equal to 10 and a current quantity of 10: the standard
    deviation is 0, nothing is divided, z = 0 and the flag is false. *)
Lemma constant_window_not_flagged :
  check_quantity_anomaly (qty_record 10) constant_window
  = <["check" := Scalar (PStr "quantity")]>
      (<["is_anomaly" := Scalar (PBool false)]>
        (<["value" := Scalar (PInt 10)]>
          (<["z_score" := Scalar (PInt 0)]> ∅))).
Proof.
  assert (Forall (field_is_number "quantity") constant_window) as Hwin
    by (repeat constructor; apply qty_record_is_number).
  unfold check_quantity_anomaly.
  rewrite (quantity_body_numbers _ _ Hwin (qty_record_is_number 10)).
  destruct (Nat.ltb_spec (length (positive_quantities constant_window)) 10)
    as [Hlt|_]; [rewrite constant_quantities in Hlt; simpl in Hlt; lia|].
  cbn [try_except].
  rewrite z_score_of_zero by (exact_arith; rewrite constant_std; lra).
  exact_arith. rewrite constant_std.
  destruct (Rltb 3 0) eqn:H3; [apply Rltb_true in H3; lra|].
  destruct (Rltb 0 0) eqn:H0; [apply Rltb_true in H0; lra|]. done.
Qed.

(** Rice at 10 a unit three times, now 11 for one: the deviation is 0.1 and
    the flag is false. *)
Lemma price_eleven_not_flagged :
  flagged (check_price_deviation sale_for_11 rice_window rice_for_20) = false.
Proof.
  assert (3 ≤ length (unit_prices "rice" rice_window))%nat as Hlen
    by (rewrite rice_prices; simpl; lia).
  assert (1 ≠ 0)%R as Hq0 by lra.
  unfold check_price_deviation.
  rewrite (price_body_numbers sale_for_11 rice_for_20 rice_window
             "rice" 1 11 rice_window_well_typed eq_refl
             ltac:(done) Hlen eq_refl Hq0 eq_refl).
  cbn [try_except]. rewrite flagged_insert_flag, Rltb_false, rice_deviation.
  unfold fdiv. exact_arith. rewrite Rabs_pos_eq; lra.
Qed.

(** The amount detector on a window without amounts, and on the window of
    twelve, where the model is fitted with the configured rate. *)
Lemma amount_detector_contract_witness :
  flagged (StandIn.check_amount_anomaly night_sale short_window) = false ∧
  StandIn.check_amount_anomaly night_sale market_window
  = try_except
      (clf ← StandIn.fit (15 / 100)%R 42 (positive_amounts market_window);
       current_amount ← getitem night_sale "amount";
       prediction ← StandIn.predict clf current_amount;
       mret (<["check" := Scalar (PStr "amount")]>
              (<["is_anomaly" := Scalar (PBool (prediction =? -1)%Z)]>
                (<["value" := Scalar current_amount]>
                  (<["mean" :=
                       Scalar (PFloat (exact_mean (positive_amounts
                                                  market_window)))]>
                    (<["std" :=
                         Scalar (PFloat (exact_std (positive_amounts
                                                   market_window)))]>
                       ∅))))))
      (error_result "amount").
Proof.
  destruct (amount_detector_contract StandIn.fit StandIn.predict
              RiskAgent_init night_sale short_window) as (Hshort & _).
  destruct (amount_detector_contract StandIn.fit StandIn.predict
              RiskAgent_init night_sale market_window)
    as (_ & _ & _ & Hrun).
  split.
  - apply Hshort. unfold short_window, positive_amounts.
    cbn [fmap list_fmap List.filter].
    change (num_field "amount" (qty_record 9)) with 0%R.
    change (num_field "amount" (qty_record 11)) with 0%R.
    destruct (Rltb 0 0) eqn:H0; [apply Rltb_true in H0; lra|]. simpl. lia.
  - apply Hrun; [apply market_amounts_recorded|].
    rewrite market_amounts. simpl. lia.
Defined.

End Market.

(** * Further properties of the detectors *)

(** ** Numbers and records *)

Lemma field_number_cases (k : string) (txn : dict) :
  field_is_number k txn ∨ field_not_number k txn.
Proof.
  destruct (txn !! k) as [v|] eqn:Hv.
  - destruct (as_num v) as [x|] eqn:Hx.
    + left. intros v' Hv'. rewrite Hv in Hv'. injection Hv' as <-. by exists x.
    + right. by exists v.
  - left. intros v Hv'. congruence.
Qed.

Lemma window_number_cases (k : string) (hist : list dict) :
  Forall (field_is_number k) hist ∨ Exists (field_not_number k) hist.
Proof.
  induction hist as [|txn hist [IH|IH]].
  - left. constructor.
  - destruct (field_number_cases k txn) as [H|H].
    + left. by constructor.
    + right. by constructor.
  - right. by constructor 2.
Qed.

Lemma field_number_exclusive (k : string) (txn : dict) :
  field_is_number k txn → field_not_number k txn → False.
Proof.
  intros Hnum (v & Hv & Hnone). destruct (Hnum v Hv) as [x Hx]. congruence.
Qed.

Lemma as_num_get_inv (k : string) (txn : dict) (x : R) :
  as_num (get txn k (PInt 0)) = Some x →
  field_is_number k txn ∧ num_field k txn = x.
Proof.
  unfold get, num_field, field_is_number.
  destruct (txn !! k) as [v|] eqn:Hv;
    cbn [default mbind option_bind Datatypes.id].
  - intros Hx. rewrite Hx. split; [|done].
    intros v' [= <-]. by exists x.
  - intros [= <-]. split; [|done]. intros v' Hv'. congruence.
Qed.

(** ** When the quantity detector flags *)

Lemma quantity_bad_window {rt : Runtime} (txn : dict) (hist : list dict) :
  Exists (field_not_number "quantity") hist →
  ∃ e, check_quantity_anomaly txn hist = error_result "quantity" e.
Proof.
  intros Hbad. unfold check_quantity_anomaly.
  destruct (list_comp_raise (λ txn, gt (get txn "quantity" (PInt 0)) 0)
              (λ txn, getitem txn "quantity") hist) as [e He].
  { eapply Exists_impl; [exact Hbad|].
    intros rec (v & Hv & Hnum). rewrite (get_Some _ _ _ _ Hv).
    unfold gt. rewrite Hnum. by eexists. }
  unfold quantity_body. rewrite He. by exists e.
Qed.

Lemma quantity_flag_only_if {rt : Runtime} (txn : dict) (hist : list dict) :
  flagged (check_quantity_anomaly txn hist) = true →
  Forall (field_is_number "quantity") hist ∧
  field_is_number "quantity" txn ∧
  (10 ≤ length (positive_quantities hist))%nat ∧
  (z_score_of (num_field "quantity" txn) (positive_quantities hist) > 3)%R.
Proof.
  intros Hflag.
  destruct (window_number_cases "quantity" hist) as [Hwin|Hbad].
  2:{ destruct (quantity_bad_window txn hist Hbad) as [e He].
      by rewrite He in Hflag. }
  assert (field_is_number "quantity" txn ∧
          (10 ≤ length (positive_quantities hist))%nat) as [Htxn Hlen].
  { revert Hflag. unfold check_quantity_anomaly, quantity_body.
    destruct (quantities_of_window hist Hwin) as (qs & -> & Harr).
    cbn [mbind exc_bind]. rewrite (mapM_exc_length _ _ _ Harr).
    destruct (Nat.ltb_spec (length (positive_quantities hist)) 10);
      [done|].
    rewrite Harr. cbn [mbind exc_bind].
    destruct (Rltb 0 (np_std _)).
    - unfold operand.
      destruct (as_num (get txn "quantity" (PInt 0))) as [x|] eqn:Hx;
        [|done].
      intros _. split; [|done]. by destruct (as_num_get_inv _ _ _ Hx).
    - cbn [mbind exc_bind mret exc_ret].
      rewrite (gt_num (PInt 0) 0 3 eq_refl).
      cbn [mbind exc_bind mret exc_ret try_except].
      rewrite flagged_insert_flag. intros H3. apply Rltb_true in H3. lra. }
  repeat split; try done.
  revert Hflag. unfold check_quantity_anomaly.
  rewrite (quantity_body_numbers txn hist Hwin Htxn).
  destruct (Nat.ltb_spec (length (positive_quantities hist)) 10); [lia|].
  cbn [try_except]. rewrite flagged_insert_flag. apply Rltb_true.
Qed.

Lemma quantity_flag_if {rt : Runtime} (txn : dict) (hist : list dict) :
  Forall (field_is_number "quantity") hist →
  field_is_number "quantity" txn →
  (10 ≤ length (positive_quantities hist))%nat →
  (z_score_of (num_field "quantity" txn) (positive_quantities hist) > 3)%R →
  flagged (check_quantity_anomaly txn hist) = true.
Proof.
  intros Hwin Htxn Hlen Hz. unfold check_quantity_anomaly.
  rewrite (quantity_body_numbers txn hist Hwin Htxn).
  destruct (Nat.ltb_spec (length (positive_quantities hist)) 10); [lia|].
  cbn [try_except]. rewrite flagged_insert_flag. by apply Rltb_true.
Qed.

(** X1. The quantity detector flags exactly when every quantity of the
    window and the quantity of the transaction are numbers (or missing),
    the window has at least 10 positive quantities, and the z-score of the
    transaction's quantity against them is above 3 - the z-score as the
    program computes it, from numpy's mean and standard deviation, with the
    difference and the quotient as floating-point arithmetic returns them.
    So one quantity that is not a number, anywhere in the window, keeps the
    detector from ever flagging. *)
Theorem quantity_flag_iff {rt : Runtime} (txn : dict) (hist : list dict) :
  flagged (check_quantity_anomaly txn hist) = true ↔
  Forall (field_is_number "quantity") hist ∧
  field_is_number "quantity" txn ∧
  (10 ≤ length (positive_quantities hist))%nat ∧
  (z_score_of (num_field "quantity" txn) (positive_quantities hist) > 3)%R.
Proof.
  split.
  - apply quantity_flag_only_if.
  - intros (Hwin & Htxn & Hlen & Hz). by apply quantity_flag_if.
Qed.

(** ** When the timing detector flags *)

Lemma mapM_exc_ok_inv {A B} (f : A → exc B) (l : list A) (k : list B) :
  mapM f l = ok k → Forall2 (λ x y, f x = ok y) l k.
Proof.
  revert k. induction l as [|x l IH]; intros k.
  - intros [= <-]. constructor.
  - rewrite mapM_exc_cons. destruct (f x) as [y|e] eqn:Hx; [|done].
    cbn [mbind exc_bind]. destruct (mapM f l) as [k'|e]; [|done].
    cbn [mbind exc_bind]. intros [= <-]. constructor; [done|by apply IH].
Qed.

Lemma hour_of_ok_inv parse (txn : dict) (h : Z) :
  hour_of parse txn = ok h → ∃ t, iso_timestamp parse txn t ∧ hour t = h.
Proof.
  unfold hour_of, getitem.
  destruct (txn !! "created_at") as [v|] eqn:Hv; [|done].
  cbn [mbind exc_bind]. destruct v; try done.
  cbn [fromisoformat]. destruct (parse s) as [t|e] eqn:Ht; [|done].
  cbn [mbind exc_bind]. intros [= <-]. exists t. split; [|done]. by exists s.
Qed.

Lemma timing_flag_only_if parse (txn : dict) (hist : list dict) :
  flagged (check_unusual_timing parse txn hist) = true →
  ∃ t hours,
    iso_timestamp parse txn t ∧
    Forall2 (λ rec h, ∃ t', iso_timestamp parse rec t' ∧ hour t' = h)
            hist hours ∧
    off_hours (hour t) ∧ hour t ∉ hours.
Proof.
  unfold check_unusual_timing, timing_body.
  destruct (hour_of parse txn) as [h|e] eqn:Hh; [|done].
  destruct (hour_of_ok_inv _ _ _ Hh) as (t & Ht & <-).
  cbn [mbind exc_bind].
  destruct (mapM (hour_of parse) hist) as [hours|e] eqn:Hhours; [|done].
  cbn [mbind exc_bind mret exc_ret try_except].
  rewrite flagged_insert_flag, andb_true_iff, off_hours_test, negb_true_iff,
    bool_decide_eq_false.
  intros [Hoff Hnew]. exists t, hours. repeat split; try done.
  eapply Forall2_impl; [apply (mapM_exc_ok_inv _ _ _ Hhours)|].
  intros rec h Hrec. destruct (hour_of_ok_inv _ _ _ Hrec) as (t' & ? & ?).
  by exists t'.
Qed.

Lemma timing_flag_if parse (txn : dict) (hist : list dict) t hours :
  iso_timestamp parse txn t →
  Forall2 (λ rec h, ∃ t', iso_timestamp parse rec t' ∧ hour t' = h)
          hist hours →
  off_hours (hour t) → hour t ∉ hours →
  flagged (check_unusual_timing parse txn hist) = true.
Proof.
  intros Ht Hhours Hoff Hnew. unfold check_unusual_timing, timing_body.
  rewrite (hour_of_iso _ _ _ Ht). cbn [mbind exc_bind].
  rewrite (mapM_exc_ok _ _ hours).
  2:{ eapply Forall2_impl; [exact Hhours|]. intros rec h (t' & Ht' & <-).
      by apply hour_of_iso. }
  cbn [mbind exc_bind mret exc_ret try_except].
  rewrite flagged_insert_flag, andb_true_iff, off_hours_test, negb_true_iff,
    bool_decide_eq_false. done.
Qed.

(** X2. The timing detector flags exactly when the timestamp of the
    transaction and every timestamp of the window are strings that parse,
    the hour of the transaction is off-hours, and no transaction of the
    window has that hour.  So it never flags on a window that holds a
    record whose timestamp is missing, is no string or does not parse. *)
Theorem timing_flag_exactly parse (txn : dict) (hist : list dict) :
  flagged (check_unusual_timing parse txn hist) = true ↔
  ∃ t hours,
    iso_timestamp parse txn t ∧
    Forall2 (λ rec h, ∃ t', iso_timestamp parse rec t' ∧ hour t' = h)
            hist hours ∧
    off_hours (hour t) ∧ hour t ∉ hours.
Proof.
  split.
  - apply timing_flag_only_if.
  - intros (t & hours & Ht & Hhours & Hoff & Hnew).
    by apply (timing_flag_if parse txn hist t hours).
Qed.

(** ** When the amount detector flags *)

Lemma amounts_recorded (hist : list dict) (amounts : list pyval) :
  list_comp (λ txn, a ← getitem txn "amount"; gt a 0)
            (λ txn, getitem txn "amount") hist = ok amounts →
  Forall amount_recorded hist.
Proof.
  revert amounts. induction hist as [|txn hist IH]; intros amounts;
    [constructor|].
  cbn [list_comp].
  destruct (txn !! "amount") as [v|] eqn:Hv;
    [rewrite (getitem_Some _ _ _ Hv)|by rewrite (getitem_None _ _ Hv)].
  cbn [mbind exc_bind].
  destruct (as_num v) as [x|] eqn:Hx;
    [rewrite (gt_num _ _ 0 Hx)|unfold gt; by rewrite Hx].
  cbn [mbind exc_bind]. intros Hrest.
  assert (∃ rest, list_comp (λ txn, a ← getitem txn "amount"; gt a 0)
                    (λ txn, getitem txn "amount") hist = ok rest) as [rest Hr].
  { destruct (list_comp _ _ hist) as [rest|e]; [by exists rest|].
    by destruct (Rltb 0 x), (getitem txn "amount"). }
  constructor; [|by eapply IH].
  exists v. split; [done|by exists x].
Qed.

Section AmountFlag.

Context {rt : Runtime}.
Context {forest : Type}.
Context (IsolationForest_fit : R → Z → list R → exc forest)
        (predict : forest → pyval → exc Z)
        (self : RiskAgent).

(** X3. The amount detector flags exactly when every record of the window
    has a numeric amount, at least 10 of them are positive, the isolation
    forest fitted on the positive amounts (with the agent's contamination
    rate and seed 42) exists, the transaction has an amount, and the forest
    predicts -1 for it. *)
Theorem amount_flag_iff (txn : dict) (hist : list dict) :
  flagged (check_amount_anomaly forest IsolationForest_fit predict self
             txn hist) = true ↔
  Forall amount_recorded hist ∧
  (10 ≤ length (positive_amounts hist))%nat ∧
  ∃ clf v,
    IsolationForest_fit (anomaly_threshold self) 42 (positive_amounts hist)
    = ok clf ∧
    txn !! "amount" = Some v ∧
    predict clf v = ok (-1)%Z.
Proof.
  split.
  - intros Hflag.
    assert (Forall amount_recorded hist ∧
            (10 ≤ length (positive_amounts hist))%nat) as [Hwin Hlen].
    { revert Hflag. unfold check_amount_anomaly, amount_body.
      destruct (list_comp _ _ hist) as [amounts|e] eqn:Hamounts; [|done].
      pose proof (amounts_collected hist amounts Hamounts) as Harr.
      cbn [mbind exc_bind]. rewrite (mapM_exc_length _ _ _ Harr).
      destruct (Nat.ltb_spec (length (positive_amounts hist)) 10); [done|].
      intros _. split; [by eapply amounts_recorded|done]. }
    split; [done|]. split; [done|].
    revert Hflag. unfold check_amount_anomaly.
    rewrite (amount_body_runs _ _ self txn hist Hwin Hlen).
    destruct (IsolationForest_fit _ _ _) as [clf|e]; [|done].
    cbn [mbind exc_bind]. unfold getitem.
    destruct (txn !! "amount") as [v|]; [|done].
    cbn [mbind exc_bind]. destruct (predict clf v) as [p|e] eqn:Hp; [|done].
    cbn [mbind exc_bind mret exc_ret try_except].
    rewrite flagged_insert_flag. intros Heq%Z.eqb_eq. subst p.
    by exists clf, v.
  - intros (Hwin & Hlen & clf & v & Hfit & Hv & Hp).
    unfold check_amount_anomaly.
    rewrite (amount_body_runs _ _ self txn hist Hwin Hlen), Hfit.
    cbn [mbind exc_bind]. rewrite (getitem_Some _ _ _ Hv).
    cbn [mbind exc_bind]. rewrite Hp.
    cbn [mbind exc_bind mret exc_ret try_except].
    by rewrite flagged_insert_flag.
Qed.

End AmountFlag.

(** ** When the price detector flags *)

Lemma gt_ok_inv (v : pyval) (c : R) (b : bool) :
  gt v c = ok b → ∃ x, as_num v = Some x ∧ b = Rltb c x.
Proof.
  unfold gt. destruct (as_num v) as [x|]; [|done].
  intros [= <-]. by exists x.
Qed.

Lemma truediv_ok_inv {rt : Runtime} (a b : pyval) (p : R) :
  truediv a b = ok p →
  ∃ x y, as_num a = Some x ∧ as_num b = Some y ∧ p = fdiv x y.
Proof.
  unfold truediv, operand.
  destruct (as_num a) as [x|]; [|done]. cbn [mbind exc_bind].
  destruct (as_num b) as [y|]; [|done]. cbn [mbind exc_bind].
  intros [= <-]. by exists x, y.
Qed.

Lemma py_lower_item_inv {rt : Runtime} (txn : dict) (n : string) :
  py_lower (get txn "item" (PStr "")) = ok n →
  item_is_text txn ∧ n = lower (item_name txn).
Proof.
  unfold get, item_name, item_is_text.
  destruct (txn !! "item") as [v|] eqn:Hv; cbn [default].
  - destruct v; try done. intros [= <-]. split; [|done].
    intros v' [= <-]. by eexists.
  - intros [= <-]. split; [|done]. intros v' Hv'. congruence.
Qed.

Lemma prices_of_priced_window {rt : Runtime} (name : string) (hist : list dict) :
  Forall (priced name) hist →
  historical_prices_of (PStr name) hist = ok (unit_prices name hist).
Proof.
  induction 1 as [|txn hist [Htext Hsame] _ IH]; [done|].
  unfold unit_prices in *. cbn [historical_prices_of List.filter].
  rewrite (py_lower_item txn Htext). cbn [mbind exc_bind py_lower].
  unfold same_item at 1.
  destruct (String.eqb _ _); cbn [andb]; [|done].
  destruct (Hsame eq_refl) as [Hqty Hamt].
  rewrite (gt_num _ _ 0 (as_num_get _ _ Hqty)). cbn [mbind exc_bind].
  destruct (Rltb 0 _) eqn:Hpos; [|done]. apply Rltb_true in Hpos.
  rewrite (truediv_numbers _ _ _ _ (as_num_get _ _ (Hamt Hpos))
             (as_num_get _ _ Hqty)).
  cbn [mbind exc_bind]. by rewrite IH.
Qed.

Lemma prices_of_window_inv {rt : Runtime} (name : string) (hist : list dict) (ps : list R) :
  historical_prices_of (PStr name) hist = ok ps → Forall (priced name) hist.
Proof.
  revert ps. induction hist as [|txn hist IH]; intros ps; [constructor|].
  cbn [historical_prices_of].
  destruct (py_lower (get txn "item" (PStr ""))) as [n|e] eqn:Hn; [|done].
  destruct (py_lower_item_inv _ _ Hn) as [Htext ->].
  cbn [mbind exc_bind py_lower].
  destruct (String.eqb _ _) eqn:Hsame.
  - destruct (gt (get txn "quantity" (PInt 0)) 0) as [b|e] eqn:Hb; [|done].
    destruct (gt_ok_inv _ _ _ Hb) as (x & Hx & ->).
    destruct (as_num_get_inv _ _ _ Hx) as [Hqty Hnum].
    cbn [mbind exc_bind]. destruct (Rltb 0 x) eqn:Hpos.
    + destruct (truediv _ _) as [p|e] eqn:Hp; [|done].
      destruct (truediv_ok_inv _ _ _ Hp) as (a & y & Ha & _ & _).
      destruct (as_num_get_inv _ _ _ Ha) as [Hamt _].
      cbn [mbind exc_bind].
      destruct (historical_prices_of _ hist) as [rest|e] eqn:Hrest; [|done].
      intros _. constructor; [|by eapply IH]. by repeat split.
    + intros Hrest. constructor; [|by eapply IH].
      split; [done|]. intros _. split; [done|].
      apply Rltb_false in Hpos. rewrite Hnum. lra.
  - intros Hrest. constructor; [|by eapply IH].
    split; [done|]. congruence.
Qed.

Lemma prices_need_text {rt : Runtime} (item : pyval) (hist : list dict) (ps : list R) :
  historical_prices_of item hist = ok ps → hist ≠ [] →
  ∃ name, item = PStr name.
Proof.
  destruct hist as [|txn hist]; [done|]. intros Hps _. revert Hps.
  cbn [historical_prices_of].
  destruct (py_lower (get txn "item" (PStr ""))); [|done].
  cbn [mbind exc_bind]. destruct item; try done. by eexists.
Qed.

Lemma price_flag_only_if {rt : Runtime} (txn ent : dict) (hist : list dict) :
  flagged (check_price_deviation txn hist ent) = true →
  ∃ name q a,
    ent !! "item" = Some (PStr name) ∧ name ≠ "" ∧
    Forall (priced name) hist ∧
    (3 ≤ length (unit_prices name hist))%nat ∧
    as_num (get ent "quantity" (PInt 0)) = Some q ∧ q ≠ 0%R ∧
    as_num (get txn "amount" (PInt 0)) = Some a ∧
    (deviation_of (fdiv a q) (unit_prices name hist) > 1 / 2)%R.
Proof.
  unfold check_price_deviation, price_body.
  destruct (truthy (get ent "item" PNone)) eqn:Htruthy; [|done].
  cbn [negb].
  destruct (historical_prices_of _ hist) as [ps|e] eqn:Hps; [|done].
  cbn [mbind exc_bind].
  destruct (Nat.ltb_spec (length ps) 3) as [|Hlen]; [done|].
  destruct (prices_need_text _ _ _ Hps) as [name Hname].
  { intros ->. cbn in Hps. injection Hps as <-. simpl in Hlen. lia. }
  rewrite Hname in Hps, Htruthy.
  pose proof (prices_of_window_inv _ _ _ Hps) as Hwin.
  rewrite (prices_of_priced_window _ _ Hwin) in Hps. injection Hps as <-.
  unfold eq0.
  destruct (as_num (get ent "quantity" (PInt 0))) as [q|] eqn:Hq.
  2:{ unfold truediv, operand. rewrite Hq.
      by destruct (as_num (get txn "amount" (PInt 0))). }
  destruct (Reqb q 0) eqn:Hq0; [done|]. apply Reqb_false in Hq0.
  destruct (as_num (get txn "amount" (PInt 0))) as [a|] eqn:Ha.
  2:{ unfold truediv, operand. by rewrite Ha. }
  rewrite (truediv_numbers _ _ _ _ Ha Hq). cbn [mbind exc_bind].
  intros Hflag. exists name, q, a.
  assert (ent !! "item" = Some (PStr name)) as Hitem.
  { revert Hname. unfold get.
    destruct (ent !! "item") as [v|]; cbn [default Datatypes.id];
      [by intros ->|done]. }
  assert (name ≠ "") as Hne.
  { intros ->. by cbn in Htruthy. }
  repeat split; try done.
  revert Hflag. destruct (Rltb 0 (np_mean _)) eqn:Hmean.
  + apply Rltb_true in Hmean.
    rewrite (gt_num (PFloat _) _ _ eq_refl).
    cbn [mbind exc_bind mret exc_ret try_except].
    rewrite flagged_insert_flag, Rltb_true, deviation_of_pos by done.
    unfold fdiv, fsub. lra.
  + rewrite (gt_num (PInt 0) 0 _ eq_refl).
    cbn [mbind exc_bind mret exc_ret try_except].
    rewrite flagged_insert_flag, Rltb_true. lra.
Qed.

Lemma price_flag_if {rt : Runtime} (txn ent : dict) (hist : list dict) name q a :
  ent !! "item" = Some (PStr name) → name ≠ "" →
  Forall (priced name) hist →
  (3 ≤ length (unit_prices name hist))%nat →
  as_num (get ent "quantity" (PInt 0)) = Some q → q ≠ 0%R →
  as_num (get txn "amount" (PInt 0)) = Some a →
  (deviation_of (fdiv a q) (unit_prices name hist) > 1 / 2)%R →
  flagged (check_price_deviation txn hist ent) = true.
Proof.
  intros Hitem Hne Hwin Hlen Hq Hq0 Ha Hdev.
  unfold check_price_deviation, price_body.
  rewrite (get_Some _ _ _ _ Hitem). cbn [truthy].
  destruct (String.eqb_spec name ""); [done|]. cbn [negb].
  rewrite (prices_of_priced_window name hist Hwin). cbn [mbind exc_bind].
  destruct (Nat.ltb_spec (length (unit_prices name hist)) 3); [lia|].
  rewrite (eq0_num _ _ Hq Hq0), (truediv_numbers _ _ _ _ Ha Hq).
  cbn [mbind exc_bind].
  assert (0 < np_mean (unit_prices name hist))%R as Hmean.
  { unfold deviation_of in Hdev.
    destruct (Rltb 0 _) eqn:Hpos; [by apply Rltb_true in Hpos|lra]. }
  rewrite (proj2 (Rltb_true _ _) Hmean).
  rewrite (gt_num (PFloat _) _ _ eq_refl).
  cbn [mbind exc_bind mret exc_ret try_except].
  rewrite deviation_of_pos in Hdev by done.
  rewrite flagged_insert_flag, Rltb_true. unfold fdiv, fsub in *. lra.
Qed.

(** X4. The price detector flags exactly when the entities name an item by
    a non-empty string, the loop over the window goes through (every item
    of the window is a string or missing, the records that name the item
    have numeric quantities, and numeric amounts when the quantity is
    positive), at least 3 prices per unit are found, the current quantity
    of the entities is a number other than 0, the amount of the transaction
    is a number (0 when missing), and the deviation of amount / quantity
    from numpy's mean of the unit prices is above 0.5 - quotients and
    differences as floating-point arithmetic returns them, names compared
    after [str.lower]. *)
Theorem price_flag_iff {rt : Runtime} (txn ent : dict) (hist : list dict) :
  flagged (check_price_deviation txn hist ent) = true ↔
  ∃ name q a,
    ent !! "item" = Some (PStr name) ∧ name ≠ "" ∧
    Forall (priced name) hist ∧
    (3 ≤ length (unit_prices name hist))%nat ∧
    as_num (get ent "quantity" (PInt 0)) = Some q ∧ q ≠ 0%R ∧
    as_num (get txn "amount" (PInt 0)) = Some a ∧
    (deviation_of (fdiv a q) (unit_prices name hist) > 1 / 2)%R.
Proof.
  split.
  - apply price_flag_only_if.
  - intros (name & q & a & Hitem & Hne & Hwin & Hlen & Hq & Hq0 & Ha & Hdev).
    by apply (price_flag_if txn ent hist name q a).
Qed.

(** ** When the call aborts *)

Section Abort.

Context {rt : Runtime}.
Context {forest : Type}.
Context (IsolationForest_fit : R → Z → list R → exc forest)
        (predict : forest → pyval → exc Z)
        (parse_iso : string → exc datetime)
        (float_str : R → string) (float_fixed : nat → R → string)
        (datetime_str : datetime → string)
        (self : RiskAgent).

Local Abbreviation check_amount :=
  (check_amount_anomaly forest IsolationForest_fit predict self).
Local Abbreviation check_timing := (check_unusual_timing parse_iso).
Local Abbreviation checks_of :=
  (run_checks forest IsolationForest_fit predict parse_iso self).
Local Abbreviation analyze :=
  (analyze_transaction forest IsolationForest_fit predict parse_iso
     float_str float_fixed datetime_str self).
Local Abbreviation clause_of := (clause float_str float_fixed datetime_str).
Local Abbreviation risk_message :=
  (generate_risk_message float_str float_fixed datetime_str).

Lemma amount_flag_value txn hist :
  flagged (check_amount txn hist) = true →
  ∃ v, txn !! "amount" = Some v ∧
       check_amount txn hist !! "value" = Some (Scalar v) ∧
       check_amount txn hist !! "check" = Some (Scalar (PStr "amount")).
Proof.
  unfold check_amount_anomaly, amount_body, try_except.
  repeat (exc_step; try discriminate). intros _.
  match goal with H : getitem txn "amount" = ok ?p |- _ =>
    unfold getitem in H; destruct (txn !! "amount") as [v|] eqn:Hv;
    simplify_eq
  end.
  by eexists.
Qed.

Lemma py_format_f_raise (d : nat) (v : pyval) (e : exn) :
  py_format_f float_fixed d (Scalar v) = raise e → as_num v = None.
Proof. by destruct v. Qed.

Lemma mapM_clause_first (c : result) (cs : list result) (e : exn) :
  Forall (λ c, ∃ m, clause_of c = ok [m]) cs →
  mapM clause_of (c :: cs) = raise e → clause_of c = raise e.
Proof.
  intros Hcs. rewrite mapM_exc_cons.
  destruct (clause_of c) as [m|e']; [|by intros [= ->]].
  cbn [mbind exc_bind].
  destruct (has_clauses _ _ _ _ Hcs) as [ms Hms].
  by rewrite (mapM_clauses _ _ _ _ _ Hms).
Qed.

(** X6. The call aborts in one situation only: the window holds at least
    10 transactions, at least 3 detectors flagged, among them the amount
    detector, and the amount of the transaction is not a number (a numeric
    string that the outlier model accepted, say), so that the explanation
    cannot print it with two decimals.  The exception is the one [format]
    raises. *)
Theorem analyze_raises_on_unprintable_amount db user_id txn ent e :
  analyze db user_id txn ent = raise e →
  let hist := get_transactions_range db user_id in
  (10 ≤ length hist)%nat ∧
  (3 ≤ length (List.filter flagged (checks_of txn hist ent)))%nat ∧
  flagged (check_amount txn hist) = true ∧
  ∃ v, txn !! "amount" = Some v ∧ as_num v = None ∧
       py_format_f float_fixed 2 (Scalar v) = raise e.
Proof.
  intros Hraise hist.
  destruct (Nat.ltb_spec (length hist) 10) as [Hlt|Hlen].
  { revert Hraise. unfold analyze_transaction. fold hist.
    by destruct (Nat.ltb_spec (length hist) 10); [|lia]. }
  split; [done|].
  rewrite (analyze_unfold _ _ _ _ _ _ _ _ _ _ _ Hlen) in Hraise.
  fold hist in Hraise. cbv zeta in Hraise.
  pose proof (flagged_count_le IsolationForest_fit predict parse_iso self
                txn hist ent) as Hk.
  destruct (Rltb _ _) eqn:Hs; [|done]. apply Rltb_true in Hs.
  split; [apply (score_above_half _ Hk); lra|].
  assert (risk_message (checks_of txn hist ent) = raise e) as Hmsg.
  { destruct (risk_message _) as [text|e']; [done|].
    cbn [mbind exc_bind] in Hraise. by injection Hraise as ->. }
  clear Hraise Hs Hk. revert Hmsg.
  unfold generate_risk_message, run_checks. cbn [List.filter].
  pose proof (quantity_has_clause float_str float_fixed datetime_str txn hist)
    as Hq.
  pose proof (timing_has_clause parse_iso float_str float_fixed datetime_str
                txn hist) as Ht.
  pose proof (price_has_clause float_str float_fixed datetime_str txn hist ent)
    as Hp.
  assert (∀ cs : list result,
            Forall (λ c, ∃ m, clause_of c = ok [m]) cs →
            match cs with
            | [] => mret "Transaction appears normal"
            | _ :: _ =>
                messages ← mapM clause_of cs;
                mret ("Suspicious transaction detected: "
                        ++ String.concat ", " (concat messages))
            end ≠ raise e) as Hfine.
  { intros [|c cs] Hcs; [done|].
    destruct (has_clauses _ _ _ _ Hcs) as [ms Hms].
    by rewrite (mapM_clauses _ _ _ _ _ Hms). }
  destruct (flagged (check_amount txn hist)) eqn:Ha.
  - intros Hmsg. split; [done|].
    destruct (amount_flag_value txn hist Ha) as (v & Hv & Hvalue & Hname).
    exists v. split; [done|].
    assert (clause_of (check_amount txn hist) = raise e) as Hclause.
    { destruct (mapM clause_of _) as [ms|e'] eqn:HmapM in Hmsg; [done|].
      cbn [mbind exc_bind] in Hmsg. injection Hmsg as ->.
      eapply mapM_clause_first; [|exact HmapM].
      destruct (flagged (check_quantity_anomaly txn hist)),
        (flagged (check_timing txn hist)),
        (flagged (check_price_deviation txn hist ent));
        repeat constructor; auto. }
    revert Hclause. unfold clause.
    rewrite (getitem_Some _ _ _ Hname). cbn [mbind exc_bind is_str String.eqb].
    rewrite (getitem_Some _ _ _ Hvalue). cbn [mbind exc_bind].
    destruct (py_format_f float_fixed 2 v) as [s|e'] eqn:Hfmt; [done|].
    cbn [mbind exc_bind]. intros [= ->].
    split; [by eapply py_format_f_raise|done].
  - intros Hmsg. exfalso. revert Hmsg. apply Hfine.
    destruct (flagged (check_quantity_anomaly txn hist)),
      (flagged (check_timing txn hist)),
      (flagged (check_price_deviation txn hist ent));
      repeat constructor; auto.
Qed.

End Abort.

Section AbortExample.

#[local] Existing Instance StandIn.runtime.

Lemma text_amount_amount_flagged :
  check_amount_anomaly StandIn.forest StandIn.fit Lenient.predict
    RiskAgent_init text_amount_sale market_window
  = <["check" := Scalar (PStr "amount")]>
      (<["is_anomaly" := Scalar (PBool true)]>
        (<["value" := Scalar (PStr "5000")]>
          (<["mean" := Scalar (PFloat (np_mean (positive_amounts
                                                  market_window)))]>
            (<["std" := Scalar (PFloat (np_std (positive_amounts
                                                  market_window)))]> ∅)))).
Proof.
  assert (10 ≤ length (positive_amounts market_window))%nat as Hlen
    by (rewrite market_amounts; simpl; lia).
  unfold check_amount_anomaly.
  by rewrite (amount_body_runs StandIn.fit Lenient.predict RiskAgent_init
                text_amount_sale market_window market_amounts_recorded Hlen).
Qed.

Lemma text_amount_quantity_flagged :
  flagged (check_quantity_anomaly text_amount_sale market_window) = true.
Proof.
  apply quantity_flag_if.
  - eapply Forall_impl; [apply market_well_typed|]. by intros rec (_ & H & _).
  - intros v Hv.
    change (text_amount_sale !! "quantity") with (Some (PInt 1000)) in Hv.
    injection Hv as <-. by eexists.
  - rewrite market_quantities. simpl. lia.
  - change (num_field "quantity" text_amount_sale) with (IZR 1000).
    unfold z_score_of, fdiv, fsub. exact_arith.
    rewrite market_std_quantity, market_mean_quantity.
    destruct (Rltb 0 1) eqn:H; [|apply Rltb_false in H; lra].
    rewrite Rabs_pos_eq; lra.
Qed.

Lemma text_amount_aborts :
  Lenient.analyze_transaction (db_with market_window) "u1" text_amount_sale ∅
  = raise (ValueError "Unknown format code 'f' for object of type 'str'").
Proof.
  unfold Lenient.analyze_transaction.
  rewrite (analyze_unfold _ _ _ _ _ _ _ _ _ _ _ market_window_length).
  change (get_transactions_range (db_with market_window) "u1")
    with market_window.
  assert (flagged (check_unusual_timing StandIn.parse_iso text_amount_sale
                     market_window) = true) as Ht by (by vm_compute).
  assert (flagged (check_price_deviation text_amount_sale market_window ∅)
          = false) as Hp by done.
  unfold run_checks, generate_risk_message. cbn [List.filter].
  rewrite text_amount_amount_flagged, text_amount_quantity_flagged, Ht, Hp.
  rewrite flagged_insert_flag. cbn [length INR].
  destruct (Rltb (5 / 10) _) eqn:Hs; [|apply Rltb_false in Hs; lra].
  by rewrite mapM_exc_cons.
Qed.

(** With a model that accepts the text "5000" as an amount, a sale flagged
    for its amount, its quantity and its hour cannot be explained: the call
    raises instead of returning the verdict. *)
Lemma analyze_raises_on_unprintable_amount_witness :
  Lenient.analyze_transaction (db_with market_window) "u1" text_amount_sale ∅
  = raise (ValueError "Unknown format code 'f' for object of type 'str'") ∧
  ∃ v, text_amount_sale !! "amount" = Some v ∧ as_num v = None.
Proof.
  split; [apply text_amount_aborts|].
  destruct (analyze_raises_on_unprintable_amount StandIn.fit Lenient.predict
              StandIn.parse_iso StandIn.float_str StandIn.float_fixed
              StandIn.datetime_str RiskAgent_init (db_with market_window)
              "u1" text_amount_sale ∅ _ text_amount_aborts)
    as (_ & _ & _ & v & Hv & Hnone & _).
  by exists v.
Defined.

End AbortExample.

(** * The persistence service *)

Section MongoFacts.
Import MongoDBService.

(** ** The order of datetimes *)

Lemma lex_leb_refl (a : list Z) : lex_leb a a = true.
Proof.
  induction a as [|x a IH]; [done|]. simpl.
  rewrite Z.eqb_refl, IH. by rewrite orb_true_r.
Qed.

Lemma lex_leb_total (a b : list Z) :
  length a = length b → lex_leb a b = true ∨ lex_leb b a = true.
Proof.
  revert b. induction a as [|x a IH]; intros [|y b] Hlen; simpl in *;
    try (by left); try done.
  destruct (Z.ltb_spec x y); [by left|].
  destruct (Z.ltb_spec y x); [by right|].
  assert (x = y) as -> by lia. rewrite Z.eqb_refl. simpl.
  apply IH. lia.
Qed.

Lemma lex_leb_trans (a b c : list Z) :
  length a = length b → length b = length c →
  lex_leb a b = true → lex_leb b c = true → lex_leb a c = true.
Proof.
  revert b c. induction a as [|x a IH]; intros [|y b] [|z c] Hab Hbc;
    simpl in *; try done.
  rewrite !orb_true_iff, !andb_true_iff, !Z.ltb_lt, !Z.eqb_eq.
  intros [Hxy|[-> Hab']] [Hyz|[-> Hbc']]; try (left; lia).
  right. split; [done|]. eapply (IH b c); eauto.
Qed.

Lemma datetime_leb_refl (t : datetime) : datetime_leb t t = true.
Proof. apply lex_leb_refl. Qed.

Lemma datetime_leb_total (s t : datetime) :
  datetime_leb s t = true ∨ datetime_leb t s = true.
Proof. by apply lex_leb_total. Qed.

Lemma datetime_leb_trans (s t u : datetime) :
  datetime_leb s t = true → datetime_leb t u = true →
  datetime_leb s u = true.
Proof. by apply lex_leb_trans. Qed.

(** Cutting to the millisecond keeps the order. *)
Lemma to_millis_mono (s t : datetime) :
  datetime_leb s t = true → datetime_leb (to_millis s) (to_millis t) = true.
Proof.
  unfold datetime_leb, datetime_key, to_millis. simpl. intros H.
  repeat match goal with
  | |- ((?a <? ?b)%Z || _) = true =>
      destruct (Z.ltb_spec a b); simpl in *; [done|];
      destruct (Z.eqb_spec a b); simpl in *; [|done]
  end.
  assert (microsecond s ≤ microsecond t)%Z as Hle.
  { destruct (Z.ltb_spec (microsecond s) (microsecond t)); [lia|].
    destruct (Z.eqb_spec (microsecond s) (microsecond t)); [lia|done]. }
  assert (microsecond s / 1000 ≤ microsecond t / 1000)%Z
    by (apply Z.div_le_mono; lia).
  destruct (Z.ltb_spec (microsecond s `div` 1000 * 1000)
              (microsecond t `div` 1000 * 1000)); [done|].
  destruct (Z.eqb_spec (microsecond s `div` 1000 * 1000)
              (microsecond t `div` 1000 * 1000)); [done|lia].
Qed.

Lemma to_millis_idemp (t : datetime) : to_millis (to_millis t) = to_millis t.
Proof.
  unfold to_millis. simpl. f_equal.
  rewrite Z.div_mul by lia. done.
Qed.

#[global] Instance newer_total : Total newer.
Proof. intros a b. unfold newer. apply datetime_leb_total. Qed.

#[global] Instance newer_trans : Transitive newer.
Proof.
  intros a b c Hab Hbc. unfold newer in *. by eapply datetime_leb_trans.
Qed.

(** ** What the range query hands out *)

Lemma range_query_elem self user_id start_date end_date (rec : dict) :
  rec ∈ get_transactions_range self user_id start_date end_date ↔
  ∃ d, d ∈ transactions self ∧ owned_by user_id d = true
       ∧ created_between start_date end_date d = true
       ∧ rec = <["id" := PStr (oid d)]> (as_dict d).
Proof.
  unfold get_transactions_range. rewrite list_elem_of_fmap. split.
  - intros (d & -> & Hd). rewrite sorting.merge_sort_Permutation in Hd.
    apply list_elem_of_In, filter_In in Hd as [Hin Hp].
    apply andb_true_iff in Hp as [??].
    exists d. by rewrite list_elem_of_In.
  - intros (d & Hin & Ho & Hc & ->). exists d. split; [done|].
    rewrite sorting.merge_sort_Permutation.
    apply list_elem_of_In, filter_In. rewrite Ho, Hc.
    by rewrite <- list_elem_of_In.
Qed.

Lemma owned_by_inv user_id d :
  owned_by user_id d = true → body d !! "user_id" = Some (PStr user_id).
Proof.
  unfold owned_by. destruct (body d !! "user_id") as [[]|]; try done.
  by intros ->%String.eqb_eq.
Qed.

Lemma created_between_inv start_date end_date d :
  created_between start_date end_date d = true →
  ∃ t, body d !! "created_at" = Some (PDatetime t)
       ∧ datetime_leb (to_millis start_date) t = true
       ∧ datetime_leb t (to_millis end_date) = true.
Proof.
  unfold created_between. destruct (body d !! "created_at") as [[]|]; try done.
  intros [??]%andb_true_iff. by eexists.
Qed.

Lemma handed_out_lookup d (k : string) :
  k ≠ "id" → k ≠ "_id" →
  (<["id" := PStr (oid d)]> (as_dict d) : dict) !! k = body d !! k.
Proof. intros. unfold as_dict. by rewrite !lookup_insert_ne. Qed.

Lemma stamp_handed_out d :
  stamp (<["id" := PStr (oid d)]> (as_dict d)) = created_at d.
Proof. unfold stamp, created_at. by rewrite handed_out_lookup. Qed.

(** Every record of a range query carries a datetime object, not text. *)
Lemma range_query_dated self user_id start_date end_date (rec : dict) :
  rec ∈ get_transactions_range self user_id start_date end_date →
  ∃ t, rec !! "created_at" = Some (PDatetime t).
Proof.
  intros (d & _ & _ & (t & Ht & _)%created_between_inv & ->)%range_query_elem.
  exists t. by rewrite handed_out_lookup.
Qed.

(** X7.  Everything the range query returns belongs to the user asked for,
    carries as [created_at] a datetime object that lies between the two
    bounds cut to the millisecond, and carries the [ObjectId] of its
    document under [_id] and the text of it under [id]. *)
Theorem range_query_sound self user_id start_date end_date (rec : dict) :
  rec ∈ get_transactions_range self user_id start_date end_date →
  rec !! "user_id" = Some (PStr user_id)
  ∧ (∃ t, rec !! "created_at" = Some (PDatetime t)
          ∧ datetime_leb (to_millis start_date) t = true
          ∧ datetime_leb t (to_millis end_date) = true)
  ∧ (∃ i, rec !! "_id" = Some (PObjectId i) ∧ rec !! "id" = Some (PStr i)).
Proof.
  intros (d & _ & Ho%owned_by_inv & (t & Ht & Hs & He)%created_between_inv
            & ->)%range_query_elem.
  split; [by rewrite handed_out_lookup|]. split.
  - exists t. by rewrite handed_out_lookup.
  - exists (oid d). unfold as_dict.
    by rewrite lookup_insert_ne, !lookup_insert_eq.
Qed.

Lemma first_sale_found :
  first_sale_stored
  ∈ get_transactions_range first_sale.2 "shop-1" month_start month_end.
Proof. apply list_elem_of_In. vm_compute. by left. Qed.

Lemma range_query_sound_witness :
  first_sale_stored !! "user_id" = Some (PStr "shop-1")
  ∧ (∃ t, first_sale_stored !! "created_at" = Some (PDatetime t)
          ∧ datetime_leb (to_millis month_start) t = true
          ∧ datetime_leb t (to_millis month_end) = true)
  ∧ (∃ i, first_sale_stored !! "_id" = Some (PObjectId i)
          ∧ first_sale_stored !! "id" = Some (PStr i)).
Proof.
  apply (range_query_sound first_sale.2 "shop-1" month_start month_end).
  apply first_sale_found.
Defined.

(** X8.  The range query lists the newest record first: every record is at
    least as recent as every record after it. *)
Theorem range_query_newest_first self user_id start_date end_date :
  Sorted.StronglySorted (λ a b : dict, datetime_leb (stamp b) (stamp a) = true)
    (get_transactions_range self user_id start_date end_date).
Proof.
  unfold get_transactions_range.
  apply (sorting.StronglySorted_fmap _ newer).
  - intros a b Hab. by rewrite !stamp_handed_out.
  - apply sorting.StronglySorted_merge_sort; apply _.
Qed.

(** ** Writing, then reading *)

Lemma transaction_data_created user_id entities raw_text created updated :
  transaction_data user_id entities raw_text created updated !! "created_at"
  = Some (PDatetime created).
Proof.
  unfold transaction_data. rewrite !lookup_insert_ne by done.
  by rewrite lookup_insert_eq.
Qed.

Lemma transaction_data_user user_id entities raw_text created updated :
  transaction_data user_id entities raw_text created updated !! "user_id"
  = Some (PStr user_id).
Proof. unfold transaction_data. by rewrite lookup_insert_eq. Qed.

(** The stored document is the returned transaction as BSON keeps it,
    with the [ObjectId] in the place of its text. *)
Lemma stored_is_returned (data : dict) new_id :
  <["id" := PStr new_id]> (as_dict (mk_document new_id (to_bson <$> data)))
  = <["_id" := PObjectId new_id]>
      (to_bson <$> (<["id" := PStr new_id]> (<["_id" := PStr new_id]> data))).
Proof.
  unfold as_dict. simpl. rewrite !fmap_insert. simpl.
  rewrite (insert_insert_ne _ "_id" "id") by done.
  by rewrite insert_insert_eq.
Qed.

Lemma filter_snoc {A} (p : A → bool) (l : list A) (x : A) :
  List.filter p (l ++ [x])
  = (List.filter p l ++ if p x then [x] else [])%list.
Proof. rewrite List.filter_app. simpl. by destruct (p x). Qed.

(** X9.  A transaction created at a moment between the two bounds is found
    by the range query of its user: the query returns what it returned
    before and one record more, in some order.  That record is the dict
    [create_transaction] returned, but for its dates, which are cut to the
    millisecond, and for [_id], which holds the [ObjectId] where the
    returned dict holds its text. *)
Theorem created_transaction_is_found self user_id entities raw_text
    created updated new_id start_date end_date :
  datetime_leb start_date created = true →
  datetime_leb created end_date = true →
  let made :=
    create_transaction self user_id entities raw_text created updated
      new_id in
  get_transactions_range made.2 user_id start_date end_date
  ≡ₚ <["_id" := PObjectId new_id]> (to_bson <$> made.1)
     :: get_transactions_range self user_id start_date end_date.
Proof.
  intros Hs He. simpl. unfold get_transactions_range, insert_one. simpl.
  rewrite filter_snoc.
  set (d := mk_document new_id _).
  assert (owned_by user_id d = true) as ->.
  { unfold owned_by, d. simpl.
    rewrite lookup_fmap, transaction_data_user. simpl.
    apply String.eqb_refl. }
  assert (created_between start_date end_date d = true) as ->.
  { unfold created_between, d. simpl.
    rewrite lookup_fmap, transaction_data_created. simpl.
    by rewrite !to_millis_mono. }
  simpl. rewrite !sorting.merge_sort_Permutation.
  rewrite fmap_app. simpl. rewrite <- Permutation_cons_append.
  unfold d. rewrite stored_is_returned. by apply Permutation_cons.
Qed.

Lemma created_transaction_is_found_witness :
  get_transactions_range first_sale.2 "shop-1" month_start month_end
  ≡ₚ first_sale_stored
     :: get_transactions_range empty_store "shop-1" month_start month_end.
Proof.
  apply (created_transaction_is_found empty_store "shop-1" rice_entities
           "sold 5 kg rice for 500" afternoon afternoon
           "65e72f0a9d1c4b0012345678" month_start month_end);
    reflexivity.
Defined.

(** X10.  Creating a transaction for one user changes no other user's range
    query. *)
Theorem other_users_see_no_change self user_id entities raw_text
    created updated new_id other start_date end_date :
  other ≠ user_id →
  get_transactions_range
    (create_transaction self user_id entities raw_text created updated
       new_id).2 other start_date end_date
  = get_transactions_range self other start_date end_date.
Proof.
  intros Hne. unfold get_transactions_range, create_transaction, insert_one.
  cbn [snd transactions]. rewrite filter_snoc.
  set (d := mk_document new_id _).
  assert (owned_by other d = false) as ->.
  { unfold owned_by, d. simpl.
    rewrite lookup_fmap, transaction_data_user. simpl.
    by apply String.eqb_neq. }
  simpl. by rewrite app_nil_r.
Qed.

Lemma other_users_see_no_change_witness :
  get_transactions_range first_sale.2 "shop-2" month_start month_end
  = get_transactions_range empty_store "shop-2" month_start month_end.
Proof.
  apply (other_users_see_no_change empty_store "shop-1" rice_entities
           "sold 5 kg rice for 500" afternoon afternoon
           "65e72f0a9d1c4b0012345678" "shop-2" month_start month_end).
  done.
Defined.

End MongoFacts.

(** * The web application's path: store, then analyse

    [create_manual_transaction] and the other routes of src/app.py hand the
    dict returned by [create_transaction] to the risk agent, whose window
    is a range query on the same store. *)

Lemma hour_of_stamped parse (txn : dict) :
  datetime_stamped txn →
  hour_of parse txn = raise (TypeError "fromisoformat: argument must be str").
Proof.
  intros [t Ht]. unfold hour_of. by rewrite (getitem_Some _ _ _ Ht).
Qed.

Lemma created_is_stamped store user_id entities raw_text created updated
    new_id :
  datetime_stamped
    (MongoDBService.create_transaction store user_id entities raw_text
       created updated new_id).1.
Proof.
  exists created. unfold MongoDBService.create_transaction. cbn [fst].
  rewrite !lookup_insert_ne by done.
  apply transaction_data_created.
Qed.

Lemma timing_fails_on_stamped parse (txn : dict) (hist : list dict) :
  datetime_stamped txn →
  check_unusual_timing parse txn hist
  = error_result "timing" (TypeError "fromisoformat: argument must be str").
Proof.
  intros H. unfold check_unusual_timing, timing_body.
  by rewrite (hour_of_stamped _ _ H).
Qed.

Lemma timing_fails_on_stamped_window parse (txn : dict) (hist : list dict) :
  hist ≠ [] → Forall datetime_stamped hist →
  ∃ e, check_unusual_timing parse txn hist = error_result "timing" e.
Proof.
  intros Hne Hall. unfold check_unusual_timing, timing_body.
  destruct (hour_of parse txn) as [h|e]; [|by exists e].
  cbn [mbind exc_bind].
  destruct (mapM_exc_raise (hour_of parse) hist) as [e He].
  { destruct Hall as [|rec rest Hrec _]; [done|].
    apply Exists_cons_hd. eexists. by apply hour_of_stamped. }
  rewrite He. by exists e.
Qed.

(** X11.  The timing detector can make nothing of the transaction that
    [create_transaction] returns: its [created_at] is a datetime object,
    [fromisoformat] refuses it, and the detector reports that error
    instead of a verdict - at any hour, for any window. *)
Theorem timing_check_fails_on_created_transaction parse store user_id
    entities raw_text created updated new_id (hist : list dict) :
  check_unusual_timing parse
    (MongoDBService.create_transaction store user_id entities raw_text
       created updated new_id).1 hist
  = error_result "timing" (TypeError "fromisoformat: argument must be str").
Proof. apply timing_fails_on_stamped, created_is_stamped. Qed.

(** X12.  Nor of a window that comes from the range query: as soon as the
    window holds one record, the timing detector ends in an error result,
    whatever the transaction looks like. *)
Theorem timing_check_fails_on_stored_window parse store user_id start_date
    end_date (txn : dict) :
  MongoDBService.get_transactions_range store user_id start_date end_date
  ≠ [] →
  ∃ e, check_unusual_timing parse txn
         (MongoDBService.get_transactions_range store user_id start_date
            end_date)
       = error_result "timing" e.
Proof.
  intros Hne. apply timing_fails_on_stamped_window; [done|].
  apply Forall_forall. intros rec Hrec. by eapply range_query_dated.
Qed.

Lemma timing_check_fails_on_stored_window_witness :
  ∃ e, check_unusual_timing StandIn.parse_iso night_sale
         (MongoDBService.get_transactions_range first_sale.2 "shop-1"
            month_start month_end)
       = error_result "timing" e.
Proof.
  apply (timing_check_fails_on_stored_window StandIn.parse_iso first_sale.2
           "shop-1" month_start month_end night_sale).
  vm_compute. discriminate.
Defined.

Section Pipeline.

Context {rt : Runtime}.
Context {forest : Type}.
Context (IsolationForest_fit : R → Z → list R → exc forest)
        (predict : forest → pyval → exc Z)
        (parse_iso : string → exc datetime)
        (float_str : R → string) (float_fixed : nat → R → string)
        (datetime_str : datetime → string)
        (self : RiskAgent).

Local Abbreviation check_amount :=
  (check_amount_anomaly forest IsolationForest_fit predict self).
Local Abbreviation check_timing := (check_unusual_timing parse_iso).
Local Abbreviation checks_of :=
  (run_checks forest IsolationForest_fit predict parse_iso self).
Local Abbreviation analyze :=
  (analyze_transaction forest IsolationForest_fit predict parse_iso
     float_str float_fixed datetime_str self).

(** With the timing detector silent, the score is the share of the other
    three detectors, and only all three together pass one half. *)
Lemma analyze_without_timing db user_id txn ent r db' :
  flagged (check_timing txn (get_transactions_range db user_id)) = false →
  analyze db user_id txn ent = ok (r, db') →
  let hist := get_transactions_range db user_id in
  (anomaly_detected r = true ↔
     (10 ≤ length hist)%nat
     ∧ flagged (check_amount txn hist) = true
     ∧ flagged (check_quantity_anomaly txn hist) = true
     ∧ flagged (check_price_deviation txn hist ent) = true)
  ∧ (risk_score r <= 3 / 4)%R.
Proof.
  intros Ht Hr hist.
  destruct (Nat.ltb_spec (length hist) 10) as [Hlt|Hlen].
  { revert Hr. unfold analyze_transaction. fold hist.
    destruct (Nat.ltb_spec (length hist) 10); [|lia].
    intros [= <- <-]. simpl. split; [|lra].
    split; [done|]. intros [? _]. lia. }
  rewrite (analyze_unfold _ _ _ _ _ _ _ _ _ _ _ Hlen) in Hr.
  fold hist in Hr, Ht. cbv zeta in Hr. revert Hr.
  unfold run_checks. cbn [List.filter]. rewrite Ht.
  destruct (flagged (check_amount txn hist)),
    (flagged (check_quantity_anomaly txn hist)),
    (flagged (check_price_deviation txn hist ent));
    cbn [length INR];
    (destruct (Rltb _ _) eqn:Hs;
       [apply Rltb_true in Hs|apply Rltb_false in Hs]);
    try (exfalso; simpl in Hs; lra);
    try (destruct (generate_risk_message _ _ _ _); [|done]);
    cbn [mbind exc_bind]; intros [= <- <-]; cbn [anomaly_detected risk_score];
    (split; [split; [by intros|by intros (_ & ? & ? & ?)]|simpl; lra]).
Qed.

(** X13.  On the application's path a fraud alert needs every remaining
    detector: the analysis of a transaction just created, against the
    window read from the store, reports an anomaly exactly when the window
    holds at least 10 records and the amount, the quantity and the price
    detector all flag; the risk score never exceeds 3/4. *)
Theorem pipeline_alert_needs_three_detectors store user_id entities raw_text
    created updated new_id start_date end_date raised r db' :
  let made :=
    MongoDBService.create_transaction store user_id entities raw_text
      created updated new_id in
  let window :=
    MongoDBService.get_transactions_range made.2 user_id start_date
      end_date in
  analyze (serving made.2 start_date end_date raised) user_id made.1 entities
  = ok (r, db') →
  (anomaly_detected r = true ↔
     (10 ≤ length window)%nat
     ∧ flagged (check_amount made.1 window) = true
     ∧ flagged (check_quantity_anomaly made.1 window) = true
     ∧ flagged (check_price_deviation made.1 window entities) = true)
  ∧ (risk_score r <= 3 / 4)%R.
Proof.
  intros made window Hr.
  refine (analyze_without_timing _ _ _ _ _ _ _ Hr).
  unfold made.
  by rewrite timing_fails_on_stamped by apply created_is_stamped.
Qed.

Lemma price_silent_without_item (txn : dict) (hist : list dict) (ent : dict) :
  truthy (get ent "item" PNone) = false →
  flagged (check_price_deviation txn hist ent) = false.
Proof.
  intros Hitem. unfold check_price_deviation, price_body. by rewrite Hitem.
Qed.

(** With two detectors silent the analysis returns, reports no anomaly and
    leaves the alerts alone. *)
Lemma analyze_two_silent db user_id txn ent :
  let hist := get_transactions_range db user_id in
  flagged (check_timing txn hist) = false →
  flagged (check_price_deviation txn hist ent) = false →
  ∃ r, analyze db user_id txn ent = ok (r, db)
       ∧ anomaly_detected r = false ∧ message r = None.
Proof.
  intros hist Ht Hp.
  destruct (Nat.ltb_spec (length hist) 10) as [Hlt|Hlen].
  { unfold analyze_transaction. fold hist.
    destruct (Nat.ltb_spec (length hist) 10); [|lia]. by eexists. }
  rewrite (analyze_unfold _ _ _ _ _ _ _ _ _ _ _ Hlen).
  fold hist. cbv zeta.
  unfold run_checks. cbn [List.filter]. rewrite Ht, Hp.
  destruct (flagged (check_amount txn hist)),
    (flagged (check_quantity_anomaly txn hist));
    cbn [length INR];
    (destruct (Rltb _ _) eqn:Hs;
       [apply Rltb_true in Hs; exfalso; simpl in Hs; lra|]);
    by eexists.
Qed.

(** X14.  On the application's path a transaction in which no item was
    recognised never raises a fraud alert: the analysis returns, reports
    no anomaly and no message, and the store's alerts are what they
    were. *)
Theorem pipeline_no_item_no_alert store user_id entities raw_text created
    updated new_id start_date end_date raised :
  truthy (get entities "item" PNone) = false →
  let made :=
    MongoDBService.create_transaction store user_id entities raw_text
      created updated new_id in
  let db := serving made.2 start_date end_date raised in
  ∃ r, analyze db user_id made.1 entities = ok (r, db)
       ∧ anomaly_detected r = false ∧ message r = None.
Proof.
  intros Hitem made db. apply analyze_two_silent.
  - unfold made.
    by rewrite timing_fails_on_stamped by apply created_is_stamped.
  - by apply price_silent_without_item.
Qed.

End Pipeline.

Lemma busy_window_length :
  (10 ≤ length (MongoDBService.get_transactions_range
                  (MongoDBService.create_transaction busy_store "shop-1"
                     cash_entities "received 500" afternoon afternoon
                     "65e72f0a9d1c4b0012345678").2
                  "shop-1" month_start month_end))%nat.
Proof. apply Nat.leb_le. vm_compute. reflexivity. Qed.

Section PipelineExample.

#[local] Existing Instance StandIn.runtime.

Lemma pipeline_no_item_no_alert_witness :
  let made :=
    MongoDBService.create_transaction busy_store "shop-1" cash_entities
      "received 500" afternoon afternoon "65e72f0a9d1c4b0012345678" in
  let db := serving made.2 month_start month_end [] in
  ∃ r, StandIn.analyze_transaction db "shop-1" made.1 cash_entities
       = ok (r, db)
       ∧ anomaly_detected r = false ∧ message r = None.
Proof.
  apply (pipeline_no_item_no_alert StandIn.fit StandIn.predict
           StandIn.parse_iso StandIn.float_str StandIn.float_fixed
           StandIn.datetime_str RiskAgent_init busy_store "shop-1"
           cash_entities "received 500" afternoon afternoon
           "65e72f0a9d1c4b0012345678" month_start month_end []).
  reflexivity.
Defined.

Lemma pipeline_alert_needs_three_detectors_witness :
  let made :=
    MongoDBService.create_transaction busy_store "shop-1" cash_entities
      "received 500" afternoon afternoon "65e72f0a9d1c4b0012345678" in
  let window :=
    MongoDBService.get_transactions_range made.2 "shop-1" month_start
      month_end in
  ∃ r db',
    StandIn.analyze_transaction
      (serving made.2 month_start month_end []) "shop-1" made.1
      cash_entities = ok (r, db')
    ∧ (anomaly_detected r = true ↔
         (10 ≤ length window)%nat
         ∧ flagged (check_amount_anomaly StandIn.forest StandIn.fit
                      StandIn.predict RiskAgent_init made.1 window) = true
         ∧ flagged (check_quantity_anomaly made.1 window) = true
         ∧ flagged (check_price_deviation made.1 window cash_entities)
           = true)
    ∧ (risk_score r <= 3 / 4)%R.
Proof.
  intros made window.
  destruct (analyze_two_silent StandIn.fit StandIn.predict StandIn.parse_iso
              StandIn.float_str StandIn.float_fixed StandIn.datetime_str
              RiskAgent_init (serving made.2 month_start month_end [])
              "shop-1" made.1 cash_entities) as (r & Hr & _).
  - unfold made.
    by rewrite timing_fails_on_stamped by apply created_is_stamped.
  - by apply price_silent_without_item.
  - exists r, (serving made.2 month_start month_end []).
    split; [exact Hr|].
    exact (pipeline_alert_needs_three_detectors StandIn.fit StandIn.predict
             StandIn.parse_iso StandIn.float_str StandIn.float_fixed
             StandIn.datetime_str RiskAgent_init busy_store "shop-1"
             cash_entities "received 500" afternoon afternoon
             "65e72f0a9d1c4b0012345678" month_start month_end [] r _ Hr).
Defined.

End PipelineExample.

(** * The liquidity agent on the store *)

Section Liquidity.

Context {rt : Runtime}.
Context (parse_iso : string → exc datetime)
        (days_before : Z → datetime → datetime).

Local Abbreviation predict :=
  (LiquidityAgent.predict_liquidity_crunch parse_iso days_before).
Local Abbreviation process :=
  (LiquidityAgent.process_transaction parse_iso days_before).

(** The loop stops at the first record whose date is a datetime object. *)
Lemma daily_flows_stamped (rec : dict) (rest : list dict) flows :
  datetime_stamped rec →
  LiquidityAgent.daily_flows_of parse_iso (rec :: rest) flows
  = raise (TypeError "fromisoformat: argument must be str").
Proof.
  intros [t Ht]. cbn [LiquidityAgent.daily_flows_of].
  by rewrite (getitem_Some _ _ _ Ht).
Qed.

Lemma predict_on_store db user_id now later :
  predict db user_id now later
  = if (length (MongoDBService.get_transactions_range db user_id
                  (days_before 30 now) now) <? 5)%nat
    then LiquidityAgent.Insufficient
    else LiquidityAgent.Failed "fromisoformat: argument must be str".
Proof.
  unfold LiquidityAgent.predict_liquidity_crunch,
    LiquidityAgent.prediction_body.
  destruct (Nat.ltb_spec
              (length (MongoDBService.get_transactions_range db user_id
                         (days_before 30 now) now)) 5) as [Hlt|Hge];
    [done|].
  destruct (MongoDBService.get_transactions_range db user_id
              (days_before 30 now) now) as [|rec rest] eqn:Hw;
    [simpl in Hge; lia|].
  rewrite daily_flows_stamped; [done|].
  eapply range_query_dated. rewrite Hw. by left.
Qed.

(** X15.  Against the store the liquidity prediction never predicts: with
    fewer than 5 transactions in the last 30 days it answers
    Insufficient data, and with 5 or more it ends in the error of
    [fromisoformat], which is handed a datetime object by the first record
    of the window.  Either way [days_until_crunch] is [None]. *)
Theorem liquidity_prediction_never_predicts db user_id now later :
  predict db user_id now later
  = (if (length (MongoDBService.get_transactions_range db user_id
                   (days_before 30 now) now) <? 5)%nat
     then LiquidityAgent.Insufficient
     else LiquidityAgent.Failed "fromisoformat: argument must be str")
  ∧ LiquidityAgent.days_until_crunch (predict db user_id now later) = None.
Proof.
  rewrite predict_on_store. split; [done|].
  by destruct (_ <? _)%nat.
Qed.

(** X16.  So [process_transaction] of the liquidity agent comes down to
    the cash impact: it raises when the impact cannot be computed (a
    purchase whose amount is not a number), and otherwise returns the
    impact with no alert and leaves the store as it was. *)
Theorem liquidity_agent_never_alerts db user_id (txn ent : dict) clock
    new_id :
  process db user_id txn ent clock new_id
  = (impact ← LiquidityAgent.cash_impact_of ent;
     mret ({| LiquidityAgent.cash_impact := impact;
              LiquidityAgent.alert := None |}, db)).
Proof.
  destruct clock as [[now later] last].
  unfold LiquidityAgent.process_transaction.
  destruct (LiquidityAgent.cash_impact_of ent) as [impact|e]; [|done].
  cbn [mbind exc_bind]. rewrite predict_on_store.
  by destruct (_ <? _)%nat.
Qed.

End Liquidity.

(** X17.  Whatever the prediction, the second half of
    [process_transaction] returns; it raises an alert exactly when
    [days_until_crunch] is a number other than 0 and at most 7.  The alert
    is then stored as one more document of the alerts, for the same
    number of days, with severity high up to 3 days and medium above:
    the severity critical, which [create_liquidity_alert] keeps for 0
    days, is never reached from here. *)
Theorem liquidity_alert_is_never_critical db user_id
    (p : LiquidityAgent.prediction) now new_id :
  ∃ found db',
    LiquidityAgent.alert_on db user_id p now new_id = ok (found, db')
    ∧ match found with
      | Some a =>
          ∃ days, LiquidityAgent.days_until_crunch p = Some days
            ∧ days ≠ 0%Z ∧ (days ≤ 7)%Z
            ∧ LiquidityAgent.days_remaining a = days
            ∧ LiquidityAgent.la_severity a
              = (if (days <=? 3)%Z then "high" else "medium")
            ∧ MongoDBService.alerts db'
              = (MongoDBService.alerts db
                 ++ [MongoDBService.mk_document new_id
                       (MongoDBService.to_bson
                        <$> MongoDBService.alert_data user_id
                              "liquidity_crunch"
                              (LiquidityAgent.la_message a)
                              (LiquidityAgent.la_severity a) now)])%list
            ∧ MongoDBService.transactions db'
              = MongoDBService.transactions db
      | None =>
          db' = db
          ∧ ∀ days, LiquidityAgent.days_until_crunch p = Some days →
                    days = 0%Z ∨ (7 < days)%Z
      end.
Proof.
  unfold LiquidityAgent.alert_on, LiquidityAgent.create_liquidity_alert,
    LiquidityAgent.alert_threshold_days,
    Config.LIQUIDITY_ALERT_THRESHOLD_DAYS.
  destruct (LiquidityAgent.days_until_crunch p) as [days|] eqn:Hd;
    [|by eexists None, db].
  destruct (Z.eqb_spec days 0) as [->|Hne].
  { eexists None, db. split; [done|]. split; [done|].
    intros ? [= <-]. by left. }
  destruct (Z.leb_spec days 7) as [Hle|Hgt]; cbn [negb andb].
  - destruct (Z.leb_spec days 3); cbn [mbind exc_bind mret exc_ret];
      eexists (Some _), _; (split; [reflexivity|]);
      exists days; cbn; by destruct (Z.leb_spec days 3); try lia.
  - eexists None, db. split; [done|]. split; [done|].
    intros ? [= <-]. by right.
Qed.

(** * The inventory *)

Section Inventory.
Import MongoDBService.

Lemma update_one_none (p : document → bool) f (l : list document) :
  update_one p f l = ok None → Forall (λ d, p d = false) l.
Proof.
  induction l as [|d l IH]; [by constructor|]. cbn [update_one].
  destruct (p d) eqn:Hp.
  - by destruct (f d).
  - destruct (update_one p f l) as [[l'|]|e]; try done.
    intros _. constructor; [done|]. by apply IH.
Qed.

Lemma update_one_none_inv (p : document → bool) f (l : list document) :
  Forall (λ d, p d = false) l → update_one p f l = ok None.
Proof.
  induction 1 as [|d l Hd _ IH]; [done|]. cbn [update_one].
  by rewrite Hd, IH.
Qed.

Lemma update_one_some (p : document → bool) f (l l' : list document) :
  update_one p f l = ok (Some l') →
  ∃ pre d d' post,
    l = (pre ++ d :: post)%list ∧ Forall (λ x, p x = false) pre
    ∧ p d = true ∧ f d = ok d' ∧ l' = (pre ++ d' :: post)%list.
Proof.
  revert l'. induction l as [|d l IH]; intros l'; [done|].
  cbn [update_one]. destruct (p d) eqn:Hp.
  - destruct (f d) as [d'|e] eqn:Hf; [|done].
    intros [= <-]. by exists [], d, d', l.
  - destruct (update_one p f l) as [[l1|]|e]; try done.
    intros [= <-].
    destruct (IH l1 eq_refl) as (pre & x & x' & post & -> & Hpre & Hx & Hf
                                   & ->).
    exists (d :: pre), x, x', post. repeat split; try done.
    by constructor.
Qed.

Lemma update_one_some_inv (p : document → bool) f pre d d' post :
  Forall (λ x, p x = false) pre → p d = true → f d = ok d' →
  update_one p f (pre ++ d :: post) = ok (Some (pre ++ d' :: post)%list).
Proof.
  intros Hpre Hd Hf. induction Hpre as [|x pre Hx _ IH].
  - simpl. by rewrite Hd, Hf.
  - simpl. by rewrite Hx, IH.
Qed.

Lemma find_first (p : document → bool) pre d post :
  Forall (λ x, p x = false) pre → p d = true →
  List.find p (pre ++ d :: post) = Some d.
Proof.
  intros Hpre Hd. induction Hpre as [|x pre Hx _ IH]; simpl.
  - by rewrite Hd.
  - by rewrite Hx.
Qed.

Lemma find_first_inv (p : document → bool) (l : list document) d :
  List.find p l = Some d →
  ∃ pre post, l = (pre ++ d :: post)%list
              ∧ Forall (λ x, p x = false) pre ∧ p d = true.
Proof.
  induction l as [|x l IH]; [done|]. simpl. destruct (p x) eqn:Hx.
  - intros [= ->]. by exists [], l.
  - intros (pre & post & -> & Hpre & Hd)%IH.
    exists (x :: pre), post. repeat split; try done. by constructor.
Qed.

Lemma restock_inv change now d d' :
  restock change now d = ok d' →
  ∃ q, inc_field (body d !! "quantity") change = ok q
       ∧ d' = restocked d q now.
Proof.
  unfold restock. destruct (inc_field _ _) as [q|e]; [|done].
  intros [= <-]. by exists q.
Qed.

Lemma restocked_field d q now (k : string) :
  k ≠ "last_updated" → k ≠ "quantity" →
  body (restocked d q now) !! k = body d !! k.
Proof. intros. simpl. by rewrite !lookup_insert_ne. Qed.

Lemma restocked_stock_of user_id item d q now :
  stock_of user_id item (restocked d q now) = stock_of user_id item d.
Proof.
  unfold stock_of, field_matches. by rewrite !restocked_field.
Qed.

(** The two ways [update_inventory] can end well. *)
Lemma update_inventory_cases self user_id item change now later new_id r
    self' :
  update_inventory self user_id item change now later new_id = ok (r, self') →
  transactions self' = transactions self ∧ alerts self' = alerts self
  ∧ ((Forall (λ d, stock_of user_id item d = false) (inventory self)
      ∧ ∃ q, max0 change = ok q
          ∧ inventory self'
            = (inventory self
               ++ [mk_document new_id
                     (to_bson <$> inventory_data user_id item q later)])%list
          ∧ r = <["id" := PStr new_id]>
                  (<["_id" := PObjectId new_id]>
                     (inventory_data user_id item q later)))
     ∨ (∃ pre d post q,
          inventory self = (pre ++ d :: post)%list
          ∧ Forall (λ x, stock_of user_id item x = false) pre
          ∧ stock_of user_id item d = true
          ∧ inc_field (body d !! "quantity") change = ok q
          ∧ inventory self' = (pre ++ restocked d q now :: post)%list
          ∧ r = <["id" := PStr (oid d)]> (as_dict (restocked d q now)))).
Proof.
  unfold update_inventory.
  destruct (is_bson_number change); [|done]. cbn [negb].
  destruct (update_one _ _ _) as [[inv'|]|e] eqn:Hu; [| |done];
    cbn [mbind exc_bind].
  - apply update_one_some in Hu
      as (pre & d & d' & post & Hinv & Hpre & Hd & Hf & ->).
    apply restock_inv in Hf as (q & Hq & ->).
    rewrite find_first; [|done|by rewrite restocked_stock_of].
    intros [= <- <-]. repeat split; try done.
    right. by exists pre, d, post, q.
  - apply update_one_none in Hu.
    destruct (max0 change) as [q|e] eqn:Hq; [|done].
    cbn [mbind exc_bind]. intros [= <- <-]. repeat split; try done.
    left. split; [done|]. by exists q.
Qed.

(** ** The unique index *)

Lemma bson_eqb_sym (a b : pyval) : bson_eqb a b = bson_eqb b a.
Proof.
  destruct a, b; simpl; try done.
  - by destruct b, b0.
  - apply Z.eqb_sym.
  - unfold Reqb. by repeat destruct (Req_dec_T _ _).
  - unfold Reqb. by repeat destruct (Req_dec_T _ _).
  - unfold Reqb. by repeat destruct (Req_dec_T _ _).
  - apply String.eqb_sym.
  - apply andb_comm.
  - apply String.eqb_sym.
Qed.

Lemma bson_eqb_to_bson (a b : pyval) :
  bson_eqb a (to_bson b) = bson_eqb a b.
Proof.
  destruct a, b; simpl; try done. by rewrite to_millis_idemp.
Qed.

Lemma same_stock_sym a b : same_stock a b = same_stock b a.
Proof.
  unfold same_stock.
  by rewrite (bson_eqb_sym (default PNone (body a !! "user_id"))),
    (bson_eqb_sym (default PNone (body a !! "item_name"))).
Qed.

Lemma same_stock_restocked_l a b q now :
  same_stock (restocked a q now) b = same_stock a b.
Proof. unfold same_stock. by rewrite !restocked_field. Qed.

Lemma same_stock_new d user_id item q later new_id :
  same_stock d
    (mk_document new_id (to_bson <$> inventory_data user_id item q later))
  = stock_of user_id item d.
Proof.
  unfold same_stock, stock_of, field_matches, inventory_data. simpl.
  rewrite !lookup_fmap.
  rewrite lookup_insert_eq, lookup_insert_ne, lookup_insert_eq by done.
  simpl. by rewrite bson_eqb_to_bson.
Qed.

Lemma items_unique_restocked pre d post q now :
  items_unique (pre ++ d :: post)%list →
  items_unique (pre ++ restocked d q now :: post)%list.
Proof.
  intros Huniq i j a b Ha Hb Hsame.
  assert (∀ (k : nat) x,
            (pre ++ restocked d q now :: post)%list !! k = Some x →
            ∃ y, (pre ++ d :: post)%list !! k = Some y
                 ∧ ∀ z, same_stock x z = same_stock y z) as Hback.
  { intros k x Hk.
    destruct (decide (k = length pre)) as [->|Hne].
    - rewrite list_lookup_middle in Hk by done. injection Hk as <-.
      exists d. rewrite list_lookup_middle by done. split; [done|].
      intros z. apply same_stock_restocked_l.
    - exists x. split; [|done].
      destruct (decide (k < length pre)%nat) as [Hlt|Hge].
      + rewrite lookup_app_l in Hk |- * by done. done.
      + rewrite lookup_app_r in Hk |- * by lia.
        destruct (k - length pre)%nat as [|m] eqn:Hm; [lia|]. done. }
  destruct (Hback i a Ha) as (a' & Ha' & Haa).
  destruct (Hback j b Hb) as (b' & Hb' & Hbb).
  apply (Huniq i j a' b' Ha' Hb').
  by rewrite <- Haa, same_stock_sym, <- Hbb, same_stock_sym.
Qed.

Lemma items_unique_new inv d :
  items_unique inv → Forall (λ x, same_stock x d = false) inv →
  items_unique (inv ++ [d])%list.
Proof.
  intros Huniq Hnew i j a b Ha Hb Hsame.
  assert (∀ (k : nat) x, (inv ++ [d])%list !! k = Some x →
            (inv !! k = Some x ∧ same_stock x d = false)
            ∨ (k = length inv ∧ x = d)) as Hsplit.
  { intros k x Hk. apply lookup_app_Some in Hk as [Hk|[Hge Hk]].
    - left. split; [done|].
      by apply (proj1 (Forall_lookup _ _) Hnew k).
    - right. apply list_lookup_singleton_Some in Hk as [? ->].
      split; [lia|done]. }
  destruct (Hsplit i a Ha) as [[Ha' Had]|[-> ->]],
    (Hsplit j b Hb) as [[Hb' Hbd]|[-> ->]].
  - by apply (Huniq i j a b).
  - congruence.
  - rewrite same_stock_sym in Hsame. congruence.
  - done.
Qed.

(** X18.  [update_inventory] keeps the unique index intact: if no two
    documents of the inventory stand for the same item of the same user,
    this is still so afterwards - a known item is updated in place and only
    an unknown one is inserted. *)
Theorem update_inventory_keeps_items_unique self user_id item change now
    later new_id r self' :
  items_unique (inventory self) →
  update_inventory self user_id item change now later new_id = ok (r, self') →
  items_unique (inventory self').
Proof.
  intros Huniq (_ & _ & [(Hnone & q & _ & -> & _)
                        |(pre & d & post & q & Hinv & _ & _ & _ & -> & _)])
                 %update_inventory_cases.
  - apply items_unique_new; [done|].
    eapply Forall_impl; [exact Hnone|]. intros x Hx.
    by rewrite same_stock_new.
  - rewrite Hinv in Huniq. by apply items_unique_restocked.
Qed.

(** Three more rice come in on a shelf that has five. *)
Lemma update_inventory_keeps_items_unique_witness :
  items_unique (inventory rice_shelf)
  ∧ update_inventory rice_shelf "shop-1" (PStr "rice") (PInt 3) afternoon
      afternoon "65e72f0a9d1c4b0012345678"
    = ok (<["id" := PStr "65e72f0a9d1c4b00123456aa"]>
            (<["_id" := PObjectId "65e72f0a9d1c4b00123456aa"]>
               (to_bson <$> inventory_data "shop-1" (PStr "rice") (PInt 8)
                              afternoon)),
          rice_shelf_restocked)
  ∧ items_unique (inventory rice_shelf_restocked).
Proof.
  assert (items_unique (inventory rice_shelf)) as Huniq.
  { intros [|i] [|j] a b Ha Hb _; try done. }
  assert (update_inventory rice_shelf "shop-1" (PStr "rice") (PInt 3)
            afternoon afternoon "65e72f0a9d1c4b0012345678"
          = ok (<["id" := PStr "65e72f0a9d1c4b00123456aa"]>
                  (<["_id" := PObjectId "65e72f0a9d1c4b00123456aa"]>
                     (to_bson <$> inventory_data "shop-1" (PStr "rice")
                                    (PInt 8) afternoon)),
                rice_shelf_restocked)) as Hrun.
  { by vm_compute. }
  split; [done|]. split; [done|].
  exact (update_inventory_keeps_items_unique _ _ _ _ _ _ _ _ _ Huniq Hrun).
Defined.

End Inventory.
